(** * create-task-action: the Coder client and the task action, embedded

    A shallow embedding of [src/coder-client.ts], [src/action.ts],
    [src/index.ts] and [src/schemas.ts].  Asynchronous code is written in a
    state-and-exception monad over an abstract world; every awaited
    platform call (fetch, timers, the Octokit REST methods, the
    [@actions/core] log functions) leaves an event in a trace, so that
    statements about which calls a run makes are statements about that
    trace. *)

From Stdlib Require Import String Ascii List ZArith Lia Bool Arith.
From Stdlib Require Import DecimalString.
From Stdlib Require DecimalPos.
Import ListNotations.

Local Open Scope string_scope.
Local Open Scope Z_scope.

Set Implicit Arguments.
Set Warnings "-register-all".

(* ================================================================== *)
(** ** JSON values and the records of the zod schemas *)

(** A parsed JSON document.  Numbers are the integers; an object is the
    list of its (distinct) keys with their values. *)
Inductive Json : Type :=
| JNull
| JBool (b : bool)
| JNum (n : Z)
| JStr (s : string)
| JArr (items : list Json)
| JObj (fields : list (string * Json)).

(** [ExperimentalCoderSDKTaskStatusSchema]. *)
Inductive TaskStatus := pending | initializing | active | paused | unknown | error.

(** The enum of [ExperimentalCoderSDKTaskStateEntrySchema]. *)
Inductive TaskState := idle | working | complete | failed.

Module User.
  (** [CoderSDKUserSchema]. *)
Record t := mk {
    id : string;
    username : string;
    email : string;
    organization_ids : list string;
    github_com_user_id : option Z }.
End User.

Module Template.
  (** [CoderSDKTemplateSchema]. *)
Record t := mk {
    id : string;
    name : string;
    description : option string;
    organization_id : string;
    active_version_id : string }.
End Template.

Module Preset.
  (** [CoderSDKTemplateVersionPresetSchema]. *)
Record t := mk {
    ID : string;
    Name : string;
    Default : bool }.
End Preset.

Module Task.
  (** [ExperimentalCoderSDKTaskStateEntrySchema]. *)
Record entry := mkEntry { state : TaskState }.

  (** [ExperimentalCoderSDKTaskSchema]. *)
Record t := mk {
    id : string;
    name : string;
    owner_id : string;
    template_id : string;
    created_at : string;
    updated_at : string;
    status : TaskStatus;
    current_state : option entry }.
End Task.

Module CreateTaskRequest.
  (** [ExperimentalCoderSDKCreateTaskRequestSchema]. *)
Record t := mk {
    name : string;
    template_version_id : string;
    template_version_preset_id : option string;
    input : string }.
End CreateTaskRequest.

(* ================================================================== *)
(** ** Thrown values *)

(** The third constructor argument of [CoderAPIError] ([response?: unknown])
    is the response body text in [request] and the task in
    [waitForTaskActive]. *)
Inductive Payload :=
| PText (body : string)
| PTask (task : Task.t).

(** Everything the code can throw or a promise can reject with. *)
Inductive JsError :=
| CoderAPIError (message : string) (statusCode : Z) (response : option Payload)
| Error (message : string)            (* new Error(message) *)
| ThrownString (s : string)           (* throw "..." : a string, not an Error *)
| ZodError (schema : string)          (* Schema.parse(...) failed *)
| FetchError (message : string)       (* fetch() rejected *)
| SyntaxError (message : string)      (* response.json() rejected *)
| RequestError (status : Z) (message : string). (* an Octokit call rejected *)

(** [error instanceof Error]: a thrown string is the one value that is not. *)
Definition instanceof_Error (e : JsError) : bool :=
  match e with ThrownString _ => false | _ => true end.

(** [error.message], for the values that are [Error]s. *)
Definition message_of (e : JsError) : string :=
  match e with
  | CoderAPIError m _ _ => m
  | Error m => m
  | ThrownString s => s
  | ZodError s => s
  | FetchError m => m
  | SyntaxError m => m
  | RequestError _ m => m
  end.

(* ================================================================== *)
(** ** The monad of awaited code *)

(** How a promise ends: fulfilled, rejected, or not settled within the
    number of loop iterations the model was given. *)
Inductive Result (A : Type) :=
| Ok (a : A)
| Err (e : JsError)
| Unsettled.
Arguments Ok {A} a.
Arguments Err {A} e.
Arguments Unsettled {A}.

(** The world a piece of code runs against, with the trace of the platform
    calls made so far. *)
Record St (W E : Type) := mkSt { world : W; trace : list E }.

Definition M (W E A : Type) := St W E -> Result A * St W E.

Section Monad.
Context {W E : Type}.

Definition ret {A} (a : A) : M W E A := fun s => (Ok a, s).

Definition throw {A} (e : JsError) : M W E A := fun s => (Err e, s).

Definition bind {A B} (m : M W E A) (k : A -> M W E B) : M W E B :=
  fun s =>
    match m s with
    | (Ok a, s') => k a s'
    | (Err e, s') => (Err e, s')
    | (Unsettled, s') => (Unsettled, s')
    end.

(** [try { m } catch (error) { h error }]. *)
Definition try_catch {A} (m : M W E A) (h : JsError -> M W E A) : M W E A :=
  fun s =>
    match m s with
    | (Err e, s') => h e s'
    | other => other
    end.

(** One event of the trace. *)
Definition emit (e : E) : M W E unit :=
  fun s => (Ok tt, mkSt (world s) (trace s ++ [e])).

(** An awaited call of the world: the event is recorded, the world moves. *)
Definition invoke {A} (e : E) (f : W -> Result A * W) : M W E A :=
  fun s =>
  let (r, w') := f (world s) in
  (r, mkSt w' (trace s ++ [e])).

(** The same for a call that always settles. *)
Definition invoke_settled {A} (e : E) (f : W -> (JsError + A) * W) : M W E A :=
  fun s =>
  let (r, w') := f (world s) in
  (match r with inl err => Err err | inr a => Ok a end, mkSt w' (trace s ++ [e])).
End Monad.

Declare Scope monad_scope.
Delimit Scope monad_scope with monad.
Notation "x <- c1 ;; c2" := (bind c1 (fun x => c2))
  (at level 61, c1 at next level, right associativity) : monad_scope.
Notation "c1 ;; c2" := (bind c1 (fun _ => c2))
  (at level 61, right associativity) : monad_scope.
Local Open Scope monad_scope.

(* ================================================================== *)
(** ** Strings of the platform *)

(** [String(n)] and [`${n}`] for an integer. *)
Definition string_of_Z (n : Z) : string := NilZero.string_of_int (Z.to_int n).

Definition hex_digit (n : nat) : ascii :=
  match String.get n "0123456789ABCDEF" with
  | Some c => c
  | None => "0"%char
  end.

(** The characters [encodeURIComponent] leaves alone:
    [A-Z a-z 0-9 - _ . ! ~ * ' ( )]. *)
Definition uri_unreserved (c : ascii) : bool :=
  let n := nat_of_ascii c in
  ((65 <=? n) && (n <=? 90) || (97 <=? n) && (n <=? 122)
   || (48 <=? n) && (n <=? 57))%nat
  || existsb (Ascii.eqb c)
       ["-"; "_"; "."; "!"; "~"; "*"; "'"; "("; ")"]%char.

(** [encodeURIComponent], on a string held as its UTF-8 bytes. *)
Fixpoint encodeURIComponent (s : string) : string :=
  match s with
  | EmptyString => EmptyString
  | String c rest =>
      if uri_unreserved c then String c (encodeURIComponent rest)
      else
        let n := nat_of_ascii c in
        String "%" (String (hex_digit (n / 16)) (String (hex_digit (n mod 16))
          (encodeURIComponent rest)))
  end.

(** [s.startsWith(p)]. *)
Definition startsWith (p s : string) : bool := String.prefix p s.

(* ================================================================== *)
(** ** The zod schemas of [coder-client.ts] *)

(** The string formats zod checks; the library is not part of the
    repository, its three format tests are parameters. *)
Class Zod := {
  is_uuid : string -> bool;     (* z.string().uuid() *)
  is_email : string -> bool;    (* z.string().email() *)
  is_url : string -> bool }.    (* z.string().url() *)

Definition obind {A B} (o : option A) (k : A -> option B) : option B :=
  match o with Some a => k a | None => None end.

Notation "x <~ c1 ;; c2" := (obind c1 (fun x => c2))
  (at level 61, c1 at next level, right associativity) : monad_scope.

(** The value of a key of a parsed object. *)
Fixpoint get_field (k : string) (fields : list (string * Json)) : option Json :=
  match fields with
  | [] => None
  | (k', v) :: rest => if String.eqb k k' then Some v else get_field k rest
  end.

Definition z_object (j : Json) : option (list (string * Json)) :=
  match j with JObj fields => Some fields | _ => None end.

Definition z_string (j : Json) : option string :=
  match j with JStr s => Some s | _ => None end.

Definition z_string_min1 (j : Json) : option string :=
  s <~ z_string j ;; if String.eqb s "" then None else Some s.

Definition z_number (j : Json) : option Z :=
  match j with JNum n => Some n | _ => None end.

Definition z_boolean (j : Json) : option bool :=
  match j with JBool b => Some b | _ => None end.

Fixpoint z_array {A} (item : Json -> option A) (l : list Json) : option (list A) :=
  match l with
  | [] => Some []
  | j :: rest => a <~ item j ;; r <~ z_array item rest ;; Some (a :: r)
  end.

Definition z_array_of {A} (item : Json -> option A) (j : Json) : option (list A) :=
  match j with JArr l => z_array item l | _ => None end.

(** A required key. *)
Definition required {A} (dec : Json -> option A) (k : string)
    (fields : list (string * Json)) : option A :=
  j <~ get_field k fields ;; dec j.

(** [.optional()]: the key may be missing. *)
Definition optional {A} (dec : Json -> option A) (k : string)
    (fields : list (string * Json)) : option (option A) :=
  match get_field k fields with
  | None => Some None
  | Some j => a <~ dec j ;; Some (Some a)
  end.

(** [.nullable()]: the key is there, and may hold [null]. *)
Definition nullable {A} (dec : Json -> option A) (k : string)
    (fields : list (string * Json)) : option (option A) :=
  match get_field k fields with
  | None => None
  | Some JNull => Some None
  | Some j => a <~ dec j ;; Some (Some a)
  end.

Section Schemas.
Context {zod : Zod}.

Definition z_uuid (j : Json) : option string :=
    s <~ z_string j ;; if is_uuid s then Some s else None.

Definition z_email (j : Json) : option string :=
    s <~ z_string j ;; if is_email s then Some s else None.

  (** [TaskIdSchema = z.string().uuid().brand("TaskId")]. *)
Definition TaskIdSchema := z_uuid.

  (** [TaskNameSchema = z.string().min(1).brand("TaskName")]. *)
Definition TaskNameSchema := z_string_min1.

Definition CoderSDKUserSchema (j : Json) : option User.t :=
    o <~ z_object j ;;
    id <~ required z_uuid "id" o ;;
    username <~ required z_string "username" o ;;
    email <~ required z_email "email" o ;;
    organization_ids <~ required (z_array_of z_uuid) "organization_ids" o ;;
    github_com_user_id <~ optional z_number "github_com_user_id" o ;;
    Some (User.mk id username email organization_ids github_com_user_id).

  (** [CoderSDKGetUsersResponseSchema]: the object's one field, [users]. *)
Definition CoderSDKGetUsersResponseSchema (j : Json) : option (list User.t) :=
    o <~ z_object j ;;
    required (z_array_of CoderSDKUserSchema) "users" o.

Definition CoderSDKTemplateSchema (j : Json) : option Template.t :=
    o <~ z_object j ;;
    id <~ required z_uuid "id" o ;;
    name <~ required z_string "name" o ;;
    description <~ optional z_string "description" o ;;
    organization_id <~ required z_uuid "organization_id" o ;;
    active_version_id <~ required z_uuid "active_version_id" o ;;
    Some (Template.mk id name description organization_id active_version_id).

Definition CoderSDKTemplateVersionPresetSchema (j : Json) : option Preset.t :=
    o <~ z_object j ;;
    ID <~ required z_uuid "ID" o ;;
    Name <~ required z_string "Name" o ;;
    Default <~ required z_boolean "Default" o ;;
    Some (Preset.mk ID Name Default).

Definition CoderSDKTemplateVersionPresetsResponseSchema (j : Json)
      : option (list Preset.t) :=
    z_array_of CoderSDKTemplateVersionPresetSchema j.

Definition ExperimentalCoderSDKTaskStatusSchema (j : Json) : option TaskStatus :=
    s <~ z_string j ;;
    if String.eqb s "pending" then Some pending
    else if String.eqb s "initializing" then Some initializing
    else if String.eqb s "active" then Some active
    else if String.eqb s "paused" then Some paused
    else if String.eqb s "unknown" then Some unknown
    else if String.eqb s "error" then Some error
    else None.

Definition ExperimentalCoderSDKTaskStateEntrySchema (j : Json) : option Task.entry :=
    o <~ z_object j ;;
    s <~ required z_string "state" o ;;
    if String.eqb s "idle" then Some (Task.mkEntry idle)
    else if String.eqb s "working" then Some (Task.mkEntry working)
    else if String.eqb s "complete" then Some (Task.mkEntry complete)
    else if String.eqb s "failed" then Some (Task.mkEntry failed)
    else None.

Definition ExperimentalCoderSDKTaskSchema (j : Json) : option Task.t :=
    o <~ z_object j ;;
    id <~ required TaskIdSchema "id" o ;;
    name <~ required TaskNameSchema "name" o ;;
    owner_id <~ required z_uuid "owner_id" o ;;
    template_id <~ required z_uuid "template_id" o ;;
    created_at <~ required z_string "created_at" o ;;
    updated_at <~ required z_string "updated_at" o ;;
    status <~ required ExperimentalCoderSDKTaskStatusSchema "status" o ;;
    current_state <~ nullable ExperimentalCoderSDKTaskStateEntrySchema "current_state" o ;;
    Some (Task.mk id name owner_id template_id created_at updated_at status
            current_state).

  (** [ExperimentalCoderSDKTaskListResponseSchema]: the one field, [tasks]. *)
Definition ExperimentalCoderSDKTaskListResponseSchema (j : Json)
      : option (list Task.t) :=
    o <~ z_object j ;;
    required (z_array_of ExperimentalCoderSDKTaskSchema) "tasks" o.

  (** [CoderSDKUserSchema.parse(u)] on a value that is already a user: the
      format checks run again. *)
Definition CoderSDKUserSchema_reparse (u : User.t) : option User.t :=
    if is_uuid (User.id u) && is_email (User.email u)
       && forallb is_uuid (User.organization_ids u)
    then Some u else None.
End Schemas.

(** [Schema.parse(x)]: the value, or a thrown [ZodError].  [x] is [None]
    when [request] returned [undefined]. *)
Definition zparse {W E A} (schema : string) (dec : Json -> option A)
    (x : option Json) : M W E A :=
  match x with
  | Some j => match dec j with
              | Some a => ret a
              | None => throw (ZodError schema)
              end
  | None => throw (ZodError schema)
  end.

(* ================================================================== *)
(** ** The platform under the client: fetch, the clock, timers *)

Module RequestInit.
(** The second argument of [fetch]; [body] holds the value whose
    [JSON.stringify] is sent. *)
Record t := mk {
  method : option string;
  body : option Json;
  headers : list (string * string) }.
End RequestInit.

Module Response.
(** What the client reads of a fetch [Response]: [text] and [json] are
    the outcomes of [response.text()] and [response.json()], [None] when
    the promise rejects.  [headers] is [None] when the object has no
    [headers] (the [?.] of the source); header names are lower-case. *)
Record t := mk {
  status : Z;
  statusText : string;
  headers : option (list (string * string));
  text : option string;
  json : option Json }.

(** [response.ok]: the status is in the range 200-299. *)
Definition ok (r : t) : bool := (200 <=? status r) && (status r <=? 299).

(** [response.headers?.get(name)]. *)
Definition headers_get (r : t) (name : string) : option string :=
  match headers r with
  | None => None
  | Some hs =>
      option_map snd (find (fun kv => String.eqb (fst kv) name) hs)
  end.

(** The body has no bytes: [text()] yields the empty string.  Such a body
    is no JSON document, so [json()] rejects on it. *)
Definition zero_length_body (r : t) : Prop := text r = Some "".

Definition well_formed (r : t) : Prop := text r = Some "" -> json r = None.
End Response.

(** The events of the client's trace. *)
Inductive HttpEvent :=
| EvFetch (url : string) (init : RequestInit.t)   (* fetch(url, init) *)
| EvText                                          (* response.text() *)
| EvJson                                          (* response.json() *)
| EvTimeout (ms : Z)                              (* setTimeout(resolve, ms) *)
| EvLog (msg : string).                           (* logFn(msg) *)

(** The platform: the network behind [fetch], [Date.now()], and the delay
    of an awaited [setTimeout]. *)
Class Runtime (Net : Type) := {
  fetch : string -> RequestInit.t -> Net -> Result Response.t * Net;
  Date_now : Net -> Z;
  setTimeout : Z -> Net -> Net }.

(** [{...a, ...b}] on header objects: the keys of [b] win. *)
Definition spread (a b : list (string * string)) : list (string * string) :=
  filter (fun kv => negb (existsb (fun kv' => String.eqb (fst kv) (fst kv')) b)) a
  ++ b.

Definition string_of_status (s : TaskStatus) : string :=
  match s with
  | pending => "pending" | initializing => "initializing" | active => "active"
  | paused => "paused" | unknown => "unknown" | error => "error"
  end.

Definition string_of_state (s : TaskState) : string :=
  match s with
  | idle => "idle" | working => "working" | complete => "complete"
  | failed => "failed"
  end.

Definition status_eqb (a b : TaskStatus) : bool :=
  String.eqb (string_of_status a) (string_of_status b).

Definition state_eqb (a b : TaskState) : bool :=
  String.eqb (string_of_state a) (string_of_state b).

(** [JSON.stringify(params)] of a create request, before serialisation: a
    key whose value is [undefined] is left out. *)
Definition json_of_CreateTaskRequest (p : CreateTaskRequest.t) : Json :=
  JObj ([("name", JStr (CreateTaskRequest.name p));
         ("template_version_id", JStr (CreateTaskRequest.template_version_id p))]
        ++ match CreateTaskRequest.template_version_preset_id p with
           | Some i => [("template_version_preset_id", JStr i)]
           | None => []
           end
        ++ [("input", JStr (CreateTaskRequest.input p))]).

(* ================================================================== *)
(** ** [RealCoderClient] *)

Module RealCoderClient.
Section Client.
Context {Net : Type} {rt : Runtime Net} {zod : Zod}.

Local Abbreviation Http := (M Net HttpEvent).

(** The object: [serverURL] and the fixed [headers]. *)
Record t := mk {
  serverURL : string;
  headers : list (string * string) }.

(** [new RealCoderClient(serverURL, apiToken)]. *)
Definition new (serverURL apiToken : string) : t :=
  mk serverURL
     [("Coder-Session-Token", apiToken); ("Content-Type", "application/json")].

(** [await fetch(url, init)]. *)
Definition await_fetch (url : string) (init : RequestInit.t) : Http Response.t :=
  invoke (EvFetch url init) (fetch url init).

(** [await response.text().catch(() => "")]. *)
Definition text_or_empty (r : Response.t) : Http string :=
  emit EvText ;;
  ret (match Response.text r with Some b => b | None => "" end).

(** [response.json()]. *)
Definition response_json (r : Response.t) : Http Json :=
  emit EvJson ;;
  match Response.json r with
  | Some j => ret j
  | None => throw (SyntaxError "Unexpected end of JSON input")
  end.

(** [{ ...options, headers: { ...this.headers, ...options?.headers } }]. *)
Definition fetch_init (c : t) (options : option RequestInit.t) : RequestInit.t :=
  match options with
  | Some o => RequestInit.mk (RequestInit.method o) (RequestInit.body o)
                (spread (headers c) (RequestInit.headers o))
  | None => RequestInit.mk None None (headers c)
  end.

(** The [content-length] header is the string ["0"]. *)
Definition content_length_zero (r : Response.t) : bool :=
  match Response.headers_get r "content-length" with
  | Some v => String.eqb v "0"
  | None => false
  end.

(** [request<T>(endpoint, options?)]; the result [None] is [undefined]. *)
Definition request (c : t) (endpoint : string) (options : option RequestInit.t)
    : Http (option Json) :=
  let url := serverURL c ++ endpoint in
  response <- await_fetch url (fetch_init c options) ;;
  if negb (Response.ok response) then
    body <- text_or_empty response ;;
    throw (CoderAPIError ("Coder API error: " ++ Response.statusText response)
             (Response.status response) (Some (PText body)))
  else if (Response.status response =? 204) || content_length_zero response
  then ret None
  else
    j <- response_json response ;;
    ret (Some j).

(** [getCoderUserByGitHubId(githubUserId)]. *)
Definition getCoderUserByGitHubId (c : t) (githubUserId : option Z) : Http User.t :=
  match githubUserId with
  | None => throw (CoderAPIError "GitHub user ID cannot be undefined" 400 None)
  | Some githubUserId =>
      if githubUserId =? 0 then throw (ThrownString "GitHub user ID cannot be 0")
      else
        let endpoint :=
          "/api/v2/users?q="
          ++ encodeURIComponent ("github_com_user_id:" ++ string_of_Z githubUserId) in
        response <- request c endpoint None ;;
        users <- zparse "CoderSDKGetUsersResponseSchema"
                   CoderSDKGetUsersResponseSchema response ;;
        if (length users =? 0)%nat then
          throw (CoderAPIError
                   ("No Coder user found with GitHub user ID "
                    ++ string_of_Z githubUserId) 404 None)
        else if (1 <? length users)%nat then
          throw (CoderAPIError
                   ("Multiple Coder users found with GitHub user ID "
                    ++ string_of_Z githubUserId) 409 None)
        else
          match users with
          | u :: _ =>
              match CoderSDKUserSchema_reparse u with
              | Some u' => ret u'
              | None => throw (ZodError "CoderSDKUserSchema")
              end
          | [] => throw (ZodError "CoderSDKUserSchema")
          end
  end.

(** [getTemplateByOrganizationAndName(organizationName, templateName)]. *)
Definition getTemplateByOrganizationAndName (c : t)
    (organizationName templateName : string) : Http Template.t :=
  let endpoint :=
    "/api/v2/organizations/" ++ encodeURIComponent organizationName
    ++ "/templates/" ++ encodeURIComponent templateName in
  response <- request c endpoint None ;;
  zparse "CoderSDKTemplateSchema" CoderSDKTemplateSchema response.

(** [getTemplateVersionPresets(templateVersionId)]. *)
Definition getTemplateVersionPresets (c : t) (templateVersionId : string)
    : Http (list Preset.t) :=
  let endpoint :=
    "/api/v2/templateversions/" ++ encodeURIComponent templateVersionId
    ++ "/presets" in
  response <- request c endpoint None ;;
  zparse "CoderSDKTemplateVersionPresetsResponseSchema"
    CoderSDKTemplateVersionPresetsResponseSchema response.

(** [getTask(owner, taskName)]; the result [None] is [null]. *)
Definition getTask (c : t) (owner taskName : string) : Http (option Task.t) :=
  try_catch
    (allTasksResponse <- request c
       ("/api/experimental/tasks?q=" ++ encodeURIComponent ("owner:" ++ owner))
       None ;;
     allTasks <- zparse "ExperimentalCoderSDKTaskListResponseSchema"
                   ExperimentalCoderSDKTaskListResponseSchema allTasksResponse ;;
     ret (find (fun t => String.eqb (Task.name t) taskName) allTasks))
    (fun error =>
       match error with
       | CoderAPIError _ statusCode _ =>
           if statusCode =? 404 then ret None else throw error
       | _ => throw error
       end).

(** [getTaskById(owner, taskId)]. *)
Definition getTaskById (c : t) (owner taskId : string) : Http Task.t :=
  let endpoint :=
    "/api/experimental/tasks/" ++ encodeURIComponent owner ++ "/"
    ++ encodeURIComponent taskId in
  response <- request c endpoint None ;;
  zparse "ExperimentalCoderSDKTaskSchema" ExperimentalCoderSDKTaskSchema response.

(** [createTask(owner, params)]. *)
Definition createTask (c : t) (owner : string) (params : CreateTaskRequest.t)
    : Http Task.t :=
  let endpoint := "/api/experimental/tasks/" ++ encodeURIComponent owner in
  response <- request c endpoint
    (Some (RequestInit.mk (Some "POST") (Some (json_of_CreateTaskRequest params)) [])) ;;
  zparse "ExperimentalCoderSDKTaskSchema" ExperimentalCoderSDKTaskSchema response.

(** [sendTaskInput(ownerUsername, taskId, input)]. *)
Definition sendTaskInput (c : t) (ownerUsername taskId input : string) : Http unit :=
  let endpoint :=
    "/api/experimental/tasks/" ++ ownerUsername ++ "/" ++ taskId ++ "/send" in
  _ <- request c endpoint
    (Some (RequestInit.mk (Some "POST") (Some (JObj [("input", JStr input)])) [])) ;;
  ret tt.

(** [Date.now()]. *)
Definition now : Http Z := fun s => (Ok (Date_now (world s)), s).

(** [await new Promise((resolve) => setTimeout(resolve, ms))]. *)
Definition sleep (ms : Z) : Http unit :=
  invoke (EvTimeout ms) (fun n => (Ok tt, setTimeout ms n)).

Definition pollIntervalMs : Z := 2000.

(** The task can take input: [status] active and [current_state] idle. *)
Definition ready (task : Task.t) : bool :=
  status_eqb (Task.status task) active
  && match Task.current_state task with
     | Some e => state_eqb (Task.state e) idle
     | None => false
     end.

Definition poll_message (taskId : string) (task : Task.t) : string :=
  "waitForTaskActive: task_id: " ++ taskId
  ++ " status: " ++ string_of_status (Task.status task)
  ++ " current_state: "
  ++ match Task.current_state task with
     | Some e => string_of_state (Task.state e)
     | None => "undefined"
     end.

Definition task_error (task : Task.t) : JsError :=
  CoderAPIError "Task entered error state while waiting for active state" 500
    (Some (PTask task)).

Definition timeout_error (timeoutMs : Z) : JsError :=
  CoderAPIError
    ("Timeout waiting for task to reach active state (waited "
     ++ string_of_Z timeoutMs ++ "ms)") 408 None.

(** The [while] loop of [waitForTaskActive]; [fuel] bounds the number of
    times the loop condition is evaluated. *)
Fixpoint waitLoop (fuel : nat) (c : t) (owner taskId : string)
    (timeoutMs startTime : Z) : Http unit :=
  match fuel with
  | O => fun s => (Unsettled, s)
  | S fuel' =>
      t <- now ;;
      if t - startTime <? timeoutMs then
        task <- getTaskById c owner taskId ;;
        if status_eqb (Task.status task) error then throw (task_error task)
        else
          emit (EvLog (poll_message taskId task)) ;;
          if ready task then ret tt
          else
            sleep pollIntervalMs ;;
            waitLoop fuel' c owner taskId timeoutMs startTime
      else throw (timeout_error timeoutMs)
  end.

(** [waitForTaskActive(owner, taskId, logFn, timeoutMs = 120000)]; the
    calls of [logFn] are the [EvLog] events. *)
Definition waitForTaskActive (fuel : nat) (c : t) (owner taskId : string)
    (timeoutMs : option Z) : Http unit :=
  let timeoutMs := match timeoutMs with Some t => t | None => 120000 end in
  startTime <- now ;;
  waitLoop fuel c owner taskId timeoutMs startTime.

End Client.
End RealCoderClient.

(* ================================================================== *)
(** ** The interfaces the action is given *)

Module CoderClient.
(** [interface CoderClient], over a world [W]; the [logFn] argument of
    [waitForTaskActive] is left to the implementation's own trace. *)
Record t (W : Type) := mk {
  getCoderUserByGitHubId : option Z -> W -> Result User.t * W;
  getTemplateByOrganizationAndName : string -> string -> W -> Result Template.t * W;
  getTemplateVersionPresets : string -> W -> Result (list Preset.t) * W;
  getTask : string -> string -> W -> Result (option Task.t) * W;
  getTaskById : string -> string -> W -> Result Task.t * W;
  createTask : string -> CreateTaskRequest.t -> W -> Result Task.t * W;
  sendTaskInput : string -> string -> string -> W -> Result unit * W;
  waitForTaskActive : string -> string -> option Z -> W -> Result unit * W }.
End CoderClient.

Module Comment.
(** An issue comment as [commentOnIssue] reads it. *)
Record t := mk { id : Z; body : option string }.
End Comment.

Module Octokit.
(** The three methods of [octokit.rest.issues] the action calls; each
    call fulfils or rejects. *)
Record t (W : Type) := mk {
  listComments : string -> string -> Z -> W -> (JsError + list Comment.t) * W;
  updateComment : string -> string -> Z -> string -> W -> (JsError + unit) * W;
  createComment : string -> string -> Z -> string -> W -> (JsError + unit) * W }.
End Octokit.

Module ActionInputs.
(** [ActionInputs], the output type of [ActionInputsSchema]. *)
Record t := mk {
  coderTaskPrompt : string;
  coderToken : string;
  coderURL : string;
  coderTemplateName : string;
  githubIssueURL : string;
  githubToken : string;
  coderOrganization : string;
  coderTaskNamePrefix : string;
  coderTemplatePreset : option string;
  commentOnIssue : bool;
  githubUserID : option Z;
  coderUsername : option string }.
End ActionInputs.

Module ActionOutputs.
(** [ActionOutputs]. *)
Record t := mk {
  coderUsername : string;
  taskName : string;
  taskUrl : string;
  taskCreated : bool }.
End ActionOutputs.

(** The trace of a run: the calls on the two interfaces and on
    [@actions/core], [console] and [process]. *)
Inductive ActionEvent :=
| CallGetCoderUserByGitHubId (githubUserId : option Z)
| CallGetTemplateByOrganizationAndName (organizationName templateName : string)
| CallGetTemplateVersionPresets (templateVersionId : string)
| CallGetTask (owner taskName : string)
| CallWaitForTaskActive (owner taskId : string) (timeoutMs : option Z)
| CallSendTaskInput (owner taskId input : string)
| CallCreateTask (owner : string) (params : CreateTaskRequest.t)
| CallListComments (owner repo : string) (issue_number : Z)
| CallUpdateComment (owner repo : string) (comment_id : Z) (body : string)
| CallCreateComment (owner repo : string) (issue_number : Z) (body : string)
| CoreInfo (msg : string)
| CoreDebug (msg : string)
| CoreError (msg : string)
| CoreSetOutput (name value : string)
| CoreSetFailed (msg : string)
| ConsoleError (msg : string)
| ProcessExit (code : Z).

(* ================================================================== *)
(** ** Pure helpers of [action.ts] *)

(** [s.split("/")]. *)
Fixpoint split_slash (s : string) : list string :=
  match s with
  | EmptyString => [EmptyString]
  | String c rest =>
      if Ascii.eqb c "/" then EmptyString :: split_slash rest
      else match split_slash rest with
           | seg :: segs => String c seg :: segs
           | [] => [String c EmptyString]
           end
  end.

Definition is_digit (c : ascii) : bool :=
  ((48 <=? nat_of_ascii c) && (nat_of_ascii c <=? 57))%nat.

(** The longest prefix of decimal digits: what [(\d+)] takes. *)
Fixpoint take_digits (s : string) : string :=
  match s with
  | String c rest => if is_digit c then String c (take_digits rest) else EmptyString
  | EmptyString => EmptyString
  end.

(** [parseInt(digits, 10)] on a string of decimal digits. *)
Definition parseInt_digits (digits : string) : Z :=
  (fix go (s : string) (acc : Z) : Z :=
     match s with
     | EmptyString => acc
     | String c rest => go rest (10 * acc + (Z.of_nat (nat_of_ascii c) - 48))
     end) digits 0.

Definition nonempty (s : string) : bool := negb (String.eqb s "").

(** The leftmost match of [/([^/]+)\/([^/]+)\/issues\/(\d+)/] on a string
    given as its [/]-separated segments: the first segment that is
    non-empty, followed by a non-empty one, by [issues], and by a segment
    that starts with a digit. *)
Fixpoint match_issue (segs : list string) : option (string * string * string) :=
  match segs with
  | [] => None
  | a :: rest =>
      match rest with
      | b :: c :: d :: _ =>
          if nonempty a && nonempty b && String.eqb c "issues"
             && nonempty (take_digits d)
          then Some (a, b, take_digits d)
          else match_issue rest
      | _ => None
      end
  end.

Module IssueRef.
Record t := mk {
  githubOrg : string;
  githubRepo : string;
  githubIssueNumber : Z }.
End IssueRef.

(** [url.split(/[?#]/)[0]]. *)
Fixpoint before_query_or_fragment (s : string) : string :=
  match s with
  | EmptyString => EmptyString
  | String c rest =>
      if Ascii.eqb c "?" || Ascii.eqb c "#" then EmptyString
      else String c (before_query_or_fragment rest)
  end.

(** [s.replace(/\/$/, "")]: one [/] at the very end is removed. *)
Fixpoint strip_trailing_slash (s : string) : string :=
  match s with
  | EmptyString => EmptyString
  | String c rest =>
      if Ascii.eqb c "/" && String.eqb rest "" then EmptyString
      else String c (strip_trailing_slash rest)
  end.

(** The truth value of an optional string: [undefined] and [""] are
    falsy. *)
Definition truthy (o : option string) : bool :=
  match o with Some s => nonempty s | None => false end.

(** The two [for ... break] scans of the presets. *)
Definition default_preset (presets : list Preset.t) : option string :=
  option_map Preset.ID (find Preset.Default presets).

Definition named_preset (name : string) (presets : list Preset.t) : option string :=
  option_map Preset.ID (find (fun p => String.eqb (Preset.Name p) name) presets).

(** [`${x}`] for an optional value. *)
Definition show_opt {A} (f : A -> string) (o : option A) : string :=
  match o with Some a => f a | None => "undefined" end.

(** [`${error}`]. *)
Definition string_of_error (e : JsError) : string :=
  match e with
  | CoderAPIError m _ _ => "CoderAPIError: " ++ m
  | Error m => "Error: " ++ m
  | ThrownString s => s
  | ZodError s => "ZodError: " ++ s
  | FetchError m => "TypeError: " ++ m
  | SyntaxError m => "SyntaxError: " ++ m
  | RequestError _ m => "HttpError: " ++ m
  end.

Module Resolved.
(** What [run] has in hand when it looks the task up. *)
Record t := mk {
  coderUser : User.t;
  ref : IssueRef.t;
  taskName : string;
  template : Template.t;
  presetID : option string }.
End Resolved.

(* ================================================================== *)
(** ** [CoderTaskAction] *)

Module CoderTaskAction.
Section Action.
Context {W : Type}.
Variable coder : CoderClient.t W.
Variable octokit : Octokit.t W.
Variable inputs : ActionInputs.t.

Local Abbreviation Act := (M W ActionEvent).

Definition info (msg : string) : Act unit := emit (CoreInfo msg).

(** [parseGithubIssueURL()]. *)
Definition parseGithubIssueURL : Act IssueRef.t :=
  if negb (nonempty (ActionInputs.githubIssueURL inputs)) then
    throw (Error "Missing issue URL")
  else
    match match_issue (split_slash (ActionInputs.githubIssueURL inputs)) with
    | None =>
        throw (Error ("Invalid issue URL: " ++ ActionInputs.githubIssueURL inputs))
    | Some (org, repo, digits) =>
        ret (IssueRef.mk org repo (parseInt_digits digits))
    end.

(** [generateTaskUrl(coderUsername, taskID)]. *)
Definition generateTaskUrl (coderUsername taskID : string) : string :=
  let baseURL :=
    strip_trailing_slash (before_query_or_fragment (ActionInputs.coderURL inputs)) in
  baseURL ++ "/tasks/" ++ coderUsername ++ "/" ++ taskID.

(** [commentOnIssue(taskUrl, owner, repo, issueNumber)]. *)
Definition commentOnIssue (taskUrl owner repo : string) (issueNumber : Z)
    : Act unit :=
  let body := "Task created: " ++ taskUrl in
  try_catch
    (comments <- invoke_settled (CallListComments owner repo issueNumber)
                   (Octokit.listComments octokit owner repo issueNumber) ;;
     let existingComment :=
       find (fun comment =>
               match Comment.body comment with
               | Some b => startsWith "Task created:" b
               | None => false
               end) (rev comments) in
     match existingComment with
     | Some existing =>
         invoke_settled (CallUpdateComment owner repo (Comment.id existing) body)
           (Octokit.updateComment octokit owner repo (Comment.id existing) body)
     | None =>
         invoke_settled (CallCreateComment owner repo issueNumber body)
           (Octokit.createComment octokit owner repo issueNumber body)
     end)
    (fun error =>
       emit (CoreError ("Failed to comment on issue: " ++ string_of_error error))).

(** The preset scan of [run]: [presetID] after the two loops. *)
Definition selectPreset (presets : list Preset.t) : Act (option string) :=
  if negb (truthy (ActionInputs.coderTemplatePreset inputs)) then
    info "Coder Template: Using default preset" ;;
    ret (default_preset presets)
  else
    ret (named_preset
           (match ActionInputs.coderTemplatePreset inputs with
            | Some n => n | None => "" end) presets).

(** The check after the scan: a requested preset must have been found. *)
Definition requirePreset (presetID : option string) : Act unit :=
  if truthy (ActionInputs.coderTemplatePreset inputs) && negb (truthy presetID) then
    throw (Error ("Preset "
                  ++ show_opt (fun s => s) (ActionInputs.coderTemplatePreset inputs)
                  ++ " not found"))
  else ret tt.

(** The branch of [run] taken when [getTask] found a task. *)
Definition useExistingTask (username : string) (existingTask : Task.t)
    : Act ActionOutputs.t :=
  info ("Coder Task: already exists: " ++ Task.name existingTask
        ++ " (id: " ++ Task.id existingTask
        ++ " status: " ++ string_of_status (Task.status existingTask) ++ ")") ;;
  (if negb (status_eqb (Task.status existingTask) active) then
     info ("Coder Task: waiting for task " ++ Task.name existingTask
           ++ " to become active...") ;;
     invoke (CallWaitForTaskActive username (Task.id existingTask) (Some 1200000))
       (CoderClient.waitForTaskActive coder username (Task.id existingTask)
          (Some 1200000))
   else ret tt) ;;
  info "Coder Task: Sending prompt to existing task..." ;;
  invoke (CallSendTaskInput username (Task.id existingTask)
            (ActionInputs.coderTaskPrompt inputs))
    (CoderClient.sendTaskInput coder username (Task.id existingTask)
       (ActionInputs.coderTaskPrompt inputs)) ;;
  info "Coder Task: Prompt sent successfully" ;;
  ret (ActionOutputs.mk username (Task.name existingTask)
         (generateTaskUrl username (Task.id existingTask)) false).

(** The rest of [run], when [getTask] returned [null]. *)
Definition createNewTask (username taskName : string) (template : Template.t)
    (presetID : option string) (ref : IssueRef.t) : Act ActionOutputs.t :=
  info "Creating Coder task..." ;;
  let req :=
    CreateTaskRequest.mk taskName (Template.active_version_id template) presetID
      (ActionInputs.coderTaskPrompt inputs) in
  createdTask <- invoke (CallCreateTask username req)
                   (CoderClient.createTask coder username req) ;;
  info ("Coder Task: created successfully (status: "
        ++ string_of_status (Task.status createdTask) ++ ")") ;;
  let taskUrl := generateTaskUrl username (Task.id createdTask) in
  info ("Coder Task: URL: " ++ taskUrl) ;;
  (if ActionInputs.commentOnIssue inputs then
     info ("Commenting on issue " ++ IssueRef.githubOrg ref ++ "/"
           ++ IssueRef.githubRepo ref ++ "#"
           ++ string_of_Z (IssueRef.githubIssueNumber ref)) ;;
     commentOnIssue taskUrl (IssueRef.githubOrg ref) (IssueRef.githubRepo ref)
       (IssueRef.githubIssueNumber ref) ;;
     info "Comment posted successfully"
   else info "Skipping comment on issue (commentOnIssue is false)") ;;
  ret (ActionOutputs.mk username taskName taskUrl true).

(** The preset block of [run]: the scan, then the check. *)
Definition resolvePreset (presets : list Preset.t) : Act (option string) :=
  presetID <- selectPreset presets ;;
  requirePreset presetID ;;
  ret presetID.

(** The first part of [run], up to the preset id: the user, the issue, the
    task name, the template and the preset. *)
Definition resolve : Act Resolved.t :=
  info ("GitHub user ID: " ++ show_opt string_of_Z (ActionInputs.githubUserID inputs)) ;;
  coderUser <- invoke (CallGetCoderUserByGitHubId (ActionInputs.githubUserID inputs))
                 (CoderClient.getCoderUserByGitHubId coder
                    (ActionInputs.githubUserID inputs)) ;;
  ref <- parseGithubIssueURL ;;
  info ("GitHub owner: " ++ IssueRef.githubOrg ref) ;;
  info ("GitHub repo: " ++ IssueRef.githubRepo ref) ;;
  info ("GitHub issue number: " ++ string_of_Z (IssueRef.githubIssueNumber ref)) ;;
  info ("Coder username: " ++ User.username coderUser) ;;
  (if negb (nonempty (ActionInputs.coderTaskNamePrefix inputs))
      || negb (nonempty (ActionInputs.githubIssueURL inputs))
   then throw (Error
     "either taskName or both taskNamePrefix and issueURL must be provided")
   else ret tt) ;;
  info ("Coder organization: " ++ ActionInputs.coderOrganization inputs) ;;
  let taskNameString :=
    ActionInputs.coderTaskNamePrefix inputs ++ "-"
    ++ string_of_Z (IssueRef.githubIssueNumber ref) in
  taskName <- zparse "TaskNameSchema" TaskNameSchema (Some (JStr taskNameString)) ;;
  info ("Coder Task name: " ++ taskName) ;;
  template <- invoke (CallGetTemplateByOrganizationAndName
                        (ActionInputs.coderOrganization inputs)
                        (ActionInputs.coderTemplateName inputs))
                (CoderClient.getTemplateByOrganizationAndName coder
                   (ActionInputs.coderOrganization inputs)
                   (ActionInputs.coderTemplateName inputs)) ;;
  info ("Coder Template: " ++ Template.name template ++ " (id:" ++ Template.id template
        ++ ", active_version_id:" ++ Template.active_version_id template ++ ")") ;;
  templateVersionPresets <-
    invoke (CallGetTemplateVersionPresets (Template.active_version_id template))
      (CoderClient.getTemplateVersionPresets coder
         (Template.active_version_id template)) ;;
  presetID <- resolvePreset templateVersionPresets ;;
  info ("Coder Template: Preset ID: " ++ show_opt (fun s => s) presetID) ;;
  ret (Resolved.mk coderUser ref taskName template presetID).

(** The second part of [run], from [getTask] on: the task is looked up,
    then used or created. *)
Definition ensureTaskRunning (username taskName : string) (template : Template.t)
    (presetID : option string) (ref : IssueRef.t) : Act ActionOutputs.t :=
  existingTask <- invoke (CallGetTask username taskName)
                    (CoderClient.getTask coder username taskName) ;;
  match existingTask with
  | Some existingTask => useExistingTask username existingTask
  | None => createNewTask username taskName template presetID ref
  end.

(** [run()]. *)
Definition run : Act ActionOutputs.t :=
  r <- resolve ;;
  ensureTaskRunning (User.username (Resolved.coderUser r)) (Resolved.taskName r)
    (Resolved.template r) (Resolved.presetID r) (Resolved.ref r).

End Action.
End CoderTaskAction.

(** [RealCoderClient implements CoderClient]: the object seen through the
    interface; its world is the network with the client's own trace. *)
Definition RealCoderClient_implements {Net : Type} {rt : Runtime Net} {zod : Zod}
    (fuel : nat) (c : RealCoderClient.t) : CoderClient.t (St Net HttpEvent) :=
  CoderClient.mk
    (RealCoderClient.getCoderUserByGitHubId c)
    (RealCoderClient.getTemplateByOrganizationAndName c)
    (RealCoderClient.getTemplateVersionPresets c)
    (RealCoderClient.getTask c)
    (RealCoderClient.getTaskById c)
    (RealCoderClient.createTask c)
    (RealCoderClient.sendTaskInput c)
    (RealCoderClient.waitForTaskActive fuel c).

(* ================================================================== *)
(** ** [schemas.ts]: the action's inputs *)

Module RawInputs.
(** The object [index.ts] hands to [ActionInputsSchema.parse]. *)
Record t := mk {
  coderTaskPrompt : string;
  coderToken : string;
  coderURL : string;
  coderTemplateName : string;
  githubIssueURL : string;
  githubToken : string;
  coderOrganization : option string;
  coderTaskNamePrefix : option string;
  coderTemplatePreset : option string;
  commentOnIssue : option bool;
  githubUserID : option Z;
  coderUsername : option string }.
End RawInputs.

Section InputSchemas.
Context {zod : Zod}.

(** [z.string().min(1).optional().default(d)]. *)
Definition min1_default (d : string) (o : option string) : option string :=
  match o with
  | None => Some d
  | Some s => if nonempty s then Some s else None
  end.

(** The fields of [BaseInputsSchema] pass. *)
Definition BaseInputsSchema (r : RawInputs.t) : option (string * string) :=
  if nonempty (RawInputs.coderTaskPrompt r) && nonempty (RawInputs.coderToken r)
     && is_url (RawInputs.coderURL r) && nonempty (RawInputs.coderTemplateName r)
     && is_url (RawInputs.githubIssueURL r)
  then
    org <~ min1_default "default" (RawInputs.coderOrganization r) ;;
    prefix <~ min1_default "gh" (RawInputs.coderTaskNamePrefix r) ;;
    Some (org, prefix)
  else None.

Definition build_inputs (r : RawInputs.t) (org prefix : string) : ActionInputs.t :=
  ActionInputs.mk (RawInputs.coderTaskPrompt r) (RawInputs.coderToken r)
    (RawInputs.coderURL r) (RawInputs.coderTemplateName r)
    (RawInputs.githubIssueURL r) (RawInputs.githubToken r) org prefix
    (RawInputs.coderTemplatePreset r)
    (match RawInputs.commentOnIssue r with Some b => b | None => true end)
    (RawInputs.githubUserID r) (RawInputs.coderUsername r).

(** [WithGithubUserIDSchema]: [githubUserID] a number at least 1,
    [coderUsername] undefined. *)
Definition WithGithubUserIDSchema (r : RawInputs.t) : option ActionInputs.t :=
  match BaseInputsSchema r, RawInputs.githubUserID r, RawInputs.coderUsername r with
  | Some (org, prefix), Some n, None =>
      if 1 <=? n then Some (build_inputs r org prefix) else None
  | _, _, _ => None
  end.

(** [WithCoderUsernameSchema]: [githubUserID] undefined, [coderUsername] a
    non-empty string. *)
Definition WithCoderUsernameSchema (r : RawInputs.t) : option ActionInputs.t :=
  match BaseInputsSchema r, RawInputs.githubUserID r, RawInputs.coderUsername r with
  | Some (org, prefix), None, Some u =>
      if nonempty u then Some (build_inputs r org prefix) else None
  | _, _, _ => None
  end.

(** [ActionInputsSchema = z.union([...])]: the first member that accepts. *)
Definition ActionInputsSchema (r : RawInputs.t) : option ActionInputs.t :=
  match WithGithubUserIDSchema r with
  | Some i => Some i
  | None => WithCoderUsernameSchema r
  end.
End InputSchemas.

(* ================================================================== *)
(** ** [index.ts] *)

Module Index.
Section Main.
Context {W : Type} {zod : Zod}.
(** [new RealCoderClient(url, token)] and [github.getOctokit(token)]. *)
Variable newCoderClient : string -> string -> CoderClient.t W.
Variable getOctokit : string -> Octokit.t W.

Local Abbreviation Act := (M W ActionEvent).

Definition debug (msg : string) : Act unit := emit (CoreDebug msg).

Definition string_of_bool (b : bool) : string := if b then "true" else "false".

Definition quoted (v : string) : string :=
  String (ascii_of_nat 34) (v ++ String (ascii_of_nat 34) EmptyString).

Definition newline : string := String (ascii_of_nat 10) EmptyString.

(** [JSON.stringify(outputs, null, 2)], for values that need no escape. *)
Definition stringify_outputs (o : ActionOutputs.t) : string :=
  "{" ++ newline
  ++ "  " ++ quoted "coderUsername" ++ ": " ++ quoted (ActionOutputs.coderUsername o)
  ++ "," ++ newline
  ++ "  " ++ quoted "taskName" ++ ": " ++ quoted (ActionOutputs.taskName o)
  ++ "," ++ newline
  ++ "  " ++ quoted "taskUrl" ++ ": " ++ quoted (ActionOutputs.taskUrl o)
  ++ "," ++ newline
  ++ "  " ++ quoted "taskCreated" ++ ": "
  ++ string_of_bool (ActionOutputs.taskCreated o) ++ newline
  ++ "}".

(** [main()], from the object built out of the action's inputs; an [Error]
    is taken to carry a stack. *)
Definition main (raw : RawInputs.t) : Act unit :=
  try_catch
    (inputs <- match ActionInputsSchema raw with
               | Some i => ret i
               | None => throw (ZodError "ActionInputsSchema")
               end ;;
     debug "Inputs validated successfully" ;;
     debug ("Coder URL: " ++ ActionInputs.coderURL inputs) ;;
     debug ("Template: " ++ ActionInputs.coderTemplateName inputs) ;;
     debug ("Organization: " ++ ActionInputs.coderOrganization inputs) ;;
     let coder :=
       newCoderClient (ActionInputs.coderURL inputs) (ActionInputs.coderToken inputs) in
     let octokit := getOctokit (ActionInputs.githubToken inputs) in
     debug "Clients initialized" ;;
     outputs <- CoderTaskAction.run coder octokit inputs ;;
     emit (CoreSetOutput "coder-username" (ActionOutputs.coderUsername outputs)) ;;
     emit (CoreSetOutput "task-name" (ActionOutputs.taskName outputs)) ;;
     emit (CoreSetOutput "task-url" (ActionOutputs.taskUrl outputs)) ;;
     emit (CoreSetOutput "task-created"
             (string_of_bool (ActionOutputs.taskCreated outputs))) ;;
     debug "Action completed successfully" ;;
     debug ("Outputs: " ++ stringify_outputs outputs))
    (fun error =>
       (if instanceof_Error error then
          emit (CoreSetFailed (message_of error)) ;;
          emit (ConsoleError ("Action failed: " ++ string_of_error error)) ;;
          emit (ConsoleError "Stack trace:")
        else
          emit (CoreSetFailed "Unknown error occurred") ;;
          emit (ConsoleError ("Unknown error: " ++ string_of_error error))) ;;
       emit (ProcessExit 1)).
End Main.
End Index.

(* ================================================================== *)
(** ** Test doubles: a scripted network and an in-memory deployment *)

Module Fixture.

(** A format test for the examples: 36 characters with the four hyphens
    of a UUID in place. *)
Definition uuid_shape (s : string) : bool :=
  (String.length s =? 36)%nat
  && forallb (fun i => match String.get i s with
                       | Some c => Ascii.eqb c "-"
                       | None => false
                       end) [8; 13; 18; 23]%nat.

Definition contains_at (s : string) : bool :=
  (fix go (s : string) : bool :=
     match s with
     | EmptyString => false
     | String c rest => Ascii.eqb c "@" || go rest
     end) s.

Definition zod : Zod :=
  {| is_uuid := uuid_shape;
     is_email := contains_at;
     is_url := fun s => String.prefix "http://" s || String.prefix "https://" s |}.

(** A network that answers the fetches in the order of a script, each
    reply after its latency; a timer advances the clock by its delay. *)
Record net := mkNet {
  clock : Z;
  script : list (Z * Result Response.t) }.

Definition scripted : Runtime net :=
  {| fetch := fun _ _ n =>
       match script n with
       | [] => (Err (FetchError "fetch failed"), n)
       | (d, r) :: rest => (r, mkNet (clock n + d) rest)
       end;
     Date_now := clock;
     setTimeout := fun ms n => mkNet (clock n + Z.max ms 0) (script n) |}.

(** A network that gives the same reply to every fetch, 100 ms later; the
    world is the clock. *)
Definition steady (reply : Response.t) : Runtime Z :=
  {| fetch := fun _ _ n => (Ok reply, n + 100);
     Date_now := fun n => n;
     setTimeout := fun ms n => n + Z.max ms 0 |}.

Definition json_reply (j : Json) : Response.t :=
  Response.mk 200 "OK" (Some [("content-type", "application/json")]) None (Some j).

Definition error_reply (status : Z) (statusText body : string) : Response.t :=
  Response.mk status statusText (Some []) (Some body) None.

Definition userJson (id username : string) (gh : Z) : Json :=
  JObj [("id", JStr id); ("username", JStr username);
        ("email", JStr (username ++ "@example.com"));
        ("organization_ids", JArr [JStr "660e8400-e29b-41d4-a716-446655440000"]);
        ("github_com_user_id", JNum gh)].

Definition mockUserJson : Json :=
  userJson "550e8400-e29b-41d4-a716-446655440000" "testuser" 12345.

Definition mockUser : User.t :=
  User.mk "550e8400-e29b-41d4-a716-446655440000" "testuser" "testuser@example.com"
    ["660e8400-e29b-41d4-a716-446655440000"] (Some 12345).

Definition taskJson (id name status : string) (current_state : Json) : Json :=
  JObj [("id", JStr id); ("name", JStr name);
        ("owner_id", JStr "550e8400-e29b-41d4-a716-446655440000");
        ("template_id", JStr "770e8400-e29b-41d4-a716-446655440000");
        ("created_at", JStr "2025-01-01T00:00:00Z");
        ("updated_at", JStr "2025-01-01T00:00:00Z");
        ("status", JStr status); ("current_state", current_state)].

Definition mockTaskId : string := "990e8400-e29b-41d4-a716-446655440000".

Definition mockTask (name : string) (status : TaskStatus)
    (current_state : option TaskState) : Task.t :=
  Task.mk mockTaskId name "550e8400-e29b-41d4-a716-446655440000"
    "770e8400-e29b-41d4-a716-446655440000" "2025-01-01T00:00:00Z"
    "2025-01-01T00:00:00Z" status (option_map Task.mkEntry current_state).

Definition mockTemplate : Template.t :=
  Template.mk "770e8400-e29b-41d4-a716-446655440000" "my-template" None
    "660e8400-e29b-41d4-a716-446655440000" "880e8400-e29b-41d4-a716-446655440000".

Definition client : RealCoderClient.t :=
  RealCoderClient.new "https://coder.test" "test-token".

Definition start (replies : list (Z * Result Response.t)) : St net HttpEvent :=
  mkSt (mkNet 0 replies) [].

(** The object of [index.ts] when only [coder-username] is given. *)
Definition rawUsername : RawInputs.t :=
  RawInputs.mk "fix the bug" "test-token" "https://coder.test" "my-template"
    "https://github.com/acme/widgets/issues/42" "github-token" (Some "default")
    (Some "gh") None (Some true) None (Some "testuser").

(** An Octokit that is never reached. *)
Definition noOctokit {W : Type} : Octokit.t W :=
  Octokit.mk (fun _ _ _ w => (inr [], w)) (fun _ _ _ _ w => (inr tt, w))
    (fun _ _ _ _ w => (inr tt, w)).

End Fixture.

(** An in-memory deployment behind the two interfaces: the tasks and the
    issue comments are lists, a created task is appended as [pending], and
    the comment API can be switched off. *)
Module Mock.
Record world := mk {
  tasks : list Task.t;
  comments : list Comment.t;
  github_up : bool }.

Definition newTask (req : CreateTaskRequest.t) : Task.t :=
  Task.mk Fixture.mockTaskId (CreateTaskRequest.name req)
    (User.id Fixture.mockUser) (Template.id Fixture.mockTemplate)
    "2025-01-01T00:00:00Z" "2025-01-01T00:00:00Z" pending None.

Definition coder (presets : list Preset.t) : CoderClient.t world :=
  CoderClient.mk
    (fun githubUserId w =>
       match githubUserId with
       | Some _ => (Ok Fixture.mockUser, w)
       | None =>
           (Err (CoderAPIError "GitHub user ID cannot be undefined" 400 None), w)
       end)
    (fun _ _ w => (Ok Fixture.mockTemplate, w))
    (fun _ w => (Ok presets, w))
    (fun _ taskName w =>
       (Ok (find (fun t => String.eqb (Task.name t) taskName) (tasks w)), w))
    (fun _ taskId w =>
       match find (fun t => String.eqb (Task.id t) taskId) (tasks w) with
       | Some t => (Ok t, w)
       | None => (Err (CoderAPIError "Coder API error: Not Found" 404 None), w)
       end)
    (fun _ req w =>
       (Ok (newTask req), mk (tasks w ++ [newTask req]) (comments w) (github_up w)))
    (fun _ _ _ w => (Ok tt, w))
    (fun _ _ _ w => (Ok tt, w)).

Definition unavailable {A} (w : world) : (JsError + A) * world :=
  (inl (RequestError 503 "Service Unavailable"), w).

Definition octokit : Octokit.t world :=
  Octokit.mk
    (fun _ _ _ w => if github_up w then (inr (comments w), w) else unavailable w)
    (fun _ _ comment_id body w =>
       if github_up w then
         (inr tt,
          mk (tasks w)
             (map (fun cm => if Comment.id cm =? comment_id
                             then Comment.mk comment_id (Some body) else cm)
                  (comments w))
             (github_up w))
       else unavailable w)
    (fun _ _ _ body w =>
       if github_up w then
         (inr tt,
          mk (tasks w)
             (comments w ++ [Comment.mk (Z.of_nat (length (comments w)) + 1) (Some body)])
             (github_up w))
       else unavailable w).

Definition inputs (preset : option string) (commentOnIssue : bool) : ActionInputs.t :=
  ActionInputs.mk "fix the bug" "test-token" "https://coder.test" "my-template"
    "https://github.com/acme/widgets/issues/42" "github-token" "default" "gh"
    preset commentOnIssue (Some 12345) None.

(** Inputs of the username form: no GitHub id. *)
Definition inputs_username : ActionInputs.t :=
  ActionInputs.mk "fix the bug" "test-token" "https://coder.test" "my-template"
    "https://github.com/acme/widgets/issues/42" "github-token" "default" "gh"
    None true None (Some "testuser").

Definition start (tasks : list Task.t) (github_up : bool) : St world ActionEvent :=
  mkSt (mk tasks [] github_up) [].
End Mock.

(* ================================================================== *)
(** ** Reading a trace *)

(** The calls on the Octokit interface. *)
Definition is_octokit_call (e : ActionEvent) : bool :=
  match e with
  | CallListComments _ _ _ | CallUpdateComment _ _ _ _
  | CallCreateComment _ _ _ _ => true
  | _ => false
  end.

(** The calls on either interface, as opposed to the log lines. *)
Definition is_call (e : ActionEvent) : bool :=
  match e with
  | CoreInfo _ | CoreDebug _ | CoreError _ | CoreSetOutput _ _
  | CoreSetFailed _ | ConsoleError _ | ProcessExit _ => false
  | _ => true
  end.

Definition calls (tr : list ActionEvent) : list ActionEvent := filter is_call tr.

Fixpoint has_char (c : ascii) (s : string) : bool :=
  match s with
  | EmptyString => false
  | String c' rest => Ascii.eqb c c' || has_char c rest
  end.

Fixpoint ends_with_slash (s : string) : bool :=
  match s with
  | EmptyString => false
  | String c rest =>
      if String.eqb rest "" then Ascii.eqb c "/" else ends_with_slash rest
  end.

(** No call on the Octokit interface among the events. *)
Definition no_octokit (tr : list ActionEvent) : Prop :=
  filter is_octokit_call tr = [].

(** Whatever the start state, the events a program adds satisfy [P]. *)
Definition traced {W A} (P : list ActionEvent -> Prop) (m : M W ActionEvent A) : Prop :=
  forall s, exists tr, trace (snd (m s)) = (trace s ++ tr)%list /\ P tr.

(* ================================================================== *)
(** ** Assumptions on a deployment *)

Section DeploymentVocabulary.
Context {W : Type}.
Variable coder : CoderClient.t W.
Variable octokit : Octokit.t W.

(** The wait of the existing-task branch: skipped when the task's status
    is already active, else a wait of 1200000 ms that succeeds. *)
Definition wait_step (username : string) (task : Task.t) (w1 w2 : W) : Prop :=
  if status_eqb (Task.status task) active then w2 = w1
  else CoderClient.waitForTaskActive coder username (Task.id task) (Some 1200000) w1
       = (Ok tt, w2).

Definition wait_calls (username : string) (task : Task.t) : list ActionEvent :=
  if status_eqb (Task.status task) active then []
  else [CallWaitForTaskActive username (Task.id task) (Some 1200000)].

(** The owner has a task of that name, as [getTask] sees it. *)
Definition listed (owner taskName : string) (w : W) : Prop :=
  exists task w', CoderClient.getTask coder owner taskName w = (Ok (Some task), w').

(** A created task is listed under its name from then on. *)
Definition create_publishes : Prop :=
  forall owner req w created w',
    CoderClient.createTask coder owner req w = (Ok created, w') ->
    listed owner (CreateTaskRequest.name req) w'.

(** The three Octokit methods keep a property of the world. *)
Definition octokit_preserves (P : W -> Prop) : Prop :=
  (forall o r n w, P w -> P (snd (Octokit.listComments octokit o r n w)))
  /\ (forall o r i b w, P w -> P (snd (Octokit.updateComment octokit o r i b w)))
  /\ (forall o r n b w, P w -> P (snd (Octokit.createComment octokit o r n b w))).

(** Commenting on an issue removes no task. *)
Definition comments_keep_tasks : Prop :=
  forall owner taskName, octokit_preserves (listed owner taskName).

Definition waits_succeed : Prop :=
  forall owner taskId timeoutMs w,
    exists w', CoderClient.waitForTaskActive coder owner taskId timeoutMs w = (Ok tt, w').

Definition accepts_input : Prop :=
  forall owner taskId input w,
    exists w', CoderClient.sendTaskInput coder owner taskId input w = (Ok tt, w').
End DeploymentVocabulary.

(* ================================================================== *)
(** ** States named in the statements *)

(** The state in which [main] calls [run]: the five debug lines are out. *)
Definition main_before_run {W : Type} (inputs : ActionInputs.t)
    (s : St W ActionEvent) : St W ActionEvent :=
  mkSt (world s)
    (trace s
     ++ [CoreDebug "Inputs validated successfully";
         CoreDebug ("Coder URL: " ++ ActionInputs.coderURL inputs);
         CoreDebug ("Template: " ++ ActionInputs.coderTemplateName inputs);
         CoreDebug ("Organization: " ++ ActionInputs.coderOrganization inputs);
         CoreDebug "Clients initialized"]).

(** The state after the poll's log line. *)
Definition after_log {Net : Type} (taskId : string) (task : Task.t)
    (s : St Net HttpEvent) : St Net HttpEvent :=
  mkSt (world s) (trace s ++ [EvLog (RealCoderClient.poll_message taskId task)]).

(** The state after a sleep of [ms] milliseconds. *)
Definition after_sleep {Net : Type} {rt : Runtime Net} (ms : Z)
    (s : St Net HttpEvent) : St Net HttpEvent :=
  mkSt (setTimeout ms (world s)) (trace s ++ [EvTimeout ms]).

Section WaitVocabulary.
Context {Net : Type} {rt : Runtime Net} {zod : Zod}.
Variable c : RealCoderClient.t.
Variables owner taskId : string.
Variable timeoutMs : Z.

(** The clock never runs backwards over a fetch, and an awaited timer
    takes at least its delay. *)
Definition clock_advances : Prop :=
  (forall url init n, Date_now n <= Date_now (snd (fetch url init n)))
  /\ (forall ms n, Date_now n + ms <= Date_now (setTimeout ms n)).

(** Every fetch settles. *)
Definition fetch_settles : Prop :=
  forall url init n, fst (fetch url init n) <> Unsettled.

(** [fuel] loop heads are enough for what is left of a wait of
    [timeoutMs] started at [t0]. *)
Definition enough (fuel : nat) (t0 : Z) (s : St Net HttpEvent) : Prop :=
  (1 <= fuel)%nat
  /\ timeoutMs - (Date_now (world s) - t0) <= 2000 * (Z.of_nat fuel - 1).

(** The task is never seen in a terminal state. *)
Definition stays_non_terminal : Prop :=
  forall s, exists task s1,
    RealCoderClient.getTaskById c owner taskId s = (Ok task, s1)
    /\ Task.status task <> error
    /\ RealCoderClient.ready task = false.

(** The three ways the wait ends according to its description. *)
Definition three_outcomes (r : Result unit) : Prop :=
  r = Ok tt
  \/ (exists task, Task.status task = error
                   /\ r = Err (RealCoderClient.task_error task))
  \/ r = Err (RealCoderClient.timeout_error timeoutMs).
End WaitVocabulary.

Section PollVocabulary.
Context {Net : Type} {rt : Runtime Net} {zod : Zod}.
Variable c : RealCoderClient.t.
Variables owner taskId : string.
Variable timeoutMs : Z.

(** The rounds of the loop that go on.  From the loop head [s] of a wait
    started at [t0], each task of the list was fetched before the
    deadline, was neither in the error state nor ready, and was followed
    by its log line and a sleep of 2000 ms; the last state is the loop
    head after these rounds. *)
Inductive pending_polls (t0 : Z)
    : St Net HttpEvent -> list Task.t -> St Net HttpEvent -> Prop :=
| pending_done (s : St Net HttpEvent) : pending_polls t0 s [] s
| pending_round (s s1 s' : St Net HttpEvent) (task : Task.t) (rest : list Task.t) :
    Date_now (world s) - t0 < timeoutMs ->
    RealCoderClient.getTaskById c owner taskId s = (Ok task, s1) ->
    Task.status task <> error ->
    RealCoderClient.ready task = false ->
    pending_polls t0 (after_sleep 2000 (after_log taskId task s1)) rest s' ->
    pending_polls t0 s (task :: rest) s'.

(** The four ways a wait ends at the loop head [s']: the deadline has
    passed; or the task is fetched and is ready; or it is fetched and is
    in the error state; or fetching it fails. *)
Definition wait_ends (t0 : Z) (s' : St Net HttpEvent)
    (out : Result unit * St Net HttpEvent) : Prop :=
  (timeoutMs <= Date_now (world s') - t0
   /\ out = (Err (RealCoderClient.timeout_error timeoutMs), s'))
  \/ (Date_now (world s') - t0 < timeoutMs
      /\ ((exists task s1,
             RealCoderClient.getTaskById c owner taskId s' = (Ok task, s1)
             /\ Task.status task = active
             /\ Task.current_state task = Some (Task.mkEntry idle)
             /\ out = (Ok tt, after_log taskId task s1))
          \/ (exists task s1,
                RealCoderClient.getTaskById c owner taskId s' = (Ok task, s1)
                /\ Task.status task = error
                /\ out = (Err (RealCoderClient.task_error task), s1))
          \/ (exists e s1,
                RealCoderClient.getTaskById c owner taskId s' = (Err e, s1)
                /\ out = (Err e, s1)))).
End PollVocabulary.

Definition is_fetch (ev : HttpEvent) : bool :=
  match ev with EvFetch _ _ => true | _ => false end.

(** The number of fetches among the events. *)
Definition fetch_count (tr : list HttpEvent) : nat := length (filter is_fetch tr).

Definition is_timeout (ev : HttpEvent) : bool :=
  match ev with EvTimeout _ => true | _ => false end.

(** The number of timers among the events. *)
Definition timer_count (tr : list HttpEvent) : nat := length (filter is_timeout tr).

(* ================================================================== *)
(** ** Reading the client's trace *)

(** Whatever the start state, the events a program adds satisfy [P]; the
    events may be of any kind. *)
Definition adds {W E A} (P : list E -> Prop) (m : M W E A) : Prop :=
  forall s, exists tr, trace (snd (m s)) = (trace s ++ tr)%list /\ P tr.

(** A fetch goes to the server of the client and carries its two headers;
    a timer lasts one poll interval. *)
Definition well_sent (serverURL apiToken : string) (ev : HttpEvent) : Prop :=
  match ev with
  | EvFetch url init =>
      String.prefix serverURL url = true
      /\ RequestInit.headers init =
           [("Coder-Session-Token", apiToken); ("Content-Type", "application/json")]
  | EvTimeout ms => ms = 2000
  | _ => True
  end.

(** What [ExperimentalCoderSDKTaskSchema] checks of the strings of a task. *)
Definition valid_task {zod : Zod} (task : Task.t) : Prop :=
  is_uuid (Task.id task) = true /\ Task.name task <> ""
  /\ is_uuid (Task.owner_id task) = true /\ is_uuid (Task.template_id task) = true.

(** What [CoderSDKUserSchema] checks of the strings of a user. *)
Definition valid_user {zod : Zod} (user : User.t) : Prop :=
  is_uuid (User.id user) = true /\ is_email (User.email user) = true
  /\ Forall (fun i => is_uuid i = true) (User.organization_ids user).

(** What [CoderSDKTemplateSchema] checks of the strings of a template. *)
Definition valid_template {zod : Zod} (template : Template.t) : Prop :=
  is_uuid (Template.id template) = true
  /\ is_uuid (Template.organization_id template) = true
  /\ is_uuid (Template.active_version_id template) = true.

(** The answer carries no content: status 204, or a [content-length] of
    0, with a status in 200-299. *)
Definition no_content (response : Response.t) : Prop :=
  Response.ok response = true
  /\ (Response.status response = 204
      \/ Response.headers_get response "content-length" = Some "0").

(* ================================================================== *)
(** ** Issue URLs *)

(** The loop of [parseInt_digits], from an accumulator. *)
Fixpoint parseInt_from (s : string) (acc : Z) : Z :=
  match s with
  | EmptyString => acc
  | String c rest => parseInt_from rest (10 * acc + (Z.of_nat (nat_of_ascii c) - 48))
  end.

(** The address of issue [n] of [org/repo] on [host], with whatever
    follows the number. *)
Definition issue_url (host org repo : string) (n : Z) (suffix : string) : string :=
  "https://" ++ host ++ "/" ++ org ++ "/" ++ repo ++ "/issues/"
  ++ string_of_Z n ++ suffix.

(** A path segment: not empty, without a slash. *)
Definition segment (s : string) : Prop := s <> "" /\ has_char "/" s = false.

(** The string does not go on with a digit. *)
Definition no_leading_digit (s : string) : Prop :=
  match s with
  | EmptyString => True
  | String c _ => is_digit c = false
  end.

(* ================================================================== *)
(** ** More of the schemas and of the comment *)

Section MoreSchemas.
Context {zod : Zod}.

(** [ExperimentalCoderSDKCreateTaskRequestSchema]. *)
Definition ExperimentalCoderSDKCreateTaskRequestSchema (j : Json)
    : option CreateTaskRequest.t :=
  o <~ z_object j ;;
  name <~ required z_string_min1 "name" o ;;
  template_version_id <~ required z_string_min1 "template_version_id" o ;;
  template_version_preset_id <~
    optional z_string_min1 "template_version_preset_id" o ;;
  input <~ required z_string_min1 "input" o ;;
  Some (CreateTaskRequest.mk name template_version_id template_version_preset_id
          input).
End MoreSchemas.

(** The strings of a create request that the schema wants non-empty. *)
Definition request_filled (req : CreateTaskRequest.t) : bool :=
  nonempty (CreateTaskRequest.name req)
  && nonempty (CreateTaskRequest.template_version_id req)
  && match CreateTaskRequest.template_version_preset_id req with
     | Some i => nonempty i
     | None => true
     end
  && nonempty (CreateTaskRequest.input req).

(** The test [commentOnIssue] runs on each comment: the body starts with
    [Task created:]. *)
Definition is_task_comment (comment : Comment.t) : bool :=
  match Comment.body comment with
  | Some b => startsWith "Task created:" b
  | None => false
  end.

(* ================================================================== *)
(** ** The order of the calls of a run *)

(** How far a run has come, by the calls it has made. *)
Inductive Stage :=
| Started | UserKnown | TemplateKnown | PresetsKnown | LookedUp
| Waited | Sent | Created | Listed | Commented.

(** The calls in the order of [run]: the user, the template, its presets,
    the task lookup; then the wait, if any, and the send, or the create
    call, the listing of the comments and one update or create of a
    comment.  A call out of this order has no next stage; an event that is
    no call leaves the stage as it is. *)
Definition next (q : Stage) (e : ActionEvent) : option Stage :=
  match e with
  | CallGetCoderUserByGitHubId _ =>
      match q with Started => Some UserKnown | _ => None end
  | CallGetTemplateByOrganizationAndName _ _ =>
      match q with UserKnown => Some TemplateKnown | _ => None end
  | CallGetTemplateVersionPresets _ =>
      match q with TemplateKnown => Some PresetsKnown | _ => None end
  | CallGetTask _ _ =>
      match q with PresetsKnown => Some LookedUp | _ => None end
  | CallWaitForTaskActive _ _ _ =>
      match q with LookedUp => Some Waited | _ => None end
  | CallSendTaskInput _ _ _ =>
      match q with LookedUp | Waited => Some Sent | _ => None end
  | CallCreateTask _ _ =>
      match q with LookedUp => Some Created | _ => None end
  | CallListComments _ _ _ =>
      match q with Created => Some Listed | _ => None end
  | CallUpdateComment _ _ _ _ | CallCreateComment _ _ _ _ =>
      match q with Listed => Some Commented | _ => None end
  | _ => Some q
  end.

Fixpoint steps (q : Stage) (tr : list ActionEvent) : option Stage :=
  match tr with
  | [] => Some q
  | e :: rest =>
      match next q e with
      | Some q' => steps q' rest
      | None => None
      end
  end.

(** From stage [q], the events a program adds are in order, and when it
    fulfils the stage reached satisfies [R]. *)
Definition moves {W A} (q : Stage) (R : Stage -> Prop) (m : M W ActionEvent A)
    : Prop :=
  forall s, exists tr q',
    trace (snd (m s)) = (trace s ++ tr)%list
    /\ steps q tr = Some q'
    /\ forall a, fst (m s) = Ok a -> R q'.

(** The calls that change something on the Coder deployment or on the
    issue. *)
Definition is_write (e : ActionEvent) : bool :=
  match e with
  | CallSendTaskInput _ _ _ | CallCreateTask _ _
  | CallUpdateComment _ _ _ _ | CallCreateComment _ _ _ _ => true
  | _ => false
  end.

Definition is_create (e : ActionEvent) : bool :=
  match e with CallCreateTask _ _ => true | _ => false end.

Definition is_send (e : ActionEvent) : bool :=
  match e with CallSendTaskInput _ _ _ => true | _ => false end.

Definition is_lookup (e : ActionEvent) : bool :=
  match e with CallGetTask _ _ => true | _ => false end.

(** The stages at which a task has been created, and the stage at which
    the prompt has been sent. *)
Definition created (q : Stage) : bool :=
  match q with Created | Listed | Commented => true | _ => false end.

Definition sent (q : Stage) : bool :=
  match q with Sent => true | _ => false end.

(** The stages before the task has been looked up. *)
Definition before_lookup (q : Stage) : bool :=
  match q with
  | Started | UserKnown | TemplateKnown | PresetsKnown => true
  | _ => false
  end.

(** What [main] reports to the workflow: outputs, a failure, the exit. *)
Definition is_report (e : ActionEvent) : bool :=
  match e with
  | CoreSetOutput _ _ | CoreSetFailed _ | ProcessExit _ => true
  | _ => false
  end.

Definition reports (tr : list ActionEvent) : list ActionEvent := filter is_report tr.

Definition no_reports (tr : list ActionEvent) : Prop := reports tr = [].

(** The four outputs of a run, as [main] sets them. *)
Definition output_lines (o : ActionOutputs.t) : list ActionEvent :=
  [CoreSetOutput "coder-username" (ActionOutputs.coderUsername o);
   CoreSetOutput "task-name" (ActionOutputs.taskName o);
   CoreSetOutput "task-url" (ActionOutputs.taskUrl o);
   CoreSetOutput "task-created" (Index.string_of_bool (ActionOutputs.taskCreated o))].

(* ================================================================== *)
(** * Properties *)

Unset Implicit Arguments.

Ltac monad_unfold :=
  unfold bind, ret, throw, emit, invoke, invoke_settled, try_catch, zparse in *.

(* ------------------------------------------------------------------ *)
(** ** The request layer *)

Section RequestFacts.
Context {Net : Type} {rt : Runtime Net}.
Variable c : RealCoderClient.t.
Variables (endpoint : string) (options : option RequestInit.t).
Variable s : St Net HttpEvent.

Local Abbreviation url := (RealCoderClient.serverURL c ++ endpoint).
Local Abbreviation init := (RealCoderClient.fetch_init c options).

Lemma request_not_ok (response : Response.t) (n' : Net) :
  fetch url init (world s) = (Ok response, n') ->
  Response.ok response = false ->
  RealCoderClient.request c endpoint options s =
    (Err (CoderAPIError ("Coder API error: " ++ Response.statusText response)
            (Response.status response)
            (Some (PText (match Response.text response with
                          | Some b => b | None => "" end)))),
     mkSt n' (trace s ++ [EvFetch url init; EvText])).
Proof.
  intros Hf Hok. unfold RealCoderClient.request, RealCoderClient.await_fetch,
    RealCoderClient.text_or_empty. monad_unfold.
  rewrite Hf, Hok. simpl. rewrite <- app_assoc. reflexivity.
Qed.

Lemma request_no_content (response : Response.t) (n' : Net) :
  fetch url init (world s) = (Ok response, n') ->
  Response.ok response = true ->
  (Response.status response =? 204)
  || RealCoderClient.content_length_zero response = true ->
  RealCoderClient.request c endpoint options s =
    (Ok None, mkSt n' (trace s ++ [EvFetch url init])).
Proof.
  intros Hf Hok He. unfold RealCoderClient.request, RealCoderClient.await_fetch.
  monad_unfold. rewrite Hf, Hok, He. reflexivity.
Qed.

Lemma request_json (response : Response.t) (n' : Net) :
  fetch url init (world s) = (Ok response, n') ->
  Response.ok response = true ->
  (Response.status response =? 204)
  || RealCoderClient.content_length_zero response = false ->
  RealCoderClient.request c endpoint options s =
    (match Response.json response with
     | Some j => Ok (Some j)
     | None => Err (SyntaxError "Unexpected end of JSON input")
     end, mkSt n' (trace s ++ [EvFetch url init; EvJson])).
Proof.
  intros Hf Hok He. unfold RealCoderClient.request, RealCoderClient.await_fetch,
    RealCoderClient.response_json.
  monad_unfold. rewrite Hf, Hok, He. simpl.
  rewrite <- app_assoc. destruct (Response.json response); reflexivity.
Qed.

Lemma request_fetch_fails (r : Result Response.t) (n' : Net) :
  fetch url init (world s) = (r, n') ->
  (forall response, r <> Ok response) ->
  exists r', RealCoderClient.request c endpoint options s =
    (r', mkSt n' (trace s ++ [EvFetch url init]))
    /\ (forall x, r' <> Ok x).
Proof.
  intros Hf Hr. unfold RealCoderClient.request, RealCoderClient.await_fetch.
  monad_unfold. rewrite Hf.
  destruct r as [resp | e |].
  - exfalso. now apply (Hr resp).
  - eexists; split; [reflexivity | discriminate].
  - eexists; split; [reflexivity | discriminate].
Qed.

(** Every request makes exactly one fetch, first, and no timer or log
    event. *)
Lemma request_trace :
  exists tail,
    trace (snd (RealCoderClient.request c endpoint options s)) =
      (trace s ++ EvFetch url init :: tail)%list
    /\ (tail = [] \/ tail = [EvText] \/ tail = [EvJson]).
Proof.
  destruct (fetch url init (world s)) as [r n'] eqn:Hf.
  destruct r as [response | e |].
  - destruct (Response.ok response) eqn:Hok.
    + destruct ((Response.status response =? 204)
                || RealCoderClient.content_length_zero response) eqn:He.
      * rewrite (request_no_content _ _ Hf Hok He). exists []. simpl. auto.
      * rewrite (request_json _ _ Hf Hok He). exists [EvJson]. simpl. auto.
    + rewrite (request_not_ok _ _ Hf Hok). exists [EvText]. simpl. auto.
  - unfold RealCoderClient.request, RealCoderClient.await_fetch. monad_unfold.
    rewrite Hf. exists []. simpl. auto.
  - unfold RealCoderClient.request, RealCoderClient.await_fetch. monad_unfold.
    rewrite Hf. exists []. simpl. auto.
Qed.
(** The world after a request is the world after its fetch. *)
Lemma request_world :
  world (snd (RealCoderClient.request c endpoint options s)) =
    snd (fetch url init (world s)).
Proof.
  unfold RealCoderClient.request, RealCoderClient.await_fetch,
    RealCoderClient.text_or_empty, RealCoderClient.response_json. monad_unfold.
  destruct (fetch url init (world s)) as [[response | e |] n']; simpl;
    try reflexivity.
  destruct (Response.ok response); simpl; [| reflexivity].
  destruct ((Response.status response =? 204)
            || RealCoderClient.content_length_zero response); simpl;
    [reflexivity |].
  destruct (Response.json response); reflexivity.
Qed.

(** A request stays unsettled only when its fetch does. *)
Lemma request_unsettled :
  fst (RealCoderClient.request c endpoint options s) = Unsettled ->
  fst (fetch url init (world s)) = Unsettled.
Proof.
  unfold RealCoderClient.request, RealCoderClient.await_fetch,
    RealCoderClient.text_or_empty, RealCoderClient.response_json. monad_unfold.
  destruct (fetch url init (world s)) as [[response | e |] n']; simpl;
    try discriminate; try reflexivity.
  destruct (Response.ok response); simpl; [| discriminate].
  destruct ((Response.status response =? 204)
            || RealCoderClient.content_length_zero response); simpl;
    [discriminate |].
  destruct (Response.json response); discriminate.
Qed.
End RequestFacts.

(** C7, on the code.  [request] classifies the response of its fetch by
    the status and by the [content-length] header, not by the body.  When
    the status is outside 200-299 it throws a [CoderAPIError] with the
    status text in the message, the status code, and the body read by
    [response.text()], the empty string when that read fails.  When the
    status is in 200-299 and is 204, or the [content-length] header is the
    string "0", it returns [undefined] and [response.json()] is not
    called.  A response in 200-299 other than 204 whose body has no bytes
    but whose [content-length] header is missing, or is not "0", is
    handed to [response.json()], and the request rejects with the
    [SyntaxError] of that call instead of returning [undefined]. *)
Theorem request_classifies_responses
    {Net : Type} {rt : Runtime Net} (c : RealCoderClient.t) (endpoint : string)
    (options : option RequestInit.t) (s : St Net HttpEvent)
    (response : Response.t) (n' : Net) :
  let url := RealCoderClient.serverURL c ++ endpoint in
  let init := RealCoderClient.fetch_init c options in
  fetch url init (world s) = (Ok response, n') ->
  (Response.ok response = false ->
     RealCoderClient.request c endpoint options s =
       (Err (CoderAPIError ("Coder API error: " ++ Response.statusText response)
               (Response.status response)
               (Some (PText (match Response.text response with
                             | Some body => body
                             | None => ""
                             end)))),
        mkSt n' (trace s ++ [EvFetch url init; EvText])))
  /\ (Response.ok response = true ->
      Response.status response = 204
      \/ Response.headers_get response "content-length" = Some "0" ->
      RealCoderClient.request c endpoint options s =
        (Ok None, mkSt n' (trace s ++ [EvFetch url init])))
  /\ (Response.ok response = true ->
      Response.status response <> 204 ->
      Response.headers_get response "content-length" <> Some "0" ->
      Response.zero_length_body response ->
      Response.well_formed response ->
      RealCoderClient.request c endpoint options s =
        (Err (SyntaxError "Unexpected end of JSON input"),
         mkSt n' (trace s ++ [EvFetch url init; EvJson]))).
Proof.
  intros url init Hf. split; [| split].
  - intros Hok. exact (request_not_ok c endpoint options s _ _ Hf Hok).
  - intros Hok He. apply (request_no_content c endpoint options s _ _ Hf Hok).
    destruct He as [He | He].
    + rewrite He. reflexivity.
    + unfold RealCoderClient.content_length_zero. rewrite He.
      apply orb_true_r.
  - intros Hok Hstatus Hlen Hzero Hwf.
    rewrite (request_json c endpoint options s _ _ Hf Hok).
    + rewrite (Hwf Hzero). reflexivity.
    + apply orb_false_iff. split.
      * apply Z.eqb_neq. exact Hstatus.
      * unfold RealCoderClient.content_length_zero.
        destruct (Response.headers_get response "content-length") as [v |];
          [| reflexivity].
        destruct (String.eqb_spec v "0") as [-> | _]; [| reflexivity].
        exfalso. apply Hlen. reflexivity.
Qed.

(** The three branches of [request_classifies_responses] on the scripted
    network: a 500 whose body cannot be read; a 204; and the failing
    input, a 200 whose body is empty and which carries no
    [content-length] header, as a chunked or HTTP/2 response does. *)
Lemma request_classifies_responses_witness :
  RealCoderClient.request (rt := Fixture.scripted) Fixture.client "/api/v2/users" None
    (Fixture.start
       [(0, Ok (Response.mk 500 "Internal Server Error" None None None))])
  = (Err (CoderAPIError "Coder API error: Internal Server Error" 500
            (Some (PText ""))),
     mkSt (Fixture.mkNet 0 [])
       [EvFetch "https://coder.test/api/v2/users"
          (RealCoderClient.fetch_init Fixture.client None); EvText])
  /\ RealCoderClient.request (rt := Fixture.scripted) Fixture.client
       "/api/experimental/tasks/testuser/t/send" None
       (Fixture.start [(0, Ok (Response.mk 204 "No Content" (Some []) (Some "") None))])
     = (Ok None,
        mkSt (Fixture.mkNet 0 [])
          [EvFetch "https://coder.test/api/experimental/tasks/testuser/t/send"
             (RealCoderClient.fetch_init Fixture.client None)])
  /\ RealCoderClient.request (rt := Fixture.scripted) Fixture.client
       "/api/experimental/tasks/testuser/t/send" None
       (Fixture.start [(0, Ok (Response.mk 200 "OK" (Some []) (Some "") None))])
     = (Err (SyntaxError "Unexpected end of JSON input"),
        mkSt (Fixture.mkNet 0 [])
          [EvFetch "https://coder.test/api/experimental/tasks/testuser/t/send"
             (RealCoderClient.fetch_init Fixture.client None); EvJson]).
Proof.
  split; [| split].
  - exact (proj1 (request_classifies_responses (rt := Fixture.scripted)
                    Fixture.client "/api/v2/users" None
                    (Fixture.start
                       [(0, Ok (Response.mk 500 "Internal Server Error" None None None))])
                    _ _ eq_refl) eq_refl).
  - exact (proj1 (proj2 (request_classifies_responses (rt := Fixture.scripted)
                    Fixture.client "/api/experimental/tasks/testuser/t/send" None
                    (Fixture.start
                       [(0, Ok (Response.mk 204 "No Content" (Some []) (Some "") None))])
                    _ _ eq_refl)) eq_refl (or_introl eq_refl)).
  - assert (Hstatus : Response.status (Response.mk 200 "OK" (Some []) (Some "") None)
                      <> 204) by discriminate.
    assert (Hlen : Response.headers_get
                     (Response.mk 200 "OK" (Some []) (Some "") None) "content-length"
                   <> Some "0") by discriminate.
    exact (proj2 (proj2 (request_classifies_responses (rt := Fixture.scripted)
                    Fixture.client "/api/experimental/tasks/testuser/t/send" None
                    (Fixture.start
                       [(0, Ok (Response.mk 200 "OK" (Some []) (Some "") None))])
                    _ _ eq_refl)) eq_refl Hstatus Hlen eq_refl (fun _ => eq_refl)).
Defined.

(* ------------------------------------------------------------------ *)
(** ** What a schema's output satisfies *)

Ltac obind_inv :=
  repeat match goal with
    | H : obind ?x _ = Some _ |- _ =>
        let E := fresh "E" in destruct x eqn:E; simpl in H; [| discriminate H]
    | H : (if ?b then _ else _) = Some _ |- _ =>
        let E := fresh "E" in destruct b eqn:E; [| discriminate H]
    | H : Some _ = Some _ |- _ => inversion H; subst; clear H
    end.

Section SchemaFacts.
Context {zod : Zod}.

Lemma z_uuid_valid (j : Json) (v : string) : z_uuid j = Some v -> is_uuid v = true.
Proof. unfold z_uuid. intros H. obind_inv. assumption. Qed.

Lemma z_email_valid (j : Json) (v : string) : z_email j = Some v -> is_email v = true.
Proof. unfold z_email. intros H. obind_inv. assumption. Qed.

Lemma z_array_uuid_valid (l : list Json) (vs : list string) :
  z_array z_uuid l = Some vs -> forallb is_uuid vs = true.
Proof.
  revert vs. induction l as [| j l IH]; intros vs H; simpl in H.
  - inversion H. reflexivity.
  - obind_inv. simpl. rewrite (z_uuid_valid _ _ E), (IH _ eq_refl). reflexivity.
Qed.

Lemma CoderSDKUserSchema_reparse_id (j : Json) (u : User.t) :
  CoderSDKUserSchema j = Some u -> CoderSDKUserSchema_reparse u = Some u.
Proof.
  unfold CoderSDKUserSchema, required. intros H. obind_inv.
  unfold CoderSDKUserSchema_reparse. simpl.
  rewrite (z_uuid_valid _ _ E0), (z_email_valid _ _ E2).
  destruct j0; simpl in E3; try discriminate E3.
  rewrite (z_array_uuid_valid _ _ E3). reflexivity.
Qed.

Lemma z_array_In {A} (dec : Json -> option A) (l : list Json) (vs : list A) (v : A) :
  z_array dec l = Some vs -> In v vs -> exists j, In j l /\ dec j = Some v.
Proof.
  revert vs. induction l as [| j l IH]; intros vs H Hin; simpl in H.
  - inversion H; subst. destruct Hin.
  - obind_inv. destruct Hin as [<- | Hin].
    + exists j. split; [left; reflexivity | assumption].
    + destruct (IH _ eq_refl Hin) as [j' [Hj' Hd]].
      exists j'. split; [right; assumption | assumption].
Qed.
End SchemaFacts.

(* ------------------------------------------------------------------ *)
(** ** Identity resolution *)

(** C3.  [getCoderUserByGitHubId] enforces exactly one match.  An absent
    id and the id 0 are rejected with the state untouched: no fetch is
    made.  For any other id, when the user search answers with a list
    that passes the schema, an empty list fails with status 404, a list
    of two or more fails with status 409 (its first element is not
    returned), and a list of one returns that user. *)
Theorem getCoderUserByGitHubId_exactly_one
    {Net : Type} {rt : Runtime Net} {zod : Zod} (c : RealCoderClient.t)
    (s : St Net HttpEvent) :
  RealCoderClient.getCoderUserByGitHubId c None s =
    (Err (CoderAPIError "GitHub user ID cannot be undefined" 400 None), s)
  /\ RealCoderClient.getCoderUserByGitHubId c (Some 0) s =
       (Err (ThrownString "GitHub user ID cannot be 0"), s)
  /\ forall (githubUserId : Z) (response : Json) (users : list User.t)
            (s1 : St Net HttpEvent),
       githubUserId <> 0 ->
       RealCoderClient.request c
         ("/api/v2/users?q="
          ++ encodeURIComponent ("github_com_user_id:" ++ string_of_Z githubUserId))
         None s = (Ok (Some response), s1) ->
       CoderSDKGetUsersResponseSchema response = Some users ->
       RealCoderClient.getCoderUserByGitHubId c (Some githubUserId) s =
         match users with
         | [] =>
             (Err (CoderAPIError
                     ("No Coder user found with GitHub user ID "
                      ++ string_of_Z githubUserId) 404 None), s1)
         | [user] => (Ok user, s1)
         | _ :: _ :: _ =>
             (Err (CoderAPIError
                     ("Multiple Coder users found with GitHub user ID "
                      ++ string_of_Z githubUserId) 409 None), s1)
         end.
Proof.
  split; [reflexivity | split; [reflexivity |]].
  intros githubUserId response users s1 Hid Hreq Hparse.
  unfold RealCoderClient.getCoderUserByGitHubId.
  destruct (Z.eqb_spec githubUserId 0) as [-> | _]; [contradiction |].
  monad_unfold. rewrite Hreq, Hparse.
  destruct users as [| user [| user' rest]]; simpl; try reflexivity.
  assert (Hu : CoderSDKUserSchema_reparse user = Some user).
  { unfold CoderSDKGetUsersResponseSchema, required in Hparse. obind_inv.
    match goal with H : z_array_of _ ?j = Some _ |- _ =>
      destruct j; simpl in H; try discriminate H;
      destruct (z_array_In _ _ _ user H (or_introl eq_refl)) as [j' [_ Hj']]
    end.
    exact (CoderSDKUserSchema_reparse_id _ _ Hj'). }
  rewrite Hu. reflexivity.
Qed.

(** The search answering with no user, with two users and with one user,
    on the scripted network. *)
Lemma getCoderUserByGitHubId_exactly_one_witness :
  let search (users : list Json) :=
    fst (RealCoderClient.getCoderUserByGitHubId (rt := Fixture.scripted)
           (zod := Fixture.zod) Fixture.client (Some 12345)
           (Fixture.start [(0, Ok (Fixture.json_reply (JObj [("users", JArr users)])))])) in
  search [] =
    Err (CoderAPIError "No Coder user found with GitHub user ID 12345" 404 None)
  /\ search [Fixture.mockUserJson; Fixture.mockUserJson] =
       Err (CoderAPIError "Multiple Coder users found with GitHub user ID 12345"
              409 None)
  /\ search [Fixture.mockUserJson] = Ok Fixture.mockUser.
Proof.
  cbv zeta.
  pose (thm := fun users =>
    proj2 (proj2 (getCoderUserByGitHubId_exactly_one (rt := Fixture.scripted)
                    (zod := Fixture.zod) Fixture.client
                    (Fixture.start
                       [(0, Ok (Fixture.json_reply (JObj [("users", JArr users)])))])))
      12345 (JObj [("users", JArr users)])).
  split; [| split].
  - rewrite (thm [] [] _ ltac:(discriminate) eq_refl eq_refl). reflexivity.
  - rewrite (thm [Fixture.mockUserJson; Fixture.mockUserJson]
               [Fixture.mockUser; Fixture.mockUser] _
               ltac:(discriminate) eq_refl eq_refl). reflexivity.
  - rewrite (thm [Fixture.mockUserJson] [Fixture.mockUser] _
               ltac:(discriminate) eq_refl eq_refl). reflexivity.
Defined.

(* ------------------------------------------------------------------ *)
(** ** Task lookup *)

(** C8.  [getTask] lists the owner's tasks and returns the first whose
    name is exactly the given one, [null] when there is none; a
    [CoderAPIError] with status 404 from the listing also yields [null];
    every other error of the listing, and a list that fails the schema,
    is rethrown. *)
Theorem getTask_absence_is_not_failure
    {Net : Type} {rt : Runtime Net} {zod : Zod} (c : RealCoderClient.t)
    (owner taskName : string) (s s1 : St Net HttpEvent)
    (r : Result (option Json)) :
  RealCoderClient.request c
    ("/api/experimental/tasks?q=" ++ encodeURIComponent ("owner:" ++ owner))
    None s = (r, s1) ->
  (forall (response : Json) (tasks : list Task.t),
     r = Ok (Some response) ->
     ExperimentalCoderSDKTaskListResponseSchema response = Some tasks ->
     exists found,
       RealCoderClient.getTask c owner taskName s = (Ok found, s1)
       /\ match found with
          | Some task =>
              exists before after,
                tasks = (before ++ task :: after)%list
                /\ Task.name task = taskName
                /\ forall t, In t before -> Task.name t <> taskName
          | None => forall t, In t tasks -> Task.name t <> taskName
          end)
  /\ (forall message response,
        r = Err (CoderAPIError message 404 response) ->
        RealCoderClient.getTask c owner taskName s = (Ok None, s1))
  /\ (forall e,
        r = Err e ->
        (forall message response, e <> CoderAPIError message 404 response) ->
        RealCoderClient.getTask c owner taskName s = (Err e, s1))
  /\ (forall response,
        r = Ok response ->
        match response with
        | Some j => ExperimentalCoderSDKTaskListResponseSchema j = None
        | None => True
        end ->
        RealCoderClient.getTask c owner taskName s =
          (Err (ZodError "ExperimentalCoderSDKTaskListResponseSchema"), s1)).
Proof.
  intros Hreq. unfold RealCoderClient.getTask. monad_unfold. rewrite Hreq.
  repeat split.
  - intros response tasks -> Hparse. rewrite Hparse.
    eexists; split; [reflexivity |].
    destruct (find (fun t => (Task.name t =? taskName)%string) tasks) as [task |] eqn:Hf.
    + clear Hparse. induction tasks as [| t tasks IH]; [discriminate Hf |].
      simpl in Hf. destruct (String.eqb_spec (Task.name t) taskName) as [Hn | Hn].
      * inversion Hf; subst. exists [], tasks. repeat split. intros ? [].
      * destruct (IH Hf) as [before [after [-> [Hname Hfirst]]]].
        exists (t :: before), after. repeat split; [assumption |].
        intros t' [<- | Hin]; [assumption | now apply Hfirst].
    + intros t Hin Hname.
      apply (find_none _ _ Hf) in Hin. simpl in Hin.
      rewrite (proj2 (String.eqb_eq _ _) Hname) in Hin. discriminate Hin.
  - intros message response ->. reflexivity.
  - intros e -> Hne. destruct e as [m code p | | | | | |]; try reflexivity.
    destruct (Z.eqb_spec code 404) as [-> | _]; [| reflexivity].
    exfalso. exact (Hne m p eq_refl).
  - intros response -> Hbad. destruct response as [j |]; [| reflexivity].
    rewrite Hbad. reflexivity.
Qed.

(** A listing with the task, and a 404, on the scripted network. *)
Lemma getTask_absence_is_not_failure_witness :
  (exists found,
     RealCoderClient.getTask (rt := Fixture.scripted) (zod := Fixture.zod)
       Fixture.client "testuser" "gh-42"
       (Fixture.start
          [(0, Ok (Fixture.json_reply
                     (JObj [("tasks",
                             JArr [Fixture.taskJson Fixture.mockTaskId "gh-7" "active" JNull;
                                   Fixture.taskJson Fixture.mockTaskId "gh-42" "pending"
                                     JNull])])))])
     = (Ok found,
        mkSt (Fixture.mkNet 0 [])
          [EvFetch "https://coder.test/api/experimental/tasks?q=owner%3Atestuser"
             (RealCoderClient.fetch_init Fixture.client None); EvJson])
     /\ found <> None)
  /\ RealCoderClient.getTask (rt := Fixture.scripted) (zod := Fixture.zod)
       Fixture.client "testuser" "gh-42"
       (Fixture.start [(0, Ok (Fixture.error_reply 404 "Not Found" "{}"))])
     = (Ok None,
        mkSt (Fixture.mkNet 0 [])
          [EvFetch "https://coder.test/api/experimental/tasks?q=owner%3Atestuser"
             (RealCoderClient.fetch_init Fixture.client None); EvText]).
Proof.
  split.
  - destruct (proj1 (getTask_absence_is_not_failure (rt := Fixture.scripted)
                       (zod := Fixture.zod) Fixture.client "testuser" "gh-42"
                       (Fixture.start
                          [(0, Ok (Fixture.json_reply
                             (JObj [("tasks",
                                JArr [Fixture.taskJson Fixture.mockTaskId "gh-7" "active" JNull;
                                      Fixture.taskJson Fixture.mockTaskId "gh-42" "pending"
                                        JNull])])))])
                       _ _ eq_refl) _ _ eq_refl eq_refl)
      as [found [Hrun Hfound]].
    exists found. split; [exact Hrun |].
    destruct found as [task |]; [discriminate |].
    exfalso.
    apply (Hfound (Fixture.mockTask "gh-42" pending None));
      [right; left; reflexivity | reflexivity].
  - exact (proj1 (proj2 (getTask_absence_is_not_failure (rt := Fixture.scripted)
                           (zod := Fixture.zod) Fixture.client "testuser" "gh-42"
                           (Fixture.start [(0, Ok (Fixture.error_reply 404 "Not Found" "{}"))])
                           _ _ eq_refl)) _ _ eq_refl).
Defined.

(* ------------------------------------------------------------------ *)
(** ** Waiting for a task *)

Lemma status_eqb_eq (a b : TaskStatus) : status_eqb a b = true <-> a = b.
Proof. destruct a, b; simpl; split; intros H; try reflexivity; discriminate H. Qed.

Lemma state_eqb_eq (a b : TaskState) : state_eqb a b = true <-> a = b.
Proof. destruct a, b; simpl; split; intros H; try reflexivity; discriminate H. Qed.

Lemma ready_iff (task : Task.t) :
  RealCoderClient.ready task = true
  <-> Task.status task = active
      /\ Task.current_state task = Some (Task.mkEntry idle).
Proof.
  unfold RealCoderClient.ready. rewrite andb_true_iff, status_eqb_eq.
  destruct (Task.current_state task) as [[st] |]; simpl.
  - rewrite state_eqb_eq. split; intros [H1 H2]; split; congruence.
  - split; intros [H1 H2]; discriminate H2.
Qed.

Section WaitFacts.
Context {Net : Type} {rt : Runtime Net} {zod : Zod}.
Variable c : RealCoderClient.t.
Variables owner taskId : string.
Variable timeoutMs : Z.

Local Abbreviation elapsed t0 s := (Date_now (world s) - t0).
Local Abbreviation loop fuel t0 :=
  (RealCoderClient.waitLoop fuel c owner taskId timeoutMs t0).

Lemma waitLoop_deadline (fuel : nat) (t0 : Z) (s : St Net HttpEvent) :
  timeoutMs <= elapsed t0 s ->
  loop (S fuel) t0 s = (Err (RealCoderClient.timeout_error timeoutMs), s).
Proof.
  intros H. simpl. unfold RealCoderClient.now. monad_unfold.
  destruct (Z.ltb_spec (Date_now (world s) - t0) timeoutMs); [lia | reflexivity].
Qed.

Lemma waitLoop_poll (fuel : nat) (t0 : Z) (s : St Net HttpEvent) :
  elapsed t0 s < timeoutMs ->
  loop (S fuel) t0 s =
    match RealCoderClient.getTaskById c owner taskId s with
    | (Ok task, s1) =>
        if status_eqb (Task.status task) error
        then (Err (RealCoderClient.task_error task), s1)
        else if RealCoderClient.ready task
        then (Ok tt, after_log taskId task s1)
        else loop fuel t0 (after_sleep 2000 (after_log taskId task s1))
    | (Err e, s1) => (Err e, s1)
    | (Unsettled, s1) => (Unsettled, s1)
    end.
Proof.
  intros H. simpl. unfold RealCoderClient.now, RealCoderClient.sleep.
  monad_unfold.
  destruct (Z.ltb_spec (Date_now (world s) - t0) timeoutMs); [| lia].
  destruct (RealCoderClient.getTaskById c owner taskId s) as [[task | e |] s1];
    try reflexivity.
  destruct (status_eqb (Task.status task) error); [reflexivity |].
  simpl. destruct (RealCoderClient.ready task); reflexivity.
Qed.
Lemma getTaskById_clock (s : St Net HttpEvent) :
  clock_advances ->
  Date_now (world s)
  <= Date_now (world (snd (RealCoderClient.getTaskById c owner taskId s))).
Proof.
  intros [Hmono _]. unfold RealCoderClient.getTaskById. monad_unfold.
  match goal with |- context [RealCoderClient.request ?c ?e ?o ?s] =>
    pose proof (request_world c e o s) as Hw;
    destruct (RealCoderClient.request c e o s) as [[[j |] | e' |] s1]
  end; simpl in *;
    try destruct (ExperimentalCoderSDKTaskSchema j); simpl;
    rewrite Hw; apply Hmono.
Qed.

Lemma getTaskById_settles (s : St Net HttpEvent) :
  fetch_settles ->
  fst (RealCoderClient.getTaskById c owner taskId s) <> Unsettled.
Proof.
  intros Hs. unfold RealCoderClient.getTaskById. monad_unfold.
  match goal with |- context [RealCoderClient.request ?c ?e ?o ?s] =>
    pose proof (request_unsettled c e o s) as Hu;
    destruct (RealCoderClient.request c e o s) as [[[j |] | e' |] s1]
  end; simpl in *;
    try destruct (ExperimentalCoderSDKTaskSchema j); simpl; try discriminate.
  intros _. exact (Hs _ _ _ (Hu eq_refl)).
Qed.

Lemma after_sleep_clock (taskId' : string) (task : Task.t) (s : St Net HttpEvent) :
  clock_advances ->
  Date_now (world s) + 2000
  <= Date_now (world (after_sleep 2000 (after_log taskId' task s))).
Proof. intros [_ Hsleep]. simpl. apply Hsleep. Qed.

Lemma waitLoop_settles (fuel : nat) :
  clock_advances -> fetch_settles ->
  forall (t0 : Z) (s : St Net HttpEvent),
    enough timeoutMs fuel t0 s -> fst (loop fuel t0 s) <> Unsettled.
Proof.
  intros Hclock Hsettle. induction fuel as [| fuel IH]; intros t0 s [H1 H2].
  - lia.
  - destruct (Z.lt_ge_cases (elapsed t0 s) timeoutMs) as [Hlt | Hge].
    + rewrite (waitLoop_poll fuel t0 s Hlt).
      pose proof (getTaskById_clock s Hclock) as Hc.
      pose proof (getTaskById_settles s Hsettle) as Hs.
      destruct (RealCoderClient.getTaskById c owner taskId s)
        as [[task | e |] s1]; cbn [fst snd] in *; try discriminate;
        [| congruence].
      destruct (status_eqb (Task.status task) error); [discriminate |].
      destruct (RealCoderClient.ready task); [discriminate |].
      apply IH. pose proof (after_sleep_clock taskId task s1 Hclock).
      unfold enough. split; lia.
    + rewrite (waitLoop_deadline fuel t0 s Hge). discriminate.
Qed.

Lemma waitLoop_times_out (fuel : nat) :
  clock_advances -> stays_non_terminal c owner taskId ->
  forall (t0 : Z) (s : St Net HttpEvent),
    enough timeoutMs fuel t0 s ->
    fst (loop fuel t0 s) = Err (RealCoderClient.timeout_error timeoutMs).
Proof.
  intros Hclock Hstay. induction fuel as [| fuel IH]; intros t0 s [H1 H2].
  - lia.
  - destruct (Z.lt_ge_cases (elapsed t0 s) timeoutMs) as [Hlt | Hge].
    + rewrite (waitLoop_poll fuel t0 s Hlt).
      pose proof (getTaskById_clock s Hclock) as Hc.
      destruct (Hstay s) as [task [s1 [Hget [Hne Hnr]]]].
      rewrite Hget in *. cbn [fst snd] in Hc.
      destruct (status_eqb (Task.status task) error) eqn:He.
      * apply status_eqb_eq in He. contradiction.
      * rewrite Hnr. apply IH.
        pose proof (after_sleep_clock taskId task s1 Hclock).
        unfold enough. split; lia.
    + rewrite (waitLoop_deadline fuel t0 s Hge). reflexivity.
Qed.

End WaitFacts.

Section PollFacts.
Context {Net : Type} {rt : Runtime Net} {zod : Zod}.
Variable c : RealCoderClient.t.
Variables owner taskId : string.
Variable timeoutMs : Z.

Local Abbreviation loop fuel t0 :=
  (RealCoderClient.waitLoop fuel c owner taskId timeoutMs t0).

(** The rounds that go on use up one unit of fuel each and nothing else. *)
Lemma waitLoop_pending (t0 : Z) (s s' : St Net HttpEvent) (tasks : list Task.t) :
  pending_polls c owner taskId timeoutMs t0 s tasks s' ->
  forall fuel, loop (length tasks + fuel) t0 s = loop fuel t0 s'.
Proof.
  induction 1 as [s | s s1 s' task rest Hlt Hget Hne Hnr _ IH]; intros fuel.
  - reflexivity.
  - cbn [length Nat.add].
    rewrite (waitLoop_poll c owner taskId timeoutMs _ t0 s Hlt), Hget.
    destruct (status_eqb (Task.status task) error) eqn:He;
      [apply status_eqb_eq in He; contradiction |].
    rewrite Hnr. apply IH.
Qed.

(** At a loop head, with fuel for one round: what the loop does when the
    round is the last. *)
Lemma waitLoop_last (fuel : nat) (t0 : Z) (s' : St Net HttpEvent) :
  (timeoutMs <= Date_now (world s') - t0 ->
   loop (S fuel) t0 s' = (Err (RealCoderClient.timeout_error timeoutMs), s'))
  /\ (Date_now (world s') - t0 < timeoutMs ->
      (forall task s1,
         RealCoderClient.getTaskById c owner taskId s' = (Ok task, s1) ->
         (Task.status task = active ->
          Task.current_state task = Some (Task.mkEntry idle) ->
          loop (S fuel) t0 s' = (Ok tt, after_log taskId task s1))
         /\ (Task.status task = error ->
             loop (S fuel) t0 s' = (Err (RealCoderClient.task_error task), s1)))
      /\ (forall e s1,
            RealCoderClient.getTaskById c owner taskId s' = (Err e, s1) ->
            loop (S fuel) t0 s' = (Err e, s1))).
Proof.
  split; [apply waitLoop_deadline |].
  intros Hlt. split.
  - intros task s1 Hget. rewrite (waitLoop_poll c owner taskId timeoutMs _ t0 s' Hlt), Hget.
    split.
    + intros Hs Hc. rewrite (proj2 (ready_iff task) (conj Hs Hc)), Hs. reflexivity.
    + intros Hs. rewrite Hs. reflexivity.
  - intros e s1 Hget. rewrite (waitLoop_poll c owner taskId timeoutMs _ t0 s' Hlt), Hget.
    reflexivity.
Qed.

(** With a clock that advances, fetches that settle and enough fuel, the
    loop goes through rounds that go on and then ends in one of the four
    ways. *)
Lemma waitLoop_runs (fuel : nat) :
  clock_advances (Net := Net) -> fetch_settles (Net := Net) ->
  forall (t0 : Z) (s : St Net HttpEvent),
    enough timeoutMs fuel t0 s ->
    exists tasks s',
      pending_polls c owner taskId timeoutMs t0 s tasks s'
      /\ (length tasks < fuel)%nat
      /\ wait_ends c owner taskId timeoutMs t0 s' (loop fuel t0 s).
Proof.
  intros Hclock Hsettle. induction fuel as [| fuel IH]; intros t0 s [H1 H2].
  - lia.
  - destruct (Z.lt_ge_cases (Date_now (world s) - t0) timeoutMs) as [Hlt | Hge].
    + pose proof (waitLoop_poll c owner taskId timeoutMs fuel t0 s Hlt) as Hpoll.
      pose proof (getTaskById_clock c owner taskId s Hclock) as Hc.
      pose proof (getTaskById_settles c owner taskId s Hsettle) as Hs.
      destruct (RealCoderClient.getTaskById c owner taskId s)
        as [[task | e |] s1] eqn:Hget; cbn [fst snd] in *; [| | congruence].
      * destruct (status_eqb (Task.status task) error) eqn:He.
        { apply status_eqb_eq in He. exists [], s.
          split; [constructor | split; [cbn; lia |]].
          right. split; [exact Hlt |]. right. left. exists task, s1.
          rewrite Hpoll. auto. }
        destruct (RealCoderClient.ready task) eqn:Hr.
        { exists [], s. split; [constructor | split; [cbn; lia |]].
          right. split; [exact Hlt |]. left. exists task, s1.
          destruct (proj1 (ready_iff task) Hr) as [Hst Hcs].
          rewrite Hpoll. auto. }
        pose proof (after_sleep_clock taskId task s1 Hclock) as Hsl.
        destruct (IH t0 (after_sleep 2000 (after_log taskId task s1)))
          as [tasks [s' [Hp [Hlen Hend]]]].
        { unfold enough. split; [| lia].
          destruct fuel; [| lia]. exfalso. cbn in H2. lia. }
        exists (task :: tasks), s'.
        split.
        { econstructor; eauto. intros Hst. rewrite Hst in He. discriminate He. }
        split; [cbn; lia |]. rewrite Hpoll. exact Hend.
      * exists [], s. split; [constructor | split; [cbn; lia |]].
        right. split; [exact Hlt |]. right. right. exists e, s1.
        rewrite Hpoll. auto.
    + exists [], s. split; [constructor | split; [cbn; lia |]].
      left. split; [exact Hge |].
      exact (waitLoop_deadline c owner taskId timeoutMs fuel t0 s Hge).
Qed.
End PollFacts.

(** C2, as amended.  [waitForTaskActive] ends in one of four ways.  It
    polls at the loop heads before the deadline, 2000 ms apart: each round
    fetches the task, and a task that is neither in the error state nor
    ready is logged and followed by a sleep of 2000 ms.  After any number
    of such rounds, at the next loop head: when the budget ([timeoutMs],
    120000 when none is given) has elapsed, the wait throws the timeout
    error, which carries the budget; before that, the task is fetched, and
    the wait returns at this tick when the task reports status active and
    current state idle, throws the task error at once when it reports
    status error, whatever the clock shows after the fetch and without
    another fetch or sleep, and throws the poll's own error at once,
    without a retry, when fetching the task fails.  With a clock that
    advances and fetches that settle the wait does end, in one of these
    four ways; and a task that stays non-terminal makes it end in the
    timeout. *)
Theorem waitForTaskActive_outcomes
    {Net : Type} {rt : Runtime Net} {zod : Zod} (c : RealCoderClient.t)
    (owner taskId : string) (timeoutMs : option Z) :
  let budget := match timeoutMs with Some t => t | None => 120000 end in
  let wait fuel s := RealCoderClient.waitForTaskActive fuel c owner taskId timeoutMs s in
  (forall (fuel : nat) (s s' : St Net HttpEvent) (tasks : list Task.t),
     pending_polls c owner taskId budget (Date_now (world s)) s tasks s' ->
     (length tasks < fuel)%nat ->
     (budget <= Date_now (world s') - Date_now (world s) ->
      wait fuel s =
        (Err (CoderAPIError
                ("Timeout waiting for task to reach active state (waited "
                 ++ string_of_Z budget ++ "ms)") 408 None), s'))
     /\ (Date_now (world s') - Date_now (world s) < budget ->
         (forall (task : Task.t) (s1 : St Net HttpEvent),
            RealCoderClient.getTaskById c owner taskId s' = (Ok task, s1) ->
            (Task.status task = active ->
             Task.current_state task = Some (Task.mkEntry idle) ->
             wait fuel s = (Ok tt, after_log taskId task s1))
            /\ (Task.status task = error ->
                wait fuel s =
                  (Err (CoderAPIError
                          "Task entered error state while waiting for active state"
                          500 (Some (PTask task))), s1)))
         /\ (forall (e : JsError) (s1 : St Net HttpEvent),
               RealCoderClient.getTaskById c owner taskId s' = (Err e, s1) ->
               wait fuel s = (Err e, s1))))
  /\ (clock_advances (Net := Net) -> fetch_settles (Net := Net) ->
      forall (fuel : nat) (s : St Net HttpEvent),
        (1 <= fuel)%nat -> budget <= 2000 * (Z.of_nat fuel - 1) ->
        exists tasks s',
          pending_polls c owner taskId budget (Date_now (world s)) s tasks s'
          /\ (length tasks < fuel)%nat
          /\ wait_ends c owner taskId budget (Date_now (world s)) s' (wait fuel s))
  /\ (clock_advances (Net := Net) -> stays_non_terminal c owner taskId ->
      forall (fuel : nat) (s : St Net HttpEvent),
        (1 <= fuel)%nat -> budget <= 2000 * (Z.of_nat fuel - 1) ->
        fst (wait fuel s) = Err (RealCoderClient.timeout_error budget)).
Proof.
  intros budget wait.
  assert (Hstart : forall fuel s,
            wait fuel s
            = RealCoderClient.waitLoop fuel c owner taskId budget
                (Date_now (world s)) s).
  { intros fuel s. reflexivity. }
  assert (Henough : forall fuel (s : St Net HttpEvent),
            (1 <= fuel)%nat -> budget <= 2000 * (Z.of_nat fuel - 1) ->
            enough budget fuel (Date_now (world s)) s).
  { intros fuel s H1 H2. unfold enough. split; lia. }
  split; [| split].
  - intros fuel s s' tasks Hchain Hlen. rewrite Hstart.
    replace fuel with (length tasks + S (fuel - S (length tasks)))%nat by lia.
    rewrite (waitLoop_pending c owner taskId budget _ s s' tasks Hchain).
    exact (waitLoop_last c owner taskId budget _ (Date_now (world s)) s').
  - intros Hclock Hsettle fuel s H1 H2. rewrite Hstart.
    apply waitLoop_runs; auto.
  - intros Hclock Hstay fuel s H1 H2. rewrite Hstart.
    apply waitLoop_times_out; auto.
Qed.

(** The wait over three polls on the scripted network, with a budget of
    7000 ms: the task is pending, then active without a state, then active
    and idle; the wait returns at the third fetch, after two sleeps. *)
Lemma waitForTaskActive_outcomes_witness :
  let replies :=
    [(10, Ok (Fixture.json_reply
                (Fixture.taskJson Fixture.mockTaskId "gh-42" "pending" JNull)));
     (10, Ok (Fixture.json_reply
                (Fixture.taskJson Fixture.mockTaskId "gh-42" "active" JNull)));
     (10, Ok (Fixture.json_reply
                (Fixture.taskJson Fixture.mockTaskId "gh-42" "active"
                   (JObj [("state", JStr "idle")]))))] in
  let out :=
    RealCoderClient.waitForTaskActive (rt := Fixture.scripted) (zod := Fixture.zod)
      10 Fixture.client "testuser" Fixture.mockTaskId (Some 7000)
      (Fixture.start replies) in
  fst out = Ok tt
  /\ fetch_count (trace (snd out)) = 3%nat
  /\ timer_count (trace (snd out)) = 2%nat
  /\ Fixture.clock (world (snd out)) = 4030.
Proof.
  cbv zeta.
  set (replies :=
    [(10, Ok (Fixture.json_reply
                (Fixture.taskJson Fixture.mockTaskId "gh-42" "pending" JNull)));
     (10, Ok (Fixture.json_reply
                (Fixture.taskJson Fixture.mockTaskId "gh-42" "active" JNull)));
     (10, Ok (Fixture.json_reply
                (Fixture.taskJson Fixture.mockTaskId "gh-42" "active"
                   (JObj [("state", JStr "idle")]))))]).
  set (get := RealCoderClient.getTaskById (rt := Fixture.scripted)
                (zod := Fixture.zod) Fixture.client "testuser" Fixture.mockTaskId).
  set (t1 := Fixture.mockTask "gh-42" pending None).
  set (t2 := Fixture.mockTask "gh-42" active None).
  set (t3 := Fixture.mockTask "gh-42" active (Some idle)).
  set (s0 := Fixture.start replies).
  set (s2 := after_sleep (rt := Fixture.scripted) 2000
               (after_log Fixture.mockTaskId t1 (snd (get s0)))).
  set (s4 := after_sleep (rt := Fixture.scripted) 2000
               (after_log Fixture.mockTaskId t2 (snd (get s2)))).
  assert (H1 : get s0 = (Ok t1, snd (get s0))) by (vm_compute; reflexivity).
  assert (H2 : get s2 = (Ok t2, snd (get s2))) by (vm_compute; reflexivity).
  assert (H3 : get s4 = (Ok t3, snd (get s4))) by (vm_compute; reflexivity).
  assert (Hchain : pending_polls (rt := Fixture.scripted) (zod := Fixture.zod)
                     Fixture.client "testuser" Fixture.mockTaskId 7000
                     (@Date_now _ Fixture.scripted (world s0)) s0 [t1; t2] s4).
  { apply pending_round with (s1 := snd (get s0)).
    - vm_compute. reflexivity.
    - exact H1.
    - discriminate.
    - reflexivity.
    - apply pending_round with (s1 := snd (get s2)).
      + vm_compute. reflexivity.
      + exact H2.
      + discriminate.
      + reflexivity.
      + apply pending_done. }
  assert (Hlen : (length [t1; t2] < 10)%nat) by (cbn; lia).
  assert (Hlt : @Date_now _ Fixture.scripted (world s4)
                - @Date_now _ Fixture.scripted (world s0) < 7000)
    by (vm_compute; reflexivity).
  pose proof (proj1 (proj1 (proj2 (proj1
                (waitForTaskActive_outcomes (rt := Fixture.scripted)
                   (zod := Fixture.zod) Fixture.client "testuser"
                   Fixture.mockTaskId (Some 7000))
                10%nat s0 s4 [t1; t2] Hchain Hlen) Hlt) t3 (snd (get s4)) H3)
              eq_refl eq_refl) as Hout.
  rewrite Hout. split; [reflexivity |].
  split; [vm_compute; reflexivity |]. split; vm_compute; reflexivity.
Defined.

(** C2 as stated fails: the three outcomes are not all.  A poll answered
    with status 503 ends the wait with the error of that poll, which is
    neither the task error nor the timeout. *)
Lemma waitForTaskActive_rejected_poll_is_a_fourth_outcome :
  let out :=
    fst (RealCoderClient.waitForTaskActive (rt := Fixture.scripted)
           (zod := Fixture.zod) 10 Fixture.client "testuser" Fixture.mockTaskId
           (Some 120000)
           (Fixture.start
              [(10, Ok (Fixture.error_reply 503 "Service Unavailable" "busy"))])) in
  out = Err (CoderAPIError "Coder API error: Service Unavailable" 503
               (Some (PText "busy")))
  /\ ~ three_outcomes 120000 out.
Proof.
  cbv zeta.
  assert (H : fst (RealCoderClient.waitForTaskActive (rt := Fixture.scripted)
                     (zod := Fixture.zod) 10 Fixture.client "testuser"
                     Fixture.mockTaskId (Some 120000)
                     (Fixture.start
                        [(10, Ok (Fixture.error_reply 503 "Service Unavailable"
                                    "busy"))]))
              = Err (CoderAPIError "Coder API error: Service Unavailable" 503
                       (Some (PText "busy"))))
    by (vm_compute; reflexivity).
  rewrite H. split; [reflexivity |].
  intros [Hc | [[task [_ Hc]] | Hc]]; [discriminate Hc | |].
  - unfold RealCoderClient.task_error in Hc. inversion Hc.
  - unfold RealCoderClient.timeout_error in Hc. inversion Hc.
Qed.

(* ------------------------------------------------------------------ *)
(** ** The task URL *)

Lemma before_query_or_fragment_spec (url : string) :
  exists rest,
    url = before_query_or_fragment url ++ rest
    /\ (rest = "" \/ String.prefix "?" rest = true \/ String.prefix "#" rest = true)
    /\ has_char "?" (before_query_or_fragment url) = false
    /\ has_char "#" (before_query_or_fragment url) = false.
Proof.
  induction url as [| ch url [rest [Hurl [Hrest [Hq Hf]]]]].
  - exists "". simpl. auto.
  - cbn [before_query_or_fragment].
    destruct (Ascii.eqb_spec ch "?") as [-> | Hnq]; cbn [orb].
    + exists (String "?" url).
      split; [reflexivity | split; [| split; reflexivity]].
      right. left. destruct url; reflexivity.
    + destruct (Ascii.eqb_spec ch "#") as [-> | Hnf].
      * exists (String "#" url).
        split; [reflexivity | split; [| split; reflexivity]].
        right. right. destruct url; reflexivity.
      * exists rest. cbn [has_char append]. rewrite <- Hurl, Hq, Hf.
        destruct (Ascii.eqb_spec "?" ch) as [E | _]; [now subst |].
        destruct (Ascii.eqb_spec "#" ch) as [E | _]; [now subst |].
        auto.
Qed.

Lemma strip_trailing_slash_spec (str : string) :
  (strip_trailing_slash str = str /\ ends_with_slash str = false)
  \/ str = strip_trailing_slash str ++ "/".
Proof.
  induction str as [| ch str IH]; simpl.
  - left. auto.
  - destruct (String.eqb_spec str "") as [-> | Hne].
    + destruct (Ascii.eqb_spec ch "/") as [-> | Hc]; simpl.
      * right. reflexivity.
      * left. auto.
    + rewrite andb_false_r.
      destruct IH as [[IH1 IH2] | IH].
      * left. rewrite IH1. auto.
      * right. simpl. rewrite <- IH. reflexivity.
Qed.

Lemma strip_trailing_slash_has_char (ch : ascii) (str : string) :
  has_char ch str = false -> has_char ch (strip_trailing_slash str) = false.
Proof.
  induction str as [| ch' str IH]; simpl; [auto |].
  intros H. apply orb_false_iff in H. destruct H as [H1 H2].
  destruct (Ascii.eqb ch' "/" && (str =? "")%string); simpl; [reflexivity |].
  rewrite H1, (IH H2). reflexivity.
Qed.

(** C9.  [generateTaskUrl] depends on the configured URL, the username and
    the task id only.  Its result is [base/tasks/username/taskId], where
    [base] holds no [?] and no [#] and the configured URL is [base], or
    [base] and one [/], followed by nothing or by a part that starts with
    [?] or [#].  For [https://h.test/?x=1#y], [u] and [t] it is
    [https://h.test/tasks/u/t]. *)
Theorem generateTaskUrl_strips (inputs : ActionInputs.t)
    (coderUsername taskID : string) :
  (exists baseURL rest,
     CoderTaskAction.generateTaskUrl inputs coderUsername taskID
     = baseURL ++ "/tasks/" ++ coderUsername ++ "/" ++ taskID
     /\ has_char "?" baseURL = false
     /\ has_char "#" baseURL = false
     /\ (ActionInputs.coderURL inputs = baseURL ++ rest
         /\ ends_with_slash baseURL = false
         \/ ActionInputs.coderURL inputs = (baseURL ++ "/") ++ rest)
     /\ (rest = "" \/ String.prefix "?" rest = true \/ String.prefix "#" rest = true))
  /\ (forall inputs' : ActionInputs.t,
        ActionInputs.coderURL inputs' = ActionInputs.coderURL inputs ->
        CoderTaskAction.generateTaskUrl inputs' coderUsername taskID
        = CoderTaskAction.generateTaskUrl inputs coderUsername taskID)
  /\ (ActionInputs.coderURL inputs = "https://h.test/?x=1#y" ->
      CoderTaskAction.generateTaskUrl inputs "u" "t" = "https://h.test/tasks/u/t").
Proof.
  split; [| split].
  - destruct (before_query_or_fragment_spec (ActionInputs.coderURL inputs))
      as [rest [Hurl [Hrest [Hq Hf]]]].
    exists (strip_trailing_slash
              (before_query_or_fragment (ActionInputs.coderURL inputs))), rest.
    split; [reflexivity |].
    split; [now apply strip_trailing_slash_has_char |].
    split; [now apply strip_trailing_slash_has_char |].
    split; [| exact Hrest].
    destruct (strip_trailing_slash_spec
                (before_query_or_fragment (ActionInputs.coderURL inputs)))
      as [[H1 H2] | H].
    + left. rewrite H1. auto.
    + right. rewrite <- H. exact Hurl.
  - intros inputs' H. unfold CoderTaskAction.generateTaskUrl. rewrite H.
    reflexivity.
  - intros H. unfold CoderTaskAction.generateTaskUrl. rewrite H. reflexivity.
Qed.

(** The example of the specification, on the inputs of the in-memory
    deployment with the URL replaced. *)
Lemma generateTaskUrl_strips_witness :
  CoderTaskAction.generateTaskUrl
    (ActionInputs.mk "fix the bug" "test-token" "https://h.test/?x=1#y" "my-template"
       "https://github.com/acme/widgets/issues/42" "github-token" "default" "gh"
       None true (Some 12345) None) "u" "t"
  = "https://h.test/tasks/u/t".
Proof.
  exact (proj2 (proj2 (generateTaskUrl_strips
           (ActionInputs.mk "fix the bug" "test-token" "https://h.test/?x=1#y"
              "my-template" "https://github.com/acme/widgets/issues/42"
              "github-token" "default" "gh" None true (Some 12345) None)
           "u" "t")) eq_refl).
Defined.

(* ------------------------------------------------------------------ *)
(** ** Programs and their traces *)

Section Traced.
Context {W : Type}.
Variable P : list ActionEvent -> Prop.
Hypothesis P_nil : P [].
Hypothesis P_app : forall a b, P a -> P b -> P (a ++ b).

Lemma traced_ret {A} (a : A) : traced (W := W) P (ret a).
Proof. intros s. exists []. simpl. rewrite app_nil_r. auto. Qed.

Lemma traced_throw {A} (e : JsError) : traced (W := W) (A := A) P (throw e).
Proof. intros s. exists []. simpl. rewrite app_nil_r. auto. Qed.

Lemma traced_emit (e : ActionEvent) : P [e] -> traced (W := W) P (emit e).
Proof. intros H s. exists [e]. simpl. auto. Qed.

Lemma traced_invoke {A} (e : ActionEvent) (f : W -> Result A * W) :
  P [e] -> traced P (invoke e f).
Proof.
  intros H s. exists [e]. unfold invoke. destruct (f (world s)). simpl. auto.
Qed.

Lemma traced_invoke_settled {A} (e : ActionEvent) (f : W -> (JsError + A) * W) :
  P [e] -> traced P (invoke_settled e f).
Proof.
  intros H s. exists [e]. unfold invoke_settled. destruct (f (world s)). simpl. auto.
Qed.

Lemma traced_bind {A B} (m : M W ActionEvent A) (k : A -> M W ActionEvent B) :
  traced P m -> (forall a, traced P (k a)) -> traced P (bind m k).
Proof.
  intros Hm Hk s. unfold bind. destruct (Hm s) as [tr [Ht Hq]].
  destruct (m s) as [[a | e |] s1]; simpl in Ht.
  - destruct (Hk a s1) as [tr' [Ht' Hq']]. exists (tr ++ tr')%list.
    rewrite Ht', Ht, app_assoc. auto.
  - exists tr. simpl. auto.
  - exists tr. simpl. auto.
Qed.

Lemma traced_try_catch {A} (m : M W ActionEvent A) (h : JsError -> M W ActionEvent A) :
  traced P m -> (forall e, traced P (h e)) -> traced P (try_catch m h).
Proof.
  intros Hm Hh s. unfold try_catch. destruct (Hm s) as [tr [Ht Hq]].
  destruct (m s) as [[a | e |] s1]; simpl in Ht.
  - exists tr. simpl. auto.
  - destruct (Hh e s1) as [tr' [Ht' Hq']]. exists (tr ++ tr')%list.
    rewrite Ht', Ht, app_assoc. auto.
  - exists tr. simpl. auto.
Qed.

Lemma traced_if {A} (b : bool) (m1 m2 : M W ActionEvent A) :
  traced P m1 -> traced P m2 -> traced P (if b then m1 else m2).
Proof. destruct b; auto. Qed.
End Traced.

Lemma no_octokit_app (a b : list ActionEvent) :
  no_octokit a -> no_octokit b -> no_octokit (a ++ b).
Proof. unfold no_octokit. intros Ha Hb. rewrite filter_app, Ha, Hb. reflexivity. Qed.

Ltac traced_tac Pnil Papp :=
  repeat first
    [ apply (traced_ret _ Pnil) | apply (traced_throw _ Pnil)
    | apply traced_emit; reflexivity | apply traced_invoke; reflexivity
    | apply traced_invoke_settled; reflexivity
    | apply (traced_bind _ Papp); [| intros ?]
    | apply (traced_try_catch _ Papp); [| intros ?]
    | apply traced_if
    | match goal with
      | |- traced _ (match ?x with _ => _ end) => destruct x
      end ].

Ltac quiet_tac := traced_tac (eq_refl : no_octokit []) no_octokit_app.
Ltac any_trace_tac :=
  traced_tac I (fun (a b : list ActionEvent) (_ _ : True) => I).

Lemma resolve_quiet {W} (coder : CoderClient.t W) (inputs : ActionInputs.t) :
  traced no_octokit (CoderTaskAction.resolve coder inputs).
Proof.
  unfold CoderTaskAction.resolve, CoderTaskAction.resolvePreset,
    CoderTaskAction.selectPreset, CoderTaskAction.requirePreset,
    CoderTaskAction.parseGithubIssueURL, CoderTaskAction.info, zparse.
  quiet_tac.
Qed.

Lemma useExistingTask_quiet {W} (coder : CoderClient.t W) (inputs : ActionInputs.t)
    (username : string) (task : Task.t) :
  traced no_octokit (CoderTaskAction.useExistingTask coder inputs username task).
Proof.
  unfold CoderTaskAction.useExistingTask, CoderTaskAction.info. quiet_tac.
Qed.

Lemma commentOnIssue_traced {W} (octokit : Octokit.t W) (taskUrl owner repo : string) (n : Z) :
  traced (fun _ => True) (CoderTaskAction.commentOnIssue octokit taskUrl owner repo n).
Proof.
  unfold CoderTaskAction.commentOnIssue.
  apply (traced_try_catch _ (fun (a b : list ActionEvent) (_ _ : True) => I)); [| intros ?].
  - apply (traced_bind _ (fun (a b : list ActionEvent) (_ _ : True) => I)); [| intros ?].
    + apply traced_invoke_settled. exact I.
    + match goal with |- traced _ (match ?x with _ => _ end) => destruct x end;
        apply traced_invoke_settled; exact I.
  - apply traced_emit. exact I.
Qed.

Lemma useExistingTask_not_created {W} (coder : CoderClient.t W)
    (inputs : ActionInputs.t) (username : string) (task : Task.t)
    (s : St W ActionEvent) (out : ActionOutputs.t) :
  fst (CoderTaskAction.useExistingTask coder inputs username task s) = Ok out ->
  ActionOutputs.taskCreated out = false.
Proof.
  unfold CoderTaskAction.useExistingTask, CoderTaskAction.info. monad_unfold.
  cbn [world trace].
  destruct (negb (status_eqb (Task.status task) active)); cbn [world trace].
  - destruct (CoderClient.waitForTaskActive coder username (Task.id task) (Some 1200000) (world s)) as [[[] | e |] w1];
      cbn [world trace fst]; try discriminate.
    destruct (CoderClient.sendTaskInput coder username (Task.id task) (ActionInputs.coderTaskPrompt inputs) w1) as [[[] | e |] w2];
      cbn [world trace fst]; try discriminate.
    intros H. inversion H. reflexivity.
  - destruct (CoderClient.sendTaskInput coder username (Task.id task) (ActionInputs.coderTaskPrompt inputs) (world s)) as [[[] | e |] w2];
      cbn [world trace fst]; try discriminate.
    intros H. inversion H. reflexivity.
Qed.

Section MonadSteps.
Context {W E : Type}.

Lemma bind_emit {B} (e : E) (k : unit -> M W E B) (s : St W E) :
  bind (emit e) k s = k tt (mkSt (world s) (trace s ++ [e])).
Proof. reflexivity. Qed.

Lemma bind_invoke {A B} (e : E) (f : W -> Result A * W) (k : A -> M W E B)
    (s : St W E) (r : Result A) (w' : W) :
  f (world s) = (r, w') ->
  bind (invoke e f) k s =
    match r with
    | Ok a => k a (mkSt w' (trace s ++ [e]))
    | Err err => (Err err, mkSt w' (trace s ++ [e]))
    | Unsettled => (Unsettled, mkSt w' (trace s ++ [e]))
    end.
Proof. intros H. unfold bind, invoke. rewrite H. destruct r; reflexivity. Qed.

Lemma bind_ok {A B} (m : M W E A) (k : A -> M W E B) (s s' : St W E) (a : A) :
  m s = (Ok a, s') -> bind m k s = k a s'.
Proof. intros H. unfold bind. rewrite H. reflexivity. Qed.

Lemma bind_err {A B} (m : M W E A) (k : A -> M W E B) (s s' : St W E) (e : JsError) :
  m s = (Err e, s') -> bind m k s = (Err e, s').
Proof. intros H. unfold bind. rewrite H. reflexivity. Qed.
End MonadSteps.

Section CreateTrace.
Context {W : Type}.
Variable coder : CoderClient.t W.
Variable octokit : Octokit.t W.
Variable inputs : ActionInputs.t.

Lemma createNewTask_trace (username taskName : string) (template : Template.t)
    (presetID : option string) (ref : IssueRef.t) (s : St W ActionEvent) :
  let req := CreateTaskRequest.mk taskName (Template.active_version_id template)
               presetID (ActionInputs.coderTaskPrompt inputs) in
  exists post,
    trace (snd (CoderTaskAction.createNewTask coder octokit inputs username taskName
                  template presetID ref s))
    = (trace s ++ [CoreInfo "Creating Coder task..."]
       ++ CallCreateTask username req :: post)%list
    /\ (no_octokit post
        \/ ActionInputs.commentOnIssue inputs = true
           /\ exists created w',
                CoderClient.createTask coder username req (world s) = (Ok created, w')).
Proof.
  intros req. unfold CoderTaskAction.createNewTask, CoderTaskAction.info.
  rewrite bind_emit. fold req.
  destruct (CoderClient.createTask coder username req (world s))
    as [r w'] eqn:Hc.
  erewrite bind_invoke; [| cbn [world]; exact Hc].
  destruct r as [created | e |].
  - destruct (ActionInputs.commentOnIssue inputs) eqn:Hcomment.
    + match goal with |- context [snd (?m ?st)] =>
        assert (Ht : traced (fun _ => True) m) by
          (unfold CoderTaskAction.commentOnIssue; any_trace_tac);
        destruct (Ht st) as [tr [Htr _]]; rewrite Htr
      end.
      exists tr. cbn [trace]. rewrite <- !app_assoc. split; [reflexivity |].
      right. split; [reflexivity |]. exists created, w'. reflexivity.
    + match goal with |- context [snd (?m ?st)] =>
        assert (Ht : traced no_octokit m) by quiet_tac;
        destruct (Ht st) as [tr [Htr Hq]]; rewrite Htr
      end.
      exists tr. cbn [trace]. rewrite <- !app_assoc. split; [reflexivity |].
      left. exact Hq.
  - exists []. cbn [snd trace]. rewrite <- app_assoc. split; [reflexivity |].
    left. reflexivity.
  - exists []. cbn [snd trace]. rewrite <- app_assoc. split; [reflexivity |].
    left. reflexivity.
Qed.
End CreateTrace.

Section Notification.
Context {W : Type}.
Variable coder : CoderClient.t W.
Variable octokit : Octokit.t W.
Variable inputs : ActionInputs.t.

Lemma ensureTaskRunning_existing_quiet (username taskName : string)
    (template : Template.t) (presetID : option string) (ref : IssueRef.t)
    (s : St W ActionEvent) (task : Task.t) (w1 : W) :
  CoderClient.getTask coder username taskName (world s) = (Ok (Some task), w1) ->
  exists tr,
    trace (snd (CoderTaskAction.ensureTaskRunning coder octokit inputs username
                  taskName template presetID ref s))
    = (trace s ++ tr)%list
    /\ filter is_octokit_call tr = []
    /\ forall out,
         fst (CoderTaskAction.ensureTaskRunning coder octokit inputs username
                taskName template presetID ref s) = Ok out ->
         ActionOutputs.taskCreated out = false.
Proof.
  intros Hget. unfold CoderTaskAction.ensureTaskRunning.
  rewrite (bind_invoke _ _ _ _ _ _ Hget).
  match goal with |- context [snd (?m ?st)] =>
    destruct (useExistingTask_quiet coder inputs username task st) as [tr [Htr Hq]]
  end.
  exists (CallGetTask username taskName :: tr). rewrite Htr. cbn [trace].
  rewrite <- app_assoc. split; [reflexivity |]. split.
  - simpl. exact Hq.
  - intros out. apply useExistingTask_not_created.
Qed.

Lemma run_comments_after_create (s : St W ActionEvent) :
  exists tr,
    trace (snd (CoderTaskAction.run coder octokit inputs s)) = (trace s ++ tr)%list
    /\ (filter is_octokit_call tr <> [] ->
        ActionInputs.commentOnIssue inputs = true
        /\ exists pre owner req post,
             tr = (pre ++ CallCreateTask owner req :: post)%list
             /\ filter is_octokit_call pre = []
             /\ exists w created w',
                  CoderClient.createTask coder owner req w = (Ok created, w')).
Proof.
  unfold CoderTaskAction.run, bind at 1.
  destruct (resolve_quiet coder inputs s) as [tr1 [Htr1 Hq1]].
  destruct (CoderTaskAction.resolve coder inputs s) as [[r | e |] s1];
    cbn [snd] in Htr1.
  2, 3: exists tr1; cbn [snd]; split; [exact Htr1 | intros H; contradiction].
  unfold CoderTaskAction.ensureTaskRunning.
  destruct (CoderClient.getTask coder (User.username (Resolved.coderUser r))
              (Resolved.taskName r) (world s1)) as [found w2] eqn:Hget.
  rewrite (bind_invoke _ _ _ _ _ _ Hget).
  destruct found as [[task |] | e |].
  - match goal with |- context [snd (?m ?st)] =>
      destruct (useExistingTask_quiet coder inputs
                  (User.username (Resolved.coderUser r)) task st) as [tr [Htr Hq]]
    end.
    exists (tr1 ++ CallGetTask (User.username (Resolved.coderUser r))
                     (Resolved.taskName r) :: tr)%list.
    rewrite Htr. cbn [trace]. rewrite Htr1, <- !app_assoc. split; [reflexivity |].
    intros H. exfalso. apply H. rewrite filter_app. cbn. unfold no_octokit in *.
    rewrite Hq1, Hq. reflexivity.
  - match goal with |- context [snd (?m ?st)] =>
      destruct (createNewTask_trace coder octokit inputs
                  (User.username (Resolved.coderUser r)) (Resolved.taskName r)
                  (Resolved.template r) (Resolved.presetID r) (Resolved.ref r) st)
        as [post [Htr Hpost]]
    end.
    cbv zeta in Htr, Hpost. rewrite Htr. cbn [trace world] in *.
    eexists. rewrite Htr1, <- !app_assoc. split; [reflexivity |].
    intros H. destruct Hpost as [Hq | [Hc [created [w' Hcreate]]]].
    + exfalso. apply H. rewrite filter_app. cbn. unfold no_octokit in *.
      rewrite Hq1, Hq. reflexivity.
    + split; [exact Hc |].
      exists (tr1 ++ [CallGetTask (User.username (Resolved.coderUser r))
                        (Resolved.taskName r);
                      CoreInfo "Creating Coder task..."])%list.
      eexists. eexists. eexists.
      split; [rewrite <- app_assoc; reflexivity |].
      split.
      * rewrite filter_app. cbn. unfold no_octokit in Hq1. rewrite Hq1. reflexivity.
      * exists w2, created, w'. exact Hcreate.
  - eexists. cbn [snd trace]. rewrite Htr1, <- app_assoc. split; [reflexivity |].
    intros H. exfalso. apply H. rewrite filter_app. cbn. unfold no_octokit in *.
    rewrite Hq1. reflexivity.
  - eexists. cbn [snd trace]. rewrite Htr1, <- app_assoc. split; [reflexivity |].
    intros H. exfalso. apply H. rewrite filter_app. cbn. unfold no_octokit in *.
    rewrite Hq1. reflexivity.
Qed.
End Notification.

(* ------------------------------------------------------------------ *)
(** ** The issue comment *)

(** C10.  When the lookup finds a task, the rest of the run adds no call
    on the Octokit interface, whatever [commentOnIssue] is, and a result
    it returns has [taskCreated = false].  In every run, if the trace
    holds a call on the Octokit interface then [commentOnIssue] is true
    and the trace holds, before any such call, a [createTask] call that
    returned a task. *)
Theorem comment_only_after_creation
    {W : Type} (coder : CoderClient.t W) (octokit : Octokit.t W)
    (inputs : ActionInputs.t) :
  (forall (username taskName : string) (template : Template.t)
          (presetID : option string) (ref : IssueRef.t) (s : St W ActionEvent)
          (task : Task.t) (w1 : W),
     CoderClient.getTask coder username taskName (world s) = (Ok (Some task), w1) ->
     exists tr,
       trace (snd (CoderTaskAction.ensureTaskRunning coder octokit inputs username
                     taskName template presetID ref s))
       = (trace s ++ tr)%list
       /\ filter is_octokit_call tr = []
       /\ forall out,
            fst (CoderTaskAction.ensureTaskRunning coder octokit inputs username
                   taskName template presetID ref s) = Ok out ->
            ActionOutputs.taskCreated out = false)
  /\ (forall s : St W ActionEvent,
      exists tr,
        trace (snd (CoderTaskAction.run coder octokit inputs s)) = (trace s ++ tr)%list
        /\ (filter is_octokit_call tr <> [] ->
            ActionInputs.commentOnIssue inputs = true
            /\ exists pre owner req post,
                 tr = (pre ++ CallCreateTask owner req :: post)%list
                 /\ filter is_octokit_call pre = []
                 /\ exists w created w',
                      CoderClient.createTask coder owner req w = (Ok created, w'))).
Proof.
  split.
  - intros. eapply ensureTaskRunning_existing_quiet; eassumption.
  - apply run_comments_after_create.
Qed.

(** A run of the in-memory deployment that finds the task [gh-42], with
    [commentOnIssue] true: nothing is asked of Octokit. *)
Lemma comment_only_after_creation_witness :
  exists tr,
    trace (snd (CoderTaskAction.ensureTaskRunning (Mock.coder []) Mock.octokit
                  (Mock.inputs None true) "testuser" "gh-42" Fixture.mockTemplate
                  None (IssueRef.mk "acme" "widgets" 42)
                  (Mock.start [Fixture.mockTask "gh-42" active (Some idle)] true)))
    = tr
    /\ filter is_octokit_call tr = []
    /\ In (CallSendTaskInput "testuser" Fixture.mockTaskId "fix the bug") tr.
Proof.
  destruct (proj1 (comment_only_after_creation (Mock.coder []) Mock.octokit
                     (Mock.inputs None true))
              "testuser" "gh-42" Fixture.mockTemplate None
              (IssueRef.mk "acme" "widgets" 42)
              (Mock.start [Fixture.mockTask "gh-42" active (Some idle)] true)
              _ _ eq_refl) as [tr [Htr [Hq _]]].
  exists tr. split; [exact Htr | split; [exact Hq |]].
  cbn in Htr. subst tr. cbn. auto 10.
Defined.

(* ------------------------------------------------------------------ *)
(** ** Preset selection *)

Lemma find_first {A} (f : A -> bool) (before : list A) (p : A) (after : list A) :
  f p = true -> (forall q, In q before -> f q = false) ->
  find f (before ++ p :: after) = Some p.
Proof.
  intros Hp. induction before as [| q before IH]; intros Hb; simpl.
  - rewrite Hp. reflexivity.
  - rewrite (Hb q (or_introl eq_refl)). apply IH.
    intros q' Hq'. apply Hb. right. exact Hq'.
Qed.

Lemma find_nowhere {A} (f : A -> bool) (l : list A) :
  (forall q, In q l -> f q = false) -> find f l = None.
Proof.
  induction l as [| q l IH]; intros H; simpl; [reflexivity |].
  rewrite (H q (or_introl eq_refl)). apply IH.
  intros q' Hq'. apply H. right. exact Hq'.
Qed.

Lemma nonempty_true (str : string) : nonempty str = true <-> str <> "".
Proof.
  unfold nonempty. rewrite negb_true_iff.
  destruct (String.eqb_spec str ""); split; congruence.
Qed.

Section PresetFacts.
Context {W : Type}.
Variable inputs : ActionInputs.t.
Variable presets : list Preset.t.

Lemma resolvePreset_default (s : St W ActionEvent) :
  truthy (ActionInputs.coderTemplatePreset inputs) = false ->
  CoderTaskAction.resolvePreset inputs presets s =
    (Ok (default_preset presets),
     mkSt (world s) (trace s ++ [CoreInfo "Coder Template: Using default preset"])).
Proof.
  intros H. unfold CoderTaskAction.resolvePreset, CoderTaskAction.selectPreset,
    CoderTaskAction.requirePreset, CoderTaskAction.info.
  rewrite H. reflexivity.
Qed.

Lemma resolvePreset_named (s : St W ActionEvent) (name : string) :
  ActionInputs.coderTemplatePreset inputs = Some name -> name <> "" ->
  CoderTaskAction.resolvePreset inputs presets s =
    (if truthy (named_preset name presets)
     then Ok (named_preset name presets)
     else Err (Error ("Preset " ++ name ++ " not found")), s).
Proof.
  intros H Hn. unfold CoderTaskAction.resolvePreset, CoderTaskAction.selectPreset,
    CoderTaskAction.requirePreset, CoderTaskAction.info.
  rewrite H. cbn [truthy show_opt]. rewrite (proj2 (nonempty_true name) Hn).
  monad_unfold. cbn [negb andb].
  destruct (truthy (named_preset name presets)); reflexivity.
Qed.

(** The choice does not depend on the state, and the block makes no call. *)
Lemma resolvePreset_state (s : St W ActionEvent) :
  exists logs,
    snd (CoderTaskAction.resolvePreset inputs presets s)
    = mkSt (world s) (trace s ++ logs)
    /\ calls logs = []
    /\ forall s' : St W ActionEvent,
         fst (CoderTaskAction.resolvePreset inputs presets s')
         = fst (CoderTaskAction.resolvePreset inputs presets s).
Proof.
  destruct (truthy (ActionInputs.coderTemplatePreset inputs)) eqn:Ht.
  - destruct (ActionInputs.coderTemplatePreset inputs) as [name |] eqn:Hreq;
      [| discriminate Ht].
    cbn in Ht. apply nonempty_true in Ht.
    exists []. rewrite (resolvePreset_named s name Hreq Ht).
    cbn [snd]. rewrite app_nil_r. destruct s. split; [reflexivity |].
    split; [reflexivity |]. intros s'.
    rewrite (resolvePreset_named s' name Hreq Ht). reflexivity.
  - exists [CoreInfo "Coder Template: Using default preset"].
    rewrite (resolvePreset_default s Ht). split; [reflexivity |].
    split; [reflexivity |]. intros s'.
    rewrite (resolvePreset_default s' Ht). reflexivity.
Qed.
End PresetFacts.

(* ------------------------------------------------------------------ *)
(** ** The first part of a run *)

Lemma append_nonempty (a b : string) : nonempty a = true -> nonempty (a ++ b) = true.
Proof. destruct a; [discriminate | reflexivity]. Qed.

Lemma match_issue_nonempty (url : string) (m : string * string * string) :
  match_issue (split_slash url) = Some m -> nonempty url = true.
Proof. destruct url; [discriminate | reflexivity]. Qed.

Ltac step :=
  monad_unfold;
  cbn [world trace fst snd negb orb andb
       IssueRef.githubOrg IssueRef.githubRepo IssueRef.githubIssueNumber].

Ltac calls_norm :=
  unfold calls; rewrite ?filter_app; cbn [filter is_call app];
  rewrite ?app_nil_r, <- ?app_assoc; cbn [app].

Section ResolveFacts.
Context {W : Type}.
Variable coder : CoderClient.t W.
Variable inputs : ActionInputs.t.
Variable s : St W ActionEvent.
Variables (user : User.t) (w1 : W).
Variables org repo digits : string.
Hypothesis Huser :
  CoderClient.getCoderUserByGitHubId coder (ActionInputs.githubUserID inputs) (world s)
  = (Ok user, w1).
Hypothesis Hissue :
  match_issue (split_slash (ActionInputs.githubIssueURL inputs))
  = Some (org, repo, digits).
Hypothesis Hprefix : nonempty (ActionInputs.coderTaskNamePrefix inputs) = true.

Local Abbreviation taskName :=
  (ActionInputs.coderTaskNamePrefix inputs ++ "-"
   ++ string_of_Z (parseInt_digits digits)).

Ltac resolve_start :=
  unfold CoderTaskAction.resolve, CoderTaskAction.parseGithubIssueURL,
    CoderTaskAction.info, TaskNameSchema, z_string_min1, z_string, obind;
  step; rewrite Huser;
  rewrite (match_issue_nonempty _ _ Hissue), Hissue, Hprefix;
  step;
  match goal with |- context [String.eqb ?x ""] =>
    let Hn := fresh "Hn" in
    assert (Hn : String.eqb x "" = false)
      by (apply negb_true_iff; apply append_nonempty; exact Hprefix);
    rewrite Hn
  end;
  step.

Lemma resolve_template_fails (e : JsError) (w2 : W) :
  CoderClient.getTemplateByOrganizationAndName coder
    (ActionInputs.coderOrganization inputs) (ActionInputs.coderTemplateName inputs) w1
  = (Err e, w2) ->
  exists tr,
    CoderTaskAction.resolve coder inputs s =
      (Err e, mkSt w2 (tr ++ [CallGetTemplateByOrganizationAndName
                                (ActionInputs.coderOrganization inputs)
                                (ActionInputs.coderTemplateName inputs)])).
Proof. intros Ht. resolve_start. rewrite Ht. eexists. reflexivity. Qed.

Variables (template : Template.t) (w2 : W).
Hypothesis Htemplate :
  CoderClient.getTemplateByOrganizationAndName coder
    (ActionInputs.coderOrganization inputs) (ActionInputs.coderTemplateName inputs) w1
  = (Ok template, w2).

Lemma resolve_presets_fails (e : JsError) (w3 : W) :
  CoderClient.getTemplateVersionPresets coder (Template.active_version_id template) w2
  = (Err e, w3) ->
  exists tr,
    CoderTaskAction.resolve coder inputs s =
      (Err e, mkSt w3 (tr ++ [CallGetTemplateVersionPresets
                                (Template.active_version_id template)])).
Proof.
  intros Hp. resolve_start. rewrite Htemplate. step. rewrite Hp.
  eexists. reflexivity.
Qed.

Lemma resolve_after_presets (presets : list Preset.t) (w3 : W) :
  CoderClient.getTemplateVersionPresets coder (Template.active_version_id template) w2
  = (Ok presets, w3) ->
  exists tr,
    CoderTaskAction.resolve coder inputs s =
      (match fst (CoderTaskAction.resolvePreset inputs presets s) with
       | Ok presetID =>
           Ok (Resolved.mk user (IssueRef.mk org repo (parseInt_digits digits))
                 taskName template presetID)
       | Err e => Err e
       | Unsettled => Unsettled
       end, mkSt w3 (trace s ++ tr))
    /\ calls tr =
         [CallGetCoderUserByGitHubId (ActionInputs.githubUserID inputs);
          CallGetTemplateByOrganizationAndName
            (ActionInputs.coderOrganization inputs)
            (ActionInputs.coderTemplateName inputs);
          CallGetTemplateVersionPresets (Template.active_version_id template)].
Proof.
  intros Hp. resolve_start. rewrite Htemplate. step. rewrite Hp.
  match goal with |- context [CoderTaskAction.resolvePreset inputs presets ?st] =>
    destruct (resolvePreset_state inputs presets st) as [logs [Hst [Hlogs Hfst]]];
    specialize (Hfst s);
    destruct (CoderTaskAction.resolvePreset inputs presets st) as [r st'];
    cbn [fst snd] in Hst, Hfst; subst st'; rewrite Hfst
  end.
  destruct r as [presetID | e |]; step.
  - eexists. split; [rewrite <- !app_assoc; reflexivity |].
    calls_norm. fold (calls logs). rewrite Hlogs. reflexivity.
  - eexists. split; [rewrite <- !app_assoc; reflexivity |].
    calls_norm. fold (calls logs). rewrite Hlogs. reflexivity.
  - eexists. split; [rewrite <- !app_assoc; reflexivity |].
    calls_norm. fold (calls logs). rewrite Hlogs. reflexivity.
Qed.
End ResolveFacts.

(* ------------------------------------------------------------------ *)
(** ** The preset of a run *)

(** The presets the real client returns carry ids that passed the UUID
    test of their schema. *)
Lemma getTemplateVersionPresets_ids
    {Net : Type} {rt : Runtime Net} {zod : Zod} (c : RealCoderClient.t)
    (templateVersionId : string) (s s1 : St Net HttpEvent)
    (presets : list Preset.t) :
  RealCoderClient.getTemplateVersionPresets c templateVersionId s = (Ok presets, s1) ->
  Forall (fun p => is_uuid (Preset.ID p) = true) presets.
Proof.
  unfold RealCoderClient.getTemplateVersionPresets. monad_unfold.
  match goal with |- context [RealCoderClient.request ?c ?e ?o ?s] =>
    destruct (RealCoderClient.request c e o s) as [[[j |] | e' |] s2]
  end; try discriminate.
  destruct (CoderSDKTemplateVersionPresetsResponseSchema j) as [ps |] eqn:Hp;
    [| discriminate].
  intros H. inversion H; subst. clear H.
  unfold CoderSDKTemplateVersionPresetsResponseSchema, z_array_of in Hp.
  destruct j as [| | | | items |]; try discriminate Hp.
  apply Forall_forall. intros p Hin.
  destruct (z_array_In _ _ _ p Hp Hin) as [j [_ Hj]].
  unfold CoderSDKTemplateVersionPresetSchema, required in Hj. obind_inv.
  cbn. match goal with H : z_uuid _ = Some _ |- _ => exact (z_uuid_valid _ _ H) end.
Qed.

(** C4.  The preset block scans the presets in listed order.  With no
    preset requested (the input is absent or empty) the result is the id
    of the first preset whose [Default] is true, and [undefined], not an
    error, when none is.  With a name requested the result is the id (a
    UUID, so not the empty string) of the first preset with exactly that
    name; when no preset has the name the block throws
    [Preset <name> not found], and a run that got that far ends in this
    error without looking the task up.  The ids the real client hands
    over have passed the schema's UUID test. *)
Theorem preset_selection_first_match
    {W : Type} (inputs : ActionInputs.t) (presets : list Preset.t)
    (s : St W ActionEvent) :
  (ActionInputs.coderTemplatePreset inputs = None
   \/ ActionInputs.coderTemplatePreset inputs = Some "" ->
   (forall before p after,
      presets = (before ++ p :: after)%list ->
      Preset.Default p = true ->
      (forall q, In q before -> Preset.Default q = false) ->
      fst (CoderTaskAction.resolvePreset inputs presets s) = Ok (Some (Preset.ID p)))
   /\ ((forall q, In q presets -> Preset.Default q = false) ->
       fst (CoderTaskAction.resolvePreset inputs presets s) = Ok None))
  /\ (forall name : string,
        ActionInputs.coderTemplatePreset inputs = Some name -> name <> "" ->
        (forall before p after,
           presets = (before ++ p :: after)%list ->
           Preset.Name p = name ->
           (forall q, In q before -> Preset.Name q <> name) ->
           Preset.ID p <> "" ->
           fst (CoderTaskAction.resolvePreset inputs presets s)
           = Ok (Some (Preset.ID p)))
        /\ ((forall q, In q presets -> Preset.Name q <> name) ->
            CoderTaskAction.resolvePreset inputs presets s
            = (Err (Error ("Preset " ++ name ++ " not found")), s))
        /\ forall (coder : CoderClient.t W) (octokit : Octokit.t W)
                  (s0 : St W ActionEvent) (user : User.t) (w1 w2 w3 : W)
                  (org repo digits : string) (template : Template.t),
             (forall q, In q presets -> Preset.Name q <> name) ->
             CoderClient.getCoderUserByGitHubId coder
               (ActionInputs.githubUserID inputs) (world s0) = (Ok user, w1) ->
             match_issue (split_slash (ActionInputs.githubIssueURL inputs))
             = Some (org, repo, digits) ->
             ActionInputs.coderTaskNamePrefix inputs <> "" ->
             CoderClient.getTemplateByOrganizationAndName coder
               (ActionInputs.coderOrganization inputs)
               (ActionInputs.coderTemplateName inputs) w1 = (Ok template, w2) ->
             CoderClient.getTemplateVersionPresets coder
               (Template.active_version_id template) w2 = (Ok presets, w3) ->
             exists tr,
               CoderTaskAction.run coder octokit inputs s0
               = (Err (Error ("Preset " ++ name ++ " not found")),
                  mkSt w3 (trace s0 ++ tr))
               /\ calls tr =
                    [CallGetCoderUserByGitHubId (ActionInputs.githubUserID inputs);
                     CallGetTemplateByOrganizationAndName
                       (ActionInputs.coderOrganization inputs)
                       (ActionInputs.coderTemplateName inputs);
                     CallGetTemplateVersionPresets
                       (Template.active_version_id template)])
  /\ (forall (Net : Type) (rt : Runtime Net) (zod : Zod) (c : RealCoderClient.t)
             (templateVersionId : string) (n n1 : St Net HttpEvent)
             (fetched : list Preset.t),
        RealCoderClient.getTemplateVersionPresets c templateVersionId n
        = (Ok fetched, n1) ->
        Forall (fun p => is_uuid (Preset.ID p) = true) fetched).
Proof.
  assert (Hnone : forall name,
            (forall q, In q presets -> Preset.Name q <> name) ->
            named_preset name presets = None).
  { intros name Hno. unfold named_preset. rewrite find_nowhere; [reflexivity |].
    intros q Hq. apply String.eqb_neq. now apply Hno. }
  split; [| split].
  - intros Hreq.
    assert (Ht : truthy (ActionInputs.coderTemplatePreset inputs) = false)
      by (destruct Hreq as [-> | ->]; reflexivity).
    rewrite (resolvePreset_default inputs presets s Ht). cbn [fst]. split.
    + intros before p after -> Hp Hb. unfold default_preset.
      rewrite (find_first _ _ _ _ Hp Hb). reflexivity.
    + intros Hno. unfold default_preset. rewrite (find_nowhere _ _ Hno).
      reflexivity.
  - intros name Hreq Hname.
    rewrite (resolvePreset_named inputs presets s name Hreq Hname).
    split; [| split].
    + intros before p after -> Hp Hb Hid. unfold named_preset.
      rewrite find_first.
      * cbn [option_map truthy]. rewrite (proj2 (nonempty_true _) Hid).
        reflexivity.
      * apply String.eqb_eq. exact Hp.
      * intros q Hq. apply String.eqb_neq. now apply Hb.
    + intros Hno. rewrite (Hnone name Hno). reflexivity.
    + intros coder octokit s0 user w1 w2 w3 org repo digits template
        Hno Huser Hissue Hprefix Htemplate Hpresets.
      apply nonempty_true in Hprefix.
      destruct (resolve_after_presets coder inputs s0 user w1 org repo digits
                  Huser Hissue Hprefix template w2 Htemplate presets w3 Hpresets)
        as [tr [Hres Hcalls]].
      rewrite (resolvePreset_named inputs presets s0 name Hreq Hname) in Hres.
      rewrite (Hnone name Hno) in Hres. cbn [truthy fst] in Hres.
      exists tr. split; [| exact Hcalls].
      unfold CoderTaskAction.run. apply bind_err. exact Hres.
  - intros Net rt zod c templateVersionId n n1 fetched H.
    exact (getTemplateVersionPresets_ids c templateVersionId n n1 fetched H).
Qed.

(** The examples of the specification: the default of
    [[{a, not default}; {b, default}]], a name that matches nothing, and a
    name that two presets carry; then a whole run that asks for a missing
    preset. *)
Lemma preset_selection_first_match_witness :
  fst (CoderTaskAction.resolvePreset (Mock.inputs None true)
         [Preset.mk "a" "small" false; Preset.mk "b" "large" true]
         (Mock.start [] true)) = Ok (Some "b")
  /\ fst (CoderTaskAction.resolvePreset (Mock.inputs (Some "gpu") true)
            [Preset.mk "a" "small" false; Preset.mk "b" "large" true]
            (Mock.start [] true)) = Err (Error "Preset gpu not found")
  /\ fst (CoderTaskAction.resolvePreset (Mock.inputs (Some "large") true)
            [Preset.mk "a" "small" false; Preset.mk "b" "large" true;
             Preset.mk "c" "large" false]
            (Mock.start [] true)) = Ok (Some "b")
  /\ fst (CoderTaskAction.run (Mock.coder [Preset.mk "a" "small" false])
            Mock.octokit (Mock.inputs (Some "gpu") true) (Mock.start [] true))
     = Err (Error "Preset gpu not found").
Proof.
  split; [| split; [| split]].
  - exact (proj1 (proj1 (preset_selection_first_match (Mock.inputs None true)
                           [Preset.mk "a" "small" false; Preset.mk "b" "large" true]
                           (Mock.start [] true)) (or_introl eq_refl))
             [Preset.mk "a" "small" false] (Preset.mk "b" "large" true) []
             eq_refl eq_refl
             ltac:(intros q [<- | []]; reflexivity)).
  - refine (f_equal fst
             (proj1 (proj2 (proj1 (proj2 (preset_selection_first_match
                                            (Mock.inputs (Some "gpu") true)
                                            [Preset.mk "a" "small" false;
                                             Preset.mk "b" "large" true]
                                            (Mock.start [] true)))
                             "gpu" eq_refl ltac:(discriminate))) _)).
    intros q [<- | [<- | []]]; discriminate.
  - exact (proj1 (proj1 (proj2 (preset_selection_first_match
                                  (Mock.inputs (Some "large") true)
                                  [Preset.mk "a" "small" false;
                                   Preset.mk "b" "large" true;
                                   Preset.mk "c" "large" false]
                                  (Mock.start [] true)))
                   "large" eq_refl ltac:(discriminate))
             [Preset.mk "a" "small" false] (Preset.mk "b" "large" true)
             [Preset.mk "c" "large" false] eq_refl eq_refl
             ltac:(intros q [<- | []]; discriminate) ltac:(discriminate)).
  - destruct (proj2 (proj2 (proj1 (proj2 (preset_selection_first_match
                                            (Mock.inputs (Some "gpu") true)
                                            [Preset.mk "a" "small" false]
                                            (Mock.start [] true)))
                             "gpu" eq_refl ltac:(discriminate)))
                (Mock.coder [Preset.mk "a" "small" false]) Mock.octokit
                (Mock.start [] true) Fixture.mockUser _ _ _ "acme" "widgets" "42"
                Fixture.mockTemplate
                ltac:(intros q [<- | []]; discriminate)
                eq_refl eq_refl ltac:(discriminate) eq_refl eq_refl)
      as [tr [Hrun _]].
    rewrite Hrun. reflexivity.
Defined.

(* ------------------------------------------------------------------ *)
(** ** The second part of a run *)

Section EnsureFacts.
Context {W : Type}.
Variable coder : CoderClient.t W.
Variable octokit : Octokit.t W.
Variable inputs : ActionInputs.t.
Variables username taskName : string.
Variable template : Template.t.
Variable presetID : option string.
Variable ref : IssueRef.t.
Variable s : St W ActionEvent.

Local Abbreviation ensure :=
  (CoderTaskAction.ensureTaskRunning coder octokit inputs username taskName template
     presetID ref).
Local Abbreviation prompt := (ActionInputs.coderTaskPrompt inputs).
Local Abbreviation req :=
  (CreateTaskRequest.mk taskName (Template.active_version_id template) presetID prompt).

Lemma ensure_lookup_fails (e : JsError) (w1 : W) :
  CoderClient.getTask coder username taskName (world s) = (Err e, w1) ->
  ensure s = (Err e, mkSt w1 (trace s ++ [CallGetTask username taskName])).
Proof.
  intros H. unfold CoderTaskAction.ensureTaskRunning.
  rewrite (bind_invoke _ _ _ _ _ _ H). reflexivity.
Qed.

Section Existing.
Variables (task : Task.t) (w1 : W).
Hypothesis Hget :
  CoderClient.getTask coder username taskName (world s) = (Ok (Some task), w1).

Ltac existing_start :=
  unfold CoderTaskAction.ensureTaskRunning;
  rewrite (bind_invoke _ _ _ _ _ _ Hget);
  unfold CoderTaskAction.useExistingTask, CoderTaskAction.info; step.

Lemma ensure_wait_fails (e : JsError) (w2 : W) :
  Task.status task <> active ->
  CoderClient.waitForTaskActive coder username (Task.id task) (Some 1200000) w1
  = (Err e, w2) ->
  exists tr,
    ensure s = (Err e, mkSt w2 (tr ++ [CallWaitForTaskActive username (Task.id task)
                                         (Some 1200000)])).
Proof.
  intros Hs Hw. existing_start.
  destruct (status_eqb (Task.status task) active) eqn:E;
    [apply status_eqb_eq in E; contradiction |].
  step. rewrite Hw. eexists. reflexivity.
Qed.

Lemma ensure_send_fails (e : JsError) (w2 w3 : W) :
  wait_step coder username task w1 w2 ->
  CoderClient.sendTaskInput coder username (Task.id task) prompt w2 = (Err e, w3) ->
  exists tr,
    ensure s = (Err e, mkSt w3 (tr ++ [CallSendTaskInput username (Task.id task)
                                         prompt])).
Proof.
  unfold wait_step. intros Hw Hs. existing_start.
  destruct (status_eqb (Task.status task) active); step.
  - subst w2. rewrite Hs. eexists. reflexivity.
  - rewrite Hw. step. rewrite Hs. eexists. reflexivity.
Qed.

Lemma ensure_existing (w2 w3 : W) :
  wait_step coder username task w1 w2 ->
  CoderClient.sendTaskInput coder username (Task.id task) prompt w2 = (Ok tt, w3) ->
  exists tr,
    ensure s =
      (Ok (ActionOutputs.mk username (Task.name task)
             (CoderTaskAction.generateTaskUrl inputs username (Task.id task)) false),
       mkSt w3 (trace s ++ tr))
    /\ calls tr =
         (CallGetTask username taskName
          :: wait_calls username task
          ++ [CallSendTaskInput username (Task.id task) prompt])%list.
Proof.
  unfold wait_step, wait_calls. intros Hw Hs. existing_start.
  destruct (status_eqb (Task.status task) active); step.
  - subst w2. rewrite Hs. step.
    eexists. split; [rewrite <- !app_assoc; reflexivity |].
    calls_norm. reflexivity.
  - rewrite Hw. step. rewrite Hs. step.
    eexists. split; [rewrite <- !app_assoc; reflexivity |].
    calls_norm. reflexivity.
Qed.
End Existing.
End EnsureFacts.

Section CommentFacts.
Context {W : Type}.
Variable octokit : Octokit.t W.
Variables taskUrl owner repo : string.
Variable issueNumber : Z.
Variable s : St W ActionEvent.

Local Abbreviation comment :=
  (CoderTaskAction.commentOnIssue octokit taskUrl owner repo issueNumber).

(** [commentOnIssue] fulfils, whatever Octokit does; its calls are the
    listing and at most one update or create. *)
Lemma commentOnIssue_fulfils :
  exists tr notif w',
    comment s = (Ok tt, mkSt w' (trace s ++ tr))
    /\ calls tr = (CallListComments owner repo issueNumber :: notif)%list
    /\ Forall (fun e => is_octokit_call e = true) notif
    /\ forall P : W -> Prop, octokit_preserves octokit P -> P (world s) -> P w'.
Proof.
  unfold CoderTaskAction.commentOnIssue. step.
  destruct (Octokit.listComments octokit owner repo issueNumber (world s))
    as [[e | comments] w1] eqn:Hl.
  - exists [CallListComments owner repo issueNumber;
            CoreError ("Failed to comment on issue: " ++ string_of_error e)],
      [], w1.
    step. rewrite <- app_assoc. split; [reflexivity |].
    split; [reflexivity |]. split; [constructor |].
    intros P [Hp _] H. specialize (Hp owner repo issueNumber _ H).
    rewrite Hl in Hp. exact Hp.
  - step.
    destruct (find _ (rev comments)) as [existing |].
    + step.
      destruct (Octokit.updateComment octokit owner repo (Comment.id existing)
                  ("Task created: " ++ taskUrl) w1) as [[e | []] w2] eqn:Hu; step.
      * eexists. eexists. exists w2. rewrite <- !app_assoc.
        split; [reflexivity |]. split; [calls_norm; reflexivity |].
        split; [repeat constructor |].
        intros P [Hp [Hp' _]] H. specialize (Hp owner repo issueNumber _ H).
        rewrite Hl in Hp. cbn [snd] in Hp. specialize (Hp' owner repo (Comment.id existing)
          ("Task created: " ++ taskUrl) _ Hp). rewrite Hu in Hp'. exact Hp'.
      * eexists. eexists. exists w2. rewrite <- !app_assoc.
        split; [reflexivity |]. split; [calls_norm; reflexivity |].
        split; [repeat constructor |].
        intros P [Hp [Hp' _]] H. specialize (Hp owner repo issueNumber _ H).
        rewrite Hl in Hp. cbn [snd] in Hp. specialize (Hp' owner repo (Comment.id existing)
          ("Task created: " ++ taskUrl) _ Hp). rewrite Hu in Hp'. exact Hp'.
    + step.
      destruct (Octokit.createComment octokit owner repo issueNumber
                  ("Task created: " ++ taskUrl) w1) as [[e | []] w2] eqn:Hu; step.
      * eexists. eexists. exists w2. rewrite <- !app_assoc.
        split; [reflexivity |]. split; [calls_norm; reflexivity |].
        split; [repeat constructor |].
        intros P [Hp [_ Hp']] H. specialize (Hp owner repo issueNumber _ H).
        rewrite Hl in Hp. cbn [snd] in Hp. specialize (Hp' owner repo issueNumber
          ("Task created: " ++ taskUrl) _ Hp). rewrite Hu in Hp'. exact Hp'.
      * eexists. eexists. exists w2. rewrite <- !app_assoc.
        split; [reflexivity |]. split; [calls_norm; reflexivity |].
        split; [repeat constructor |].
        intros P [Hp [_ Hp']] H. specialize (Hp owner repo issueNumber _ H).
        rewrite Hl in Hp. cbn [snd] in Hp. specialize (Hp' owner repo issueNumber
          ("Task created: " ++ taskUrl) _ Hp). rewrite Hu in Hp'. exact Hp'.
Qed.

(** A listing that rejects is logged, and [commentOnIssue] fulfils. *)
Lemma commentOnIssue_swallows (e : JsError) (w1 : W) :
  Octokit.listComments octokit owner repo issueNumber (world s) = (inl e, w1) ->
  comment s =
    (Ok tt,
     mkSt w1 (trace s ++ [CallListComments owner repo issueNumber;
                          CoreError ("Failed to comment on issue: "
                                     ++ string_of_error e)])).
Proof.
  intros Hl. unfold CoderTaskAction.commentOnIssue. step. rewrite Hl. step.
  rewrite <- app_assoc. reflexivity.
Qed.
End CommentFacts.

Section CreateFacts.
Context {W : Type}.
Variable coder : CoderClient.t W.
Variable octokit : Octokit.t W.
Variable inputs : ActionInputs.t.
Variables username taskName : string.
Variable template : Template.t.
Variable presetID : option string.
Variable ref : IssueRef.t.
Variable s : St W ActionEvent.
Variable w1 : W.
Hypothesis Hget :
  CoderClient.getTask coder username taskName (world s) = (Ok None, w1).

Local Abbreviation ensure :=
  (CoderTaskAction.ensureTaskRunning coder octokit inputs username taskName template
     presetID ref).
Local Abbreviation req :=
  (CreateTaskRequest.mk taskName (Template.active_version_id template) presetID
     (ActionInputs.coderTaskPrompt inputs)).

Ltac create_start :=
  unfold CoderTaskAction.ensureTaskRunning;
  rewrite (bind_invoke _ _ _ _ _ _ Hget);
  unfold CoderTaskAction.createNewTask, CoderTaskAction.info; step.

Lemma ensure_create_fails (e : JsError) (w2 : W) :
  CoderClient.createTask coder username req w1 = (Err e, w2) ->
  exists tr, ensure s = (Err e, mkSt w2 (tr ++ [CallCreateTask username req])).
Proof. intros Hc. create_start. rewrite Hc. eexists. reflexivity. Qed.

Lemma ensure_created (created : Task.t) (w2 : W) :
  CoderClient.createTask coder username req w1 = (Ok created, w2) ->
  exists tr notif w3,
    ensure s =
      (Ok (ActionOutputs.mk username taskName
             (CoderTaskAction.generateTaskUrl inputs username (Task.id created)) true),
       mkSt w3 (trace s ++ tr))
    /\ calls tr =
         (CallGetTask username taskName :: CallCreateTask username req :: notif)%list
    /\ Forall (fun e => is_octokit_call e = true) notif
    /\ (ActionInputs.commentOnIssue inputs = false -> notif = [] /\ w3 = w2)
    /\ forall P : W -> Prop, octokit_preserves octokit P -> P w2 -> P w3.
Proof.
  intros Hc. create_start. rewrite Hc. step.
  destruct (ActionInputs.commentOnIssue inputs); step.
  - match goal with |- context [CoderTaskAction.commentOnIssue octokit ?u ?o ?r ?n ?st] =>
      destruct (commentOnIssue_fulfils octokit u o r n st)
        as [tr [notif [w3 [Hrun [Hcalls [Hall Hinv]]]]]];
      rewrite Hrun
    end.
    step. eexists.
    exists (CallListComments (IssueRef.githubOrg ref) (IssueRef.githubRepo ref)
              (IssueRef.githubIssueNumber ref) :: notif), w3.
    rewrite <- !app_assoc.
    split; [reflexivity |].
    split; [calls_norm; fold (calls tr); rewrite Hcalls; reflexivity |].
    split; [constructor; [reflexivity | exact Hall] |].
    split; [discriminate |].
    intros P HP H. exact (Hinv P HP H).
  - eexists. exists [], w2. rewrite <- !app_assoc.
    split; [reflexivity |].
    split; [calls_norm; reflexivity |].
    split; [constructor |].
    split; [auto | auto].
Qed.
End CreateFacts.

Section Twice.
Context {W : Type}.
Variable coder : CoderClient.t W.
Variable octokit : Octokit.t W.
Variable inputs : ActionInputs.t.
Variables username taskName : string.
Variable template : Template.t.
Variable presetID : option string.
Variable ref : IssueRef.t.

Local Abbreviation ensure :=
  (CoderTaskAction.ensureTaskRunning coder octokit inputs username taskName template
     presetID ref).
Local Abbreviation req :=
  (CreateTaskRequest.mk taskName (Template.active_version_id template) presetID
     (ActionInputs.coderTaskPrompt inputs)).

Lemma ensure_twice (s : St W ActionEvent) (w1 w2 : W) (created : Task.t) :
  create_publishes coder -> comments_keep_tasks coder octokit ->
  waits_succeed coder -> accepts_input coder ->
  CoderClient.getTask coder username taskName (world s) = (Ok None, w1) ->
  CoderClient.createTask coder username req w1 = (Ok created, w2) ->
  exists out1 s1 out2 s2,
    ensure s = (Ok out1, s1) /\ ActionOutputs.taskCreated out1 = true
    /\ ensure s1 = (Ok out2, s2) /\ ActionOutputs.taskCreated out2 = false.
Proof.
  intros Hpub Hkeep Hwait Hsend Hget Hcreate.
  destruct (ensure_created coder octokit inputs username taskName template presetID
              ref s w1 Hget created w2 Hcreate)
    as [tr [notif [w3 [Hrun1 [_ [_ [_ Hinv]]]]]]].
  assert (Hlisted : listed coder username taskName w3).
  { apply (Hinv _ (Hkeep username taskName)).
    exact (Hpub username _ w1 created w2 Hcreate). }
  destruct Hlisted as [task [w4 Hget2]].
  assert (Hw : exists w5, wait_step coder username task w4 w5).
  { unfold wait_step. destruct (status_eqb (Task.status task) active).
    - exists w4. reflexivity.
    - apply Hwait. }
  destruct Hw as [w5 Hw].
  destruct (Hsend username (Task.id task) (ActionInputs.coderTaskPrompt inputs) w5)
    as [w6 Hs].
  destruct (ensure_existing coder octokit inputs username taskName template presetID
              ref (mkSt w3 (trace s ++ tr)) task w4 Hget2 w5 w6 Hw Hs)
    as [tr2 [Hrun2 _]].
  eexists. eexists. eexists. eexists.
  split; [exact Hrun1 |]. split; [reflexivity |].
  split; [exact Hrun2 | reflexivity].
Qed.
End Twice.

(* ------------------------------------------------------------------ *)
(** ** The two writes of the real client *)

Section ClientWrites.
Context {Net : Type} {rt : Runtime Net} {zod : Zod}.
Variable c : RealCoderClient.t.
Variable s : St Net HttpEvent.

(** [createTask] makes one fetch: a POST of the request to the owner's
    task collection. *)
Lemma createTask_one_fetch (owner : string) (params : CreateTaskRequest.t) :
  exists tail,
    trace (snd (RealCoderClient.createTask c owner params s)) =
      (trace s
       ++ EvFetch (RealCoderClient.serverURL c ++ "/api/experimental/tasks/"
                   ++ encodeURIComponent owner)
            (RealCoderClient.fetch_init c
               (Some (RequestInit.mk (Some "POST")
                        (Some (json_of_CreateTaskRequest params)) [])))
       :: tail)%list
    /\ (tail = [] \/ tail = [EvText] \/ tail = [EvJson]).
Proof.
  unfold RealCoderClient.createTask.
  match goal with |- context [RealCoderClient.request ?c ?e ?o] =>
    destruct (request_trace c e o s) as [tail [Ht Htail]]
  end.
  exists tail. split; [| exact Htail]. rewrite <- Ht. monad_unfold.
  match goal with |- context [RealCoderClient.request ?c ?e ?o ?s] =>
    destruct (RealCoderClient.request c e o s) as [[[j |] | e' |] s1]
  end; try reflexivity.
  cbn [snd]. destruct (ExperimentalCoderSDKTaskSchema j); reflexivity.
Qed.

(** [sendTaskInput] makes one fetch: a POST of [{input}] to the [send]
    endpoint of the task with that id. *)
Lemma sendTaskInput_one_fetch (ownerUsername taskId input : string) :
  exists tail,
    trace (snd (RealCoderClient.sendTaskInput c ownerUsername taskId input s)) =
      (trace s
       ++ EvFetch (RealCoderClient.serverURL c ++ "/api/experimental/tasks/"
                   ++ ownerUsername ++ "/" ++ taskId ++ "/send")
            (RealCoderClient.fetch_init c
               (Some (RequestInit.mk (Some "POST")
                        (Some (JObj [("input", JStr input)])) [])))
       :: tail)%list
    /\ (tail = [] \/ tail = [EvText] \/ tail = [EvJson]).
Proof.
  unfold RealCoderClient.sendTaskInput.
  match goal with |- context [RealCoderClient.request ?c ?e ?o] =>
    destruct (request_trace c e o s) as [tail [Ht Htail]]
  end.
  exists tail. split; [| exact Htail]. rewrite <- Ht. monad_unfold.
  match goal with |- context [RealCoderClient.request ?c ?e ?o ?s] =>
    destruct (RealCoderClient.request c e o s) as [[x | e' |] s1]
  end; reflexivity.
Qed.
End ClientWrites.

(* ------------------------------------------------------------------ *)
(** ** Get or create *)

(** C1.  From the lookup on, a run is a get-or-create.  When [getTask]
    finds a task of the name, the run waits for it only if its status is
    not active, sends the prompt with [sendTaskInput] under the task's id,
    and returns [taskCreated = false]; its calls are the lookup, the wait
    if any, and the send.  When [getTask] finds none, the run makes one
    [createTask] call with the name, the template's active version, the
    preset id if any and the prompt as input, and returns
    [taskCreated = true]; every later call is a call on Octokit, so
    nothing is sent and nothing is waited for.  On a deployment that
    lists what it created, two runs in sequence return [true] then
    [false].  On the real client the create call is one POST of the
    request to [/api/experimental/tasks/{owner}] and the send is one POST
    of [{input}] to [/api/experimental/tasks/{owner}/{taskId}/send]. *)
Theorem ensureTaskRunning_get_or_create
    {W : Type} (coder : CoderClient.t W) (octokit : Octokit.t W)
    (inputs : ActionInputs.t) (username taskName : string)
    (template : Template.t) (presetID : option string) (ref : IssueRef.t) :
  let ensure :=
    CoderTaskAction.ensureTaskRunning coder octokit inputs username taskName
      template presetID ref in
  let prompt := ActionInputs.coderTaskPrompt inputs in
  let req :=
    CreateTaskRequest.mk taskName (Template.active_version_id template) presetID
      prompt in
  (forall (s : St W ActionEvent) (task : Task.t) (w1 w2 w3 : W),
     CoderClient.getTask coder username taskName (world s) = (Ok (Some task), w1) ->
     wait_step coder username task w1 w2 ->
     CoderClient.sendTaskInput coder username (Task.id task) prompt w2 = (Ok tt, w3) ->
     exists tr,
       ensure s =
         (Ok (ActionOutputs.mk username (Task.name task)
                (CoderTaskAction.generateTaskUrl inputs username (Task.id task))
                false),
          mkSt w3 (trace s ++ tr))
       /\ calls tr =
            (CallGetTask username taskName
             :: wait_calls username task
             ++ [CallSendTaskInput username (Task.id task) prompt])%list)
  /\ (forall (s : St W ActionEvent) (w1 w2 : W) (created : Task.t),
        CoderClient.getTask coder username taskName (world s) = (Ok None, w1) ->
        CoderClient.createTask coder username req w1 = (Ok created, w2) ->
        exists tr notif w3,
          ensure s =
            (Ok (ActionOutputs.mk username taskName
                   (CoderTaskAction.generateTaskUrl inputs username (Task.id created))
                   true),
             mkSt w3 (trace s ++ tr))
          /\ calls tr =
               (CallGetTask username taskName :: CallCreateTask username req
                :: notif)%list
          /\ Forall (fun e => is_octokit_call e = true) notif)
  /\ (create_publishes coder -> comments_keep_tasks coder octokit ->
      waits_succeed coder -> accepts_input coder ->
      forall (s : St W ActionEvent) (w1 w2 : W) (created : Task.t),
        CoderClient.getTask coder username taskName (world s) = (Ok None, w1) ->
        CoderClient.createTask coder username req w1 = (Ok created, w2) ->
        exists out1 s1 out2 s2,
          ensure s = (Ok out1, s1) /\ ActionOutputs.taskCreated out1 = true
          /\ ensure s1 = (Ok out2, s2) /\ ActionOutputs.taskCreated out2 = false)
  /\ (forall (Net : Type) (rt : Runtime Net) (zod : Zod) (c : RealCoderClient.t)
             (s : St Net HttpEvent) (taskId : string),
        (exists tail,
           trace (snd (RealCoderClient.createTask c username req s)) =
             (trace s
              ++ EvFetch (RealCoderClient.serverURL c ++ "/api/experimental/tasks/"
                          ++ encodeURIComponent username)
                   (RealCoderClient.fetch_init c
                      (Some (RequestInit.mk (Some "POST")
                               (Some (json_of_CreateTaskRequest req)) [])))
              :: tail)%list
           /\ (tail = [] \/ tail = [EvText] \/ tail = [EvJson]))
        /\ (exists tail,
              trace (snd (RealCoderClient.sendTaskInput c username taskId prompt s)) =
                (trace s
                 ++ EvFetch (RealCoderClient.serverURL c ++ "/api/experimental/tasks/"
                             ++ username ++ "/" ++ taskId ++ "/send")
                      (RealCoderClient.fetch_init c
                         (Some (RequestInit.mk (Some "POST")
                                  (Some (JObj [("input", JStr prompt)])) [])))
                 :: tail)%list
              /\ (tail = [] \/ tail = [EvText] \/ tail = [EvJson]))).
Proof.
  cbv zeta. split; [| split; [| split]].
  - intros s task w1 w2 w3 Hget Hw Hs.
    exact (ensure_existing coder octokit inputs username taskName template presetID
             ref s task w1 Hget w2 w3 Hw Hs).
  - intros s w1 w2 created Hget Hc.
    destruct (ensure_created coder octokit inputs username taskName template presetID
                ref s w1 Hget created w2 Hc)
      as [tr [notif [w3 [Hrun [Hcalls [Hall _]]]]]].
    exists tr, notif, w3. auto.
  - intros Hpub Hkeep Hwait Hsend s w1 w2 created Hget Hc.
    exact (ensure_twice coder octokit inputs username taskName template presetID ref
             s w1 w2 created Hpub Hkeep Hwait Hsend Hget Hc).
  - intros Net rt zod c s taskId. split.
    + apply createTask_one_fetch.
    + apply sendTaskInput_one_fetch.
Qed.

Lemma find_app_last {A} (f : A -> bool) (l : list A) (x : A) :
  f x = true -> exists y, find f (l ++ [x]) = Some y.
Proof.
  intros Hx. induction l as [| a l IH]; simpl.
  - rewrite Hx. eauto.
  - destruct (f a); eauto.
Qed.

(** The in-memory deployment lists what it created, keeps its tasks when
    comments change, and accepts every wait and input. *)
Lemma Mock_healthy (presets : list Preset.t) :
  create_publishes (Mock.coder presets)
  /\ comments_keep_tasks (Mock.coder presets) Mock.octokit
  /\ waits_succeed (Mock.coder presets)
  /\ accepts_input (Mock.coder presets).
Proof.
  split; [| split; [| split]].
  - intros owner req w created w' H. inversion H; subst. unfold listed. cbn.
    destruct (find_app_last
                (fun t => (Task.name t =? CreateTaskRequest.name req)%string)
                (Mock.tasks w) (Mock.newTask req) (String.eqb_refl _)) as [y Hy].
    rewrite Hy. eauto.
  - intros owner taskName. unfold octokit_preserves, listed.
    split; [| split]; intros; cbn in *; destruct (Mock.github_up w); cbn;
      match goal with
      | H : exists task w', (Ok ?found, _) = (Ok (Some task), w') |- _ =>
          destruct H as [task [w' H]]; inversion H; subst;
          match goal with
          | H1 : find _ _ = Some _ |- _ => rewrite H1
          end; eauto
      end.
  - intros owner taskId timeoutMs w. exists w. reflexivity.
  - intros owner taskId input w. exists w. reflexivity.
Qed.

(** Issue 42 on the in-memory deployment with no task: the first run
    creates [gh-42], the second finds it. *)
Lemma ensureTaskRunning_get_or_create_witness :
  exists out1 s1 out2 s2,
    CoderTaskAction.ensureTaskRunning (Mock.coder []) Mock.octokit
      (Mock.inputs None true) "testuser" "gh-42" Fixture.mockTemplate None
      (IssueRef.mk "acme" "widgets" 42) (Mock.start [] true) = (Ok out1, s1)
    /\ ActionOutputs.taskCreated out1 = true
    /\ CoderTaskAction.ensureTaskRunning (Mock.coder []) Mock.octokit
         (Mock.inputs None true) "testuser" "gh-42" Fixture.mockTemplate None
         (IssueRef.mk "acme" "widgets" 42) s1 = (Ok out2, s2)
    /\ ActionOutputs.taskCreated out2 = false.
Proof.
  destruct (Mock_healthy []) as [Hpub [Hkeep [Hwait Hsend]]].
  exact (proj1 (proj2 (proj2 (ensureTaskRunning_get_or_create (Mock.coder [])
                                Mock.octokit (Mock.inputs None true) "testuser" "gh-42"
                                Fixture.mockTemplate None
                                (IssueRef.mk "acme" "widgets" 42))))
           Hpub Hkeep Hwait Hsend (Mock.start [] true) _ _ _ eq_refl eq_refl).
Defined.

(* ------------------------------------------------------------------ *)
(** ** Failures *)

Section RunFacts.
Context {W : Type}.
Variable coder : CoderClient.t W.
Variable octokit : Octokit.t W.
Variable inputs : ActionInputs.t.
Variable s : St W ActionEvent.

Lemma run_user_fails (e : JsError) (w1 : W) :
  CoderClient.getCoderUserByGitHubId coder (ActionInputs.githubUserID inputs) (world s)
  = (Err e, w1) ->
  CoderTaskAction.run coder octokit inputs s =
    (Err e,
     mkSt w1 (trace s
              ++ [CoreInfo ("GitHub user ID: "
                            ++ show_opt string_of_Z (ActionInputs.githubUserID inputs));
                  CallGetCoderUserByGitHubId (ActionInputs.githubUserID inputs)])).
Proof.
  intros H. unfold CoderTaskAction.run. apply bind_err.
  unfold CoderTaskAction.resolve, CoderTaskAction.info. step. rewrite H.
  rewrite <- app_assoc. reflexivity.
Qed.

Lemma run_after_resolve (r : Resolved.t) (s1 : St W ActionEvent) :
  CoderTaskAction.resolve coder inputs s = (Ok r, s1) ->
  CoderTaskAction.run coder octokit inputs s =
    CoderTaskAction.ensureTaskRunning coder octokit inputs
      (User.username (Resolved.coderUser r)) (Resolved.taskName r)
      (Resolved.template r) (Resolved.presetID r) (Resolved.ref r) s1.
Proof. intros H. unfold CoderTaskAction.run. exact (bind_ok _ _ _ _ _ H). Qed.

Lemma run_resolve_fails (e : JsError) (s1 : St W ActionEvent) :
  CoderTaskAction.resolve coder inputs s = (Err e, s1) ->
  CoderTaskAction.run coder octokit inputs s = (Err e, s1).
Proof. intros H. unfold CoderTaskAction.run. exact (bind_err _ _ _ _ _ H). Qed.
End RunFacts.

Section MainFacts.
Context {W : Type} {zod : Zod}.
Variable newCoderClient : string -> string -> CoderClient.t W.
Variable getOctokit : string -> Octokit.t W.
Variable raw : RawInputs.t.
Variable inputs : ActionInputs.t.
Variable s : St W ActionEvent.
Hypothesis Hparse : ActionInputsSchema raw = Some inputs.

Lemma main_reports_failure (e : JsError) (s1 : St W ActionEvent) :
  CoderTaskAction.run
    (newCoderClient (ActionInputs.coderURL inputs) (ActionInputs.coderToken inputs))
    (getOctokit (ActionInputs.githubToken inputs)) inputs (main_before_run inputs s)
  = (Err e, s1) ->
  exists lines,
    Index.main newCoderClient getOctokit raw s =
      (Ok tt,
       mkSt (world s1)
         (trace s1
          ++ CoreSetFailed (if instanceof_Error e then message_of e
                            else "Unknown error occurred")
          :: lines ++ [ProcessExit 1]))
    /\ Forall (fun ev => exists msg, ev = ConsoleError msg) lines.
Proof.
  intros Hrun. unfold Index.main, Index.debug, main_before_run in *.
  rewrite Hparse. step. rewrite <- !app_assoc. cbn [app]. rewrite Hrun. step.
  destruct (instanceof_Error e); step; rewrite <- !app_assoc; cbn [app].
  - exists [ConsoleError ("Action failed: " ++ string_of_error e);
            ConsoleError "Stack trace:"].
    split; [reflexivity | repeat constructor; eexists; reflexivity].
  - exists [ConsoleError ("Unknown error: " ++ string_of_error e)].
    split; [reflexivity | repeat constructor; eexists; reflexivity].
Qed.
End MainFacts.

(** C5, as amended.  A failure of the user lookup, of the template or
    preset fetch, of the task lookup, of the wait, of the send or of the
    create call ends the run at once: the run returns that failure and
    the failed call is the last event of its trace.  A failure while the
    comment is published is caught by [commentOnIssue], which logs it with
    [core.error] and fulfils, so a run that created its task still returns
    its outputs.  [main] turns a failed run into one [setFailed] and
    [process.exit(1)]. *)
Theorem failures_abort_the_run
    {W : Type} (coder : CoderClient.t W) (octokit : Octokit.t W)
    (inputs : ActionInputs.t) (s : St W ActionEvent) :
  (forall e w1,
     CoderClient.getCoderUserByGitHubId coder (ActionInputs.githubUserID inputs)
       (world s) = (Err e, w1) ->
     CoderTaskAction.run coder octokit inputs s =
       (Err e,
        mkSt w1 (trace s
                 ++ [CoreInfo ("GitHub user ID: "
                               ++ show_opt string_of_Z
                                    (ActionInputs.githubUserID inputs));
                     CallGetCoderUserByGitHubId (ActionInputs.githubUserID inputs)])))
  /\ (forall user w1 org repo digits,
        CoderClient.getCoderUserByGitHubId coder (ActionInputs.githubUserID inputs)
          (world s) = (Ok user, w1) ->
        match_issue (split_slash (ActionInputs.githubIssueURL inputs))
        = Some (org, repo, digits) ->
        ActionInputs.coderTaskNamePrefix inputs <> "" ->
        (forall e w2,
           CoderClient.getTemplateByOrganizationAndName coder
             (ActionInputs.coderOrganization inputs)
             (ActionInputs.coderTemplateName inputs) w1 = (Err e, w2) ->
           exists tr,
             CoderTaskAction.run coder octokit inputs s =
               (Err e,
                mkSt w2 (tr ++ [CallGetTemplateByOrganizationAndName
                                  (ActionInputs.coderOrganization inputs)
                                  (ActionInputs.coderTemplateName inputs)])))
        /\ (forall template w2 e w3,
              CoderClient.getTemplateByOrganizationAndName coder
                (ActionInputs.coderOrganization inputs)
                (ActionInputs.coderTemplateName inputs) w1 = (Ok template, w2) ->
              CoderClient.getTemplateVersionPresets coder
                (Template.active_version_id template) w2 = (Err e, w3) ->
              exists tr,
                CoderTaskAction.run coder octokit inputs s =
                  (Err e,
                   mkSt w3 (tr ++ [CallGetTemplateVersionPresets
                                     (Template.active_version_id template)]))))
  /\ (forall r s1,
        CoderTaskAction.resolve coder inputs s = (Ok r, s1) ->
        let username := User.username (Resolved.coderUser r) in
        let taskName := Resolved.taskName r in
        let prompt := ActionInputs.coderTaskPrompt inputs in
        let req :=
          CreateTaskRequest.mk taskName
            (Template.active_version_id (Resolved.template r))
            (Resolved.presetID r) prompt in
        (forall e w1,
           CoderClient.getTask coder username taskName (world s1) = (Err e, w1) ->
           CoderTaskAction.run coder octokit inputs s =
             (Err e, mkSt w1 (trace s1 ++ [CallGetTask username taskName])))
        /\ (forall task w1,
              CoderClient.getTask coder username taskName (world s1)
              = (Ok (Some task), w1) ->
              (forall e w2,
                 Task.status task <> active ->
                 CoderClient.waitForTaskActive coder username (Task.id task)
                   (Some 1200000) w1 = (Err e, w2) ->
                 exists tr,
                   CoderTaskAction.run coder octokit inputs s =
                     (Err e,
                      mkSt w2 (tr ++ [CallWaitForTaskActive username (Task.id task)
                                        (Some 1200000)])))
              /\ (forall e w2 w3,
                    wait_step coder username task w1 w2 ->
                    CoderClient.sendTaskInput coder username (Task.id task) prompt w2
                    = (Err e, w3) ->
                    exists tr,
                      CoderTaskAction.run coder octokit inputs s =
                        (Err e,
                         mkSt w3 (tr ++ [CallSendTaskInput username (Task.id task)
                                           prompt]))))
        /\ (forall w1,
              CoderClient.getTask coder username taskName (world s1) = (Ok None, w1) ->
              (forall e w2,
                 CoderClient.createTask coder username req w1 = (Err e, w2) ->
                 exists tr,
                   CoderTaskAction.run coder octokit inputs s =
                     (Err e, mkSt w2 (tr ++ [CallCreateTask username req])))
              /\ (forall created w2,
                    CoderClient.createTask coder username req w1 = (Ok created, w2) ->
                    exists s',
                      CoderTaskAction.run coder octokit inputs s =
                        (Ok (ActionOutputs.mk username taskName
                               (CoderTaskAction.generateTaskUrl inputs username
                                  (Task.id created)) true), s'))))
  /\ (forall taskUrl owner repo issueNumber (s0 : St W ActionEvent),
        fst (CoderTaskAction.commentOnIssue octokit taskUrl owner repo issueNumber s0)
        = Ok tt
        /\ forall e w1,
             Octokit.listComments octokit owner repo issueNumber (world s0)
             = (inl e, w1) ->
             CoderTaskAction.commentOnIssue octokit taskUrl owner repo issueNumber s0 =
               (Ok tt,
                mkSt w1 (trace s0
                         ++ [CallListComments owner repo issueNumber;
                             CoreError ("Failed to comment on issue: "
                                        ++ string_of_error e)])))
  /\ (forall (zod : Zod) (newCoderClient : string -> string -> CoderClient.t W)
             (getOctokit : string -> Octokit.t W) (raw : RawInputs.t)
             (validated : ActionInputs.t) (s0 s1 : St W ActionEvent) (e : JsError),
        ActionInputsSchema raw = Some validated ->
        CoderTaskAction.run
          (newCoderClient (ActionInputs.coderURL validated)
             (ActionInputs.coderToken validated))
          (getOctokit (ActionInputs.githubToken validated)) validated
          (main_before_run validated s0) = (Err e, s1) ->
        exists lines,
          Index.main newCoderClient getOctokit raw s0 =
            (Ok tt,
             mkSt (world s1)
               (trace s1
                ++ CoreSetFailed (if instanceof_Error e then message_of e
                                  else "Unknown error occurred")
                :: lines ++ [ProcessExit 1]))
          /\ Forall (fun ev => exists msg, ev = ConsoleError msg) lines).
Proof.
  split; [| split; [| split; [| split]]].
  - intros e w1 H. exact (run_user_fails coder octokit inputs s e w1 H).
  - intros user w1 org repo digits Huser Hissue Hprefix.
    apply nonempty_true in Hprefix. split.
    + intros e w2 Ht.
      destruct (resolve_template_fails coder inputs s user w1 org repo digits
                  Huser Hissue Hprefix e w2 Ht) as [tr Hres].
      exists tr. exact (run_resolve_fails coder octokit inputs s e _ Hres).
    + intros template w2 e w3 Ht Hp.
      destruct (resolve_presets_fails coder inputs s user w1 org repo digits
                  Huser Hissue Hprefix template w2 Ht e w3 Hp) as [tr Hres].
      exists tr. exact (run_resolve_fails coder octokit inputs s e _ Hres).
  - intros r s1 Hres. cbv zeta.
    rewrite (run_after_resolve coder octokit inputs s r s1 Hres).
    split; [| split].
    + intros e w1 Hget. now apply ensure_lookup_fails.
    + intros task w1 Hget. split.
      * intros e w2 Hs Hw. eapply ensure_wait_fails; eassumption.
      * intros e w2 w3 Hw Hsend. eapply ensure_send_fails; eassumption.
    + intros w1 Hget. split.
      * intros e w2 Hc. eapply ensure_create_fails; eassumption.
      * intros created w2 Hc.
        destruct (ensure_created coder octokit inputs _ _ _ _ (Resolved.ref r)
                    s1 w1 Hget created w2 Hc) as [tr [notif [w3 [Hrun _]]]].
        eexists. exact Hrun.
  - intros taskUrl owner repo issueNumber s0. split.
    + destruct (commentOnIssue_fulfils octokit taskUrl owner repo issueNumber s0)
        as [tr [notif [w' [Hrun _]]]].
      rewrite Hrun. reflexivity.
    + intros e w1 Hl. now apply commentOnIssue_swallows.
  - intros zod newCoderClient getOctokit raw validated s0 s1 e Hparse Hrun.
    exact (main_reports_failure newCoderClient getOctokit raw validated s0 Hparse
             e s1 Hrun).
Qed.

(** C5 as stated fails: on the in-memory deployment with the comment API
    down, every Octokit call of the run rejects, and the run still returns
    its outputs with [taskCreated = true]; the failure is a [core.error]
    line. *)
Lemma notification_failure_is_swallowed :
  let run :=
    CoderTaskAction.run (Mock.coder []) Mock.octokit (Mock.inputs None true)
      (Mock.start [] false) in
  fst (Octokit.listComments Mock.octokit "acme" "widgets" 42 (world (snd run)))
  = inl (RequestError 503 "Service Unavailable")
  /\ In (CallListComments "acme" "widgets" 42) (trace (snd run))
  /\ In (CoreError "Failed to comment on issue: HttpError: Service Unavailable")
       (trace (snd run))
  /\ fst run =
       Ok (ActionOutputs.mk "testuser" "gh-42"
             "https://coder.test/tasks/testuser/990e8400-e29b-41d4-a716-446655440000"
             true).
Proof.
  cbv zeta. split; [reflexivity |]. split; [| split].
  - vm_compute. auto 30.
  - vm_compute. auto 30.
  - reflexivity.
Qed.

(** A user lookup that fails (no GitHub id given) and a listing of comments
    that fails, on the in-memory deployment. *)
Lemma failures_abort_the_run_witness :
  CoderTaskAction.run (Mock.coder []) Mock.octokit Mock.inputs_username
    (Mock.start [] true)
  = (Err (CoderAPIError "GitHub user ID cannot be undefined" 400 None),
     mkSt (Mock.mk [] [] true)
       [CoreInfo "GitHub user ID: undefined"; CallGetCoderUserByGitHubId None])
  /\ CoderTaskAction.commentOnIssue Mock.octokit "https://coder.test/tasks/u/t"
       "acme" "widgets" 42 (Mock.start [] false)
     = (Ok tt,
        mkSt (Mock.mk [] [] false)
          [CallListComments "acme" "widgets" 42;
           CoreError "Failed to comment on issue: HttpError: Service Unavailable"]).
Proof.
  split.
  - exact (proj1 (failures_abort_the_run (Mock.coder []) Mock.octokit
                    Mock.inputs_username (Mock.start [] true)) _ _ eq_refl).
  - exact (proj2 (proj1 (proj2 (proj2 (proj2
             (failures_abort_the_run (Mock.coder []) Mock.octokit
                Mock.inputs_username (Mock.start [] true)))))
             "https://coder.test/tasks/u/t" "acme" "widgets" 42
             (Mock.start [] false)) _ _ eq_refl).
Defined.

(* ------------------------------------------------------------------ *)
(** ** The username form of the inputs *)

Lemma ActionInputsSchema_username {zod : Zod} (raw : RawInputs.t)
    (inputs : ActionInputs.t) (username : string) :
  ActionInputsSchema raw = Some inputs ->
  RawInputs.coderUsername raw = Some username ->
  username <> ""
  /\ ActionInputs.githubUserID inputs = None
  /\ ActionInputs.coderUsername inputs = Some username.
Proof.
  unfold ActionInputsSchema, WithGithubUserIDSchema, WithCoderUsernameSchema.
  intros H Hu. rewrite Hu in H.
  destruct (BaseInputsSchema raw) as [[org prefix] |]; [| discriminate H].
  destruct (RawInputs.githubUserID raw) eqn:Hid; [discriminate H |].
  destruct (nonempty username) eqn:Hn; [| discriminate H].
  inversion H; subst. unfold build_inputs. cbn.
  rewrite Hid, Hu. apply nonempty_true in Hn. auto.
Qed.

(** C6, on the code: inputs that pass [ActionInputsSchema] with a
    username and no GitHub id make [run], on the real client, call
    [getCoderUserByGitHubId(undefined)], which throws status 400 before
    any fetch; the username is never read and nothing is orchestrated. *)
Theorem username_inputs_are_rejected
    {Net : Type} {rt : Runtime Net} {zod : Zod} (fuel : nat)
    (c : RealCoderClient.t) (octokit : Octokit.t (St Net HttpEvent))
    (raw : RawInputs.t) (inputs : ActionInputs.t) (username : string)
    (s : St (St Net HttpEvent) ActionEvent) :
  ActionInputsSchema raw = Some inputs ->
  RawInputs.coderUsername raw = Some username ->
  ActionInputs.coderUsername inputs = Some username
  /\ CoderTaskAction.run (RealCoderClient_implements fuel c) octokit inputs s =
       (Err (CoderAPIError "GitHub user ID cannot be undefined" 400 None),
        mkSt (world s)
          (trace s ++ [CoreInfo "GitHub user ID: undefined";
                       CallGetCoderUserByGitHubId None])).
Proof.
  intros Hparse Hu.
  destruct (ActionInputsSchema_username raw inputs username Hparse Hu)
    as [_ [Hid Hname]].
  split; [exact Hname |].
  pose proof (run_user_fails (RealCoderClient_implements fuel c) octokit inputs s
                (CoderAPIError "GitHub user ID cannot be undefined" 400 None)
                (world s)) as H.
  rewrite Hid in H. apply H. reflexivity.
Qed.

(** The inputs [coder-username: testuser] pass the schema, and the run
    fails without a fetch. *)
Lemma username_inputs_are_rejected_witness :
  ActionInputsSchema (zod := Fixture.zod) Fixture.rawUsername
  = Some Mock.inputs_username
  /\ CoderTaskAction.run
       (RealCoderClient_implements (rt := Fixture.scripted) (zod := Fixture.zod)
          10 Fixture.client)
       Fixture.noOctokit Mock.inputs_username (mkSt (Fixture.start []) [])
     = (Err (CoderAPIError "GitHub user ID cannot be undefined" 400 None),
        mkSt (Fixture.start [])
          [CoreInfo "GitHub user ID: undefined"; CallGetCoderUserByGitHubId None]).
Proof.
  split; [reflexivity |].
  exact (proj2 (username_inputs_are_rejected (rt := Fixture.scripted)
                  (zod := Fixture.zod) 10 Fixture.client Fixture.noOctokit
                  Fixture.rawUsername Mock.inputs_username "testuser"
                  (mkSt (Fixture.start []) []) eq_refl eq_refl)).
Defined.

(* ================================================================== *)
(** * Further properties of the code *)

(* ------------------------------------------------------------------ *)
(** ** Events a program adds *)

Section Adds.
Context {W E : Type}.
Variable P : list E -> Prop.
Hypothesis P_nil : P [].
Hypothesis P_app : forall a b, P a -> P b -> P (a ++ b).

Lemma adds_ret {A} (a : A) : adds (W := W) P (ret a).
Proof. intros s. exists []. simpl. rewrite app_nil_r. auto. Qed.

Lemma adds_throw {A} (e : JsError) : adds (W := W) (A := A) P (throw e).
Proof. intros s. exists []. simpl. rewrite app_nil_r. auto. Qed.

Lemma adds_zparse {A} (schema : string) (dec : Json -> option A) (x : option Json) :
  adds (W := W) P (zparse schema dec x).
Proof.
  unfold zparse. destruct x as [j |]; [destruct (dec j) |];
    first [apply adds_ret | apply adds_throw].
Qed.

Lemma adds_emit (e : E) : P [e] -> adds (W := W) P (emit e).
Proof. intros H s. exists [e]. simpl. auto. Qed.

Lemma adds_invoke {A} (e : E) (f : W -> Result A * W) :
  P [e] -> adds P (invoke e f).
Proof.
  intros H s. exists [e]. unfold invoke. destruct (f (world s)). simpl. auto.
Qed.

Lemma adds_invoke_settled {A} (e : E) (f : W -> (JsError + A) * W) :
  P [e] -> adds P (invoke_settled e f).
Proof.
  intros H s. exists [e]. unfold invoke_settled. destruct (f (world s)). simpl. auto.
Qed.

Lemma adds_bind {A B} (m : M W E A) (k : A -> M W E B) :
  adds P m -> (forall a, adds P (k a)) -> adds P (bind m k).
Proof.
  intros Hm Hk s. unfold bind. destruct (Hm s) as [tr [Ht Hq]].
  destruct (m s) as [[a | e |] s1]; simpl in Ht.
  - destruct (Hk a s1) as [tr' [Ht' Hq']]. exists (tr ++ tr')%list.
    rewrite Ht', Ht, app_assoc. auto.
  - exists tr. simpl. auto.
  - exists tr. simpl. auto.
Qed.

Lemma adds_try_catch {A} (m : M W E A) (h : JsError -> M W E A) :
  adds P m -> (forall e, adds P (h e)) -> adds P (try_catch m h).
Proof.
  intros Hm Hh s. unfold try_catch. destruct (Hm s) as [tr [Ht Hq]].
  destruct (m s) as [[a | e |] s1]; simpl in Ht.
  - exists tr. simpl. auto.
  - destruct (Hh e s1) as [tr' [Ht' Hq']]. exists (tr ++ tr')%list.
    rewrite Ht', Ht, app_assoc. auto.
  - exists tr. simpl. auto.
Qed.

Lemma adds_if {A} (b : bool) (m1 m2 : M W E A) :
  adds P m1 -> adds P m2 -> adds P (if b then m1 else m2).
Proof. destruct b; auto. Qed.
End Adds.

(* ------------------------------------------------------------------ *)
(** ** What the client puts on the wire *)

Lemma prefix_append (a b : string) : String.prefix a (a ++ b) = true.
Proof.
  induction a as [| ch a IH]; simpl.
  - destruct b; reflexivity.
  - destruct (ascii_dec ch ch) as [_ | n]; [exact IH | congruence].
Qed.

Lemma filter_all {A} (f : A -> bool) (l : list A) :
  (forall x, f x = true) -> filter f l = l.
Proof.
  intros H. induction l as [| x l IH]; cbn [filter]; [| rewrite H, IH]; reflexivity.
Qed.

Lemma spread_nil (a : list (string * string)) : spread a [] = a.
Proof.
  unfold spread. rewrite app_nil_r. apply filter_all. reflexivity.
Qed.

Lemma sent_nil (serverURL apiToken : string) :
  Forall (well_sent serverURL apiToken) [].
Proof. constructor. Qed.

Lemma sent_app (serverURL apiToken : string) (a b : list HttpEvent) :
  Forall (well_sent serverURL apiToken) a -> Forall (well_sent serverURL apiToken) b ->
  Forall (well_sent serverURL apiToken) (a ++ b).
Proof. intros Ha Hb. apply Forall_app. auto. Qed.

Lemma request_sent {Net : Type} {rt : Runtime Net} (serverURL apiToken : string)
    (endpoint : string) (options : option RequestInit.t) :
  match options with Some o => RequestInit.headers o = [] | None => True end ->
  adds (Forall (well_sent serverURL apiToken))
    (RealCoderClient.request (RealCoderClient.new serverURL apiToken) endpoint options).
Proof.
  intros Ho s.
  destruct (request_trace (RealCoderClient.new serverURL apiToken) endpoint options s)
    as [tail [Ht Htail]].
  eexists. split; [exact Ht |].
  constructor.
  - split; [apply prefix_append |].
    destruct options as [o |]; simpl; [rewrite Ho, spread_nil |]; reflexivity.
  - destruct Htail as [-> | [-> | ->]]; repeat constructor.
Qed.

Ltac sent_tac :=
  repeat first
    [ apply request_sent; exact I
    | apply request_sent; reflexivity
    | apply (adds_ret _ (sent_nil _ _)) | apply (adds_throw _ (sent_nil _ _))
    | apply (adds_zparse _ (sent_nil _ _))
    | apply (adds_bind _ (sent_app _ _)); [| intros ?]
    | apply (adds_try_catch _ (sent_app _ _)); [| intros ?]
    | apply adds_if
    | apply adds_emit; repeat constructor
    | apply adds_invoke; repeat constructor
    | match goal with
      | |- adds _ (RealCoderClient.now) =>
          let s := fresh "s" in
          intros s; exists []; cbn; rewrite app_nil_r; split; [reflexivity | constructor]
      | |- adds _ (match ?x with _ => _ end) => destruct x
      end ].

Lemma waitLoop_sent {Net : Type} {rt : Runtime Net} {zod : Zod}
    (serverURL apiToken : string) (fuel : nat) (owner taskId : string)
    (timeoutMs t0 : Z) :
  adds (Forall (well_sent serverURL apiToken))
    (RealCoderClient.waitLoop fuel (RealCoderClient.new serverURL apiToken) owner
       taskId timeoutMs t0).
Proof.
  induction fuel as [| fuel IH]; cbn [RealCoderClient.waitLoop].
  - intros s. exists []. cbn. rewrite app_nil_r. split; [reflexivity | constructor].
  - apply (adds_bind _ (sent_app _ _)); [sent_tac | intros t].
    apply adds_if; [| sent_tac].
    apply (adds_bind _ (sent_app _ _));
      [unfold RealCoderClient.getTaskById; sent_tac | intros task].
    apply adds_if; [sent_tac |].
    apply (adds_bind _ (sent_app _ _)); [sent_tac | intros _].
    apply adds_if; [sent_tac |].
    apply (adds_bind _ (sent_app _ _)); [| intros _; exact IH].
    unfold RealCoderClient.sleep. sent_tac.
Qed.

(** X1.  A client built from a server URL and a token talks to that server
    only, and always with the token.  Whatever a method is called with and
    whatever the server answers, each of its fetches goes to a URL that
    starts with the server URL and carries exactly two headers, the
    session token and the JSON content type; each timer of a wait lasts
    2000 ms. *)
Theorem client_fetches_are_authenticated
    {Net : Type} {rt : Runtime Net} {zod : Zod} (serverURL apiToken : string) :
  let c := RealCoderClient.new serverURL apiToken in
  let sent := Forall (well_sent serverURL apiToken) in
  (forall githubUserId, adds sent (RealCoderClient.getCoderUserByGitHubId c githubUserId))
  /\ (forall organizationName templateName,
        adds sent (RealCoderClient.getTemplateByOrganizationAndName c organizationName
                     templateName))
  /\ (forall templateVersionId,
        adds sent (RealCoderClient.getTemplateVersionPresets c templateVersionId))
  /\ (forall owner taskName, adds sent (RealCoderClient.getTask c owner taskName))
  /\ (forall owner taskId, adds sent (RealCoderClient.getTaskById c owner taskId))
  /\ (forall owner params, adds sent (RealCoderClient.createTask c owner params))
  /\ (forall owner taskId input,
        adds sent (RealCoderClient.sendTaskInput c owner taskId input))
  /\ (forall fuel owner taskId timeoutMs,
        adds sent (RealCoderClient.waitForTaskActive fuel c owner taskId timeoutMs)).
Proof.
  intros c sent. subst c sent. repeat split; intros.
  - unfold RealCoderClient.getCoderUserByGitHubId. sent_tac.
  - unfold RealCoderClient.getTemplateByOrganizationAndName. sent_tac.
  - unfold RealCoderClient.getTemplateVersionPresets. sent_tac.
  - unfold RealCoderClient.getTask. sent_tac.
  - unfold RealCoderClient.getTaskById. sent_tac.
  - unfold RealCoderClient.createTask. sent_tac.
  - unfold RealCoderClient.sendTaskInput. sent_tac.
  - unfold RealCoderClient.waitForTaskActive.
    apply (adds_bind _ (sent_app _ _)); [sent_tac | intros t0; apply waitLoop_sent].
Qed.

(* ------------------------------------------------------------------ *)
(** ** One request, one fetch *)



(* ------------------------------------------------------------------ *)
(** ** What the client hands out has passed the schema *)

Section Validated.
Context {zod : Zod}.

Lemma z_string_min1_nonempty (j : Json) (v : string) :
  z_string_min1 j = Some v -> v <> "".
Proof.
  unfold z_string_min1. intros H.
  destruct (z_string j) as [str |]; cbn [obind] in H; [| discriminate].
  destruct (String.eqb_spec str ""); [discriminate |]. congruence.
Qed.

Lemma ExperimentalCoderSDKTaskSchema_valid (j : Json) (task : Task.t) :
  ExperimentalCoderSDKTaskSchema j = Some task -> valid_task task.
Proof.
  unfold ExperimentalCoderSDKTaskSchema, required, TaskIdSchema, TaskNameSchema.
  intros H. obind_inv. unfold valid_task. cbn.
  repeat match goal with
         | H : z_uuid _ = Some _ |- _ => apply z_uuid_valid in H
         | H : z_string_min1 _ = Some _ |- _ => apply z_string_min1_nonempty in H
         end.
  auto.
Qed.

Lemma z_array_Forall {A} (dec : Json -> option A) (P : A -> Prop) (l : list Json)
    (vs : list A) :
  (forall j v, dec j = Some v -> P v) -> z_array dec l = Some vs -> Forall P vs.
Proof.
  intros Hdec H. apply Forall_forall. intros v Hin.
  destruct (z_array_In dec l vs v H Hin) as [j [_ Hj]]. eauto.
Qed.

Lemma CoderSDKTemplateSchema_valid (j : Json) (template : Template.t) :
  CoderSDKTemplateSchema j = Some template -> valid_template template.
Proof.
  unfold CoderSDKTemplateSchema, required. intros H. obind_inv.
  unfold valid_template. cbn.
  repeat match goal with
         | H : z_uuid _ = Some _ |- _ => apply z_uuid_valid in H
         end.
  auto.
Qed.
End Validated.

Ltac after_request :=
  monad_unfold;
  match goal with |- context [RealCoderClient.request ?c ?e ?o ?s] =>
    destruct (RealCoderClient.request c e o s) as [[[?j |] | ?e' |] ?s2]
  end; try discriminate.

(** X3.  Whatever the server answers, a task, template or user that a method of
    the client returns has passed the format tests of its schema: the ids
    are UUIDs, the task name is not empty, the e-mail address is one; and
    the task [getTask] returns carries the name that was asked for. *)
Theorem client_results_are_validated
    {Net : Type} {rt : Runtime Net} {zod : Zod} (c : RealCoderClient.t)
    (s : St Net HttpEvent) :
  (forall owner taskId task s1,
     RealCoderClient.getTaskById c owner taskId s = (Ok task, s1) -> valid_task task)
  /\ (forall owner params task s1,
        RealCoderClient.createTask c owner params s = (Ok task, s1) ->
        valid_task task)
  /\ (forall owner taskName task s1,
        RealCoderClient.getTask c owner taskName s = (Ok (Some task), s1) ->
        valid_task task /\ Task.name task = taskName)
  /\ (forall organizationName templateName template s1,
        RealCoderClient.getTemplateByOrganizationAndName c organizationName
          templateName s = (Ok template, s1) ->
        valid_template template)
  /\ (forall githubUserId user s1,
        RealCoderClient.getCoderUserByGitHubId c githubUserId s = (Ok user, s1) ->
        valid_user user).
Proof.
  split; [| split; [| split; [| split]]].
  - intros owner taskId task s1. unfold RealCoderClient.getTaskById. after_request.
    destruct (ExperimentalCoderSDKTaskSchema j) as [t |] eqn:Ht; [| discriminate].
    intros H. inversion H; subst. exact (ExperimentalCoderSDKTaskSchema_valid _ _ Ht).
  - intros owner params task s1. unfold RealCoderClient.createTask. after_request.
    destruct (ExperimentalCoderSDKTaskSchema j) as [t |] eqn:Ht; [| discriminate].
    intros H. inversion H; subst. exact (ExperimentalCoderSDKTaskSchema_valid _ _ Ht).
  - intros owner taskName task s1. unfold RealCoderClient.getTask. after_request.
    + destruct (ExperimentalCoderSDKTaskListResponseSchema j) as [ts |] eqn:Ht;
        [| discriminate].
      intros H. inversion H as [[Hfind Hs]]. clear H.
      apply find_some in Hfind. destruct Hfind as [Hin Hname].
      split; [| now apply String.eqb_eq].
      unfold ExperimentalCoderSDKTaskListResponseSchema, required in Ht. obind_inv.
      match goal with H : z_array_of _ ?x = Some _ |- _ =>
        destruct x; cbn [z_array_of] in H; try discriminate H;
        pose proof (z_array_Forall _ valid_task _ _
                      ExperimentalCoderSDKTaskSchema_valid H) as Hall
      end.
      exact (proj1 (Forall_forall _ _) Hall _ Hin).
    + destruct e' as [m code p | | | | | |]; try discriminate.
      destruct (code =? 404); discriminate.
  - intros organizationName templateName template s1.
    unfold RealCoderClient.getTemplateByOrganizationAndName. after_request.
    destruct (CoderSDKTemplateSchema j) as [t |] eqn:Ht; [| discriminate].
    intros H. inversion H; subst. exact (CoderSDKTemplateSchema_valid _ _ Ht).
  - intros githubUserId user s1. unfold RealCoderClient.getCoderUserByGitHubId.
    destruct githubUserId as [id |]; [| discriminate].
    destruct (id =? 0); [discriminate |]. after_request.
    destruct (CoderSDKGetUsersResponseSchema j) as [us |]; [| discriminate].
    cbv beta iota delta [ret].
    destruct (length us =? 0)%nat; [discriminate |].
    destruct (1 <? length us)%nat; [discriminate |].
    destruct us as [| u us]; [discriminate |].
    unfold CoderSDKUserSchema_reparse.
    destruct (is_uuid (User.id u)) eqn:H1; [| discriminate].
    destruct (is_email (User.email u)) eqn:H2; [| discriminate].
    destruct (forallb is_uuid (User.organization_ids u)) eqn:H3; [| discriminate].
    cbn [andb]. intros H. inversion H; subst.
    unfold valid_user. split; [assumption | split; [assumption |]].
    apply Forall_forall. exact (proj1 (forallb_forall _ _) H3).
Qed.

(** A task of the fixtures, fetched by id from the scripted network. *)
Lemma client_results_are_validated_witness :
  valid_task (zod := Fixture.zod) (Fixture.mockTask "gh-42" active (Some idle)).
Proof.
  refine (proj1 (client_results_are_validated (rt := Fixture.scripted)
                   (zod := Fixture.zod) Fixture.client
                   (Fixture.start
                      [(10, Ok (Fixture.json_reply
                                  (Fixture.taskJson Fixture.mockTaskId "gh-42" "active"
                                     (JObj [("state", JStr "idle")]))))]))
            "testuser" Fixture.mockTaskId _
            (mkSt (Fixture.mkNet 10 [])
               [EvFetch _ _; EvJson]) _).
  reflexivity.
Defined.

(* ------------------------------------------------------------------ *)
(** ** An answer without content *)

Lemma no_content_request
    {Net : Type} {rt : Runtime Net} (c : RealCoderClient.t) (endpoint : string)
    (options : option RequestInit.t) (s : St Net HttpEvent) (response : Response.t) :
  (forall url init n, fst (fetch url init n) = Ok response) ->
  no_content response ->
  fst (RealCoderClient.request c endpoint options s) = Ok None.
Proof.
  intros Hf [Hok He].
  specialize (Hf (RealCoderClient.serverURL c ++ endpoint)
                (RealCoderClient.fetch_init c options) (world s)).
  destruct (fetch (RealCoderClient.serverURL c ++ endpoint)
              (RealCoderClient.fetch_init c options) (world s)) as [r n'] eqn:Hfetch.
  cbn [fst] in Hf. subst r.
  rewrite (request_no_content c endpoint options s _ _ Hfetch Hok); [reflexivity |].
  destruct He as [He | He].
  - rewrite He. reflexivity.
  - unfold RealCoderClient.content_length_zero. rewrite He.
    apply Bool.orb_true_r.
Qed.

(** X4.  When the server answers every fetch with a 2xx response that has no
    content (status 204, or a [content-length] of 0), [sendTaskInput]
    fulfils, and every method that returns a value rejects with the
    [ZodError] of its schema: the missing body is never taken for a
    value, and [getTask] does not take it for an absent task. *)
Theorem no_content_fails_every_reader
    {Net : Type} {rt : Runtime Net} {zod : Zod} (c : RealCoderClient.t)
    (s : St Net HttpEvent) (response : Response.t) :
  (forall url init n, fst (fetch url init n) = Ok response) ->
  no_content response ->
  (forall owner taskId input,
     fst (RealCoderClient.sendTaskInput c owner taskId input s) = Ok tt)
  /\ (forall owner taskId,
        fst (RealCoderClient.getTaskById c owner taskId s)
        = Err (ZodError "ExperimentalCoderSDKTaskSchema"))
  /\ (forall owner params,
        fst (RealCoderClient.createTask c owner params s)
        = Err (ZodError "ExperimentalCoderSDKTaskSchema"))
  /\ (forall owner taskName,
        fst (RealCoderClient.getTask c owner taskName s)
        = Err (ZodError "ExperimentalCoderSDKTaskListResponseSchema"))
  /\ (forall organizationName templateName,
        fst (RealCoderClient.getTemplateByOrganizationAndName c organizationName
               templateName s)
        = Err (ZodError "CoderSDKTemplateSchema"))
  /\ (forall templateVersionId,
        fst (RealCoderClient.getTemplateVersionPresets c templateVersionId s)
        = Err (ZodError "CoderSDKTemplateVersionPresetsResponseSchema"))
  /\ (forall githubUserId, githubUserId <> 0 ->
        fst (RealCoderClient.getCoderUserByGitHubId c (Some githubUserId) s)
        = Err (ZodError "CoderSDKGetUsersResponseSchema")).
Proof.
  intros Hf Hno.
  pose proof (fun endpoint options =>
                no_content_request c endpoint options s response Hf Hno) as Hreq.
  repeat split; intros.
  - unfold RealCoderClient.sendTaskInput. monad_unfold.
    match goal with |- context [RealCoderClient.request ?c ?e ?o ?s] =>
      specialize (Hreq e o); destruct (RealCoderClient.request c e o s) as [r s1]
    end. cbn [fst] in Hreq. subst r. reflexivity.
  - unfold RealCoderClient.getTaskById. monad_unfold.
    match goal with |- context [RealCoderClient.request ?c ?e ?o ?s] =>
      specialize (Hreq e o); destruct (RealCoderClient.request c e o s) as [r s1]
    end. cbn [fst] in Hreq. subst r. reflexivity.
  - unfold RealCoderClient.createTask. monad_unfold.
    match goal with |- context [RealCoderClient.request ?c ?e ?o ?s] =>
      specialize (Hreq e o); destruct (RealCoderClient.request c e o s) as [r s1]
    end. cbn [fst] in Hreq. subst r. reflexivity.
  - unfold RealCoderClient.getTask. monad_unfold.
    match goal with |- context [RealCoderClient.request ?c ?e ?o ?s] =>
      specialize (Hreq e o); destruct (RealCoderClient.request c e o s) as [r s1]
    end. cbn [fst] in Hreq. subst r. reflexivity.
  - unfold RealCoderClient.getTemplateByOrganizationAndName. monad_unfold.
    match goal with |- context [RealCoderClient.request ?c ?e ?o ?s] =>
      specialize (Hreq e o); destruct (RealCoderClient.request c e o s) as [r s1]
    end. cbn [fst] in Hreq. subst r. reflexivity.
  - unfold RealCoderClient.getTemplateVersionPresets. monad_unfold.
    match goal with |- context [RealCoderClient.request ?c ?e ?o ?s] =>
      specialize (Hreq e o); destruct (RealCoderClient.request c e o s) as [r s1]
    end. cbn [fst] in Hreq. subst r. reflexivity.
  - unfold RealCoderClient.getCoderUserByGitHubId.
    destruct (Z.eqb_spec githubUserId 0); [contradiction |]. monad_unfold.
    match goal with |- context [RealCoderClient.request ?c ?e ?o ?s] =>
      specialize (Hreq e o); destruct (RealCoderClient.request c e o s) as [r s1]
    end. cbn [fst] in Hreq. subst r. reflexivity.
Qed.

(** A server that answers 204 to everything: the prompt is accepted, the
    created task is not. *)
Lemma no_content_fails_every_reader_witness :
  let rt := Fixture.steady (Response.mk 204 "No Content" (Some []) (Some "") None) in
  fst (RealCoderClient.sendTaskInput (rt := rt) Fixture.client "testuser"
         Fixture.mockTaskId "fix the bug" (mkSt 0 [])) = Ok tt
  /\ fst (RealCoderClient.getTaskById (rt := rt) (zod := Fixture.zod) Fixture.client
            "testuser" Fixture.mockTaskId (mkSt 0 []))
     = Err (ZodError "ExperimentalCoderSDKTaskSchema").
Proof.
  cbv zeta.
  pose proof (no_content_fails_every_reader
                (rt := Fixture.steady
                         (Response.mk 204 "No Content" (Some []) (Some "") None))
                (zod := Fixture.zod) Fixture.client (mkSt 0 [])
                (Response.mk 204 "No Content" (Some []) (Some "") None)
                (fun _ _ _ => eq_refl)
                (conj eq_refl (or_introl eq_refl))) as H.
  split.
  - exact (proj1 H "testuser" Fixture.mockTaskId "fix the bug").
  - exact (proj1 (proj2 H) "testuser" Fixture.mockTaskId).
Defined.

(* ------------------------------------------------------------------ *)
(** ** How often a wait asks *)

Section PollCount.
Context {Net : Type} {rt : Runtime Net} {zod : Zod}.
Variable c : RealCoderClient.t.
Variables owner taskId : string.
Variable timeoutMs : Z.





End PollCount.




(* ------------------------------------------------------------------ *)
(** ** Reading an issue URL *)

Lemma split_slash_nonnil (s : string) : split_slash s <> [].
Proof.
  destruct s as [| ch s]; cbn [split_slash]; [discriminate |].
  destruct (Ascii.eqb ch "/"); [discriminate |].
  destruct (split_slash s); discriminate.
Qed.

Lemma split_slash_app (a b : string) :
  has_char "/" a = false ->
  split_slash (a ++ b) =
    match split_slash b with
    | seg :: segs => (a ++ seg) :: segs
    | [] => [a]
    end.
Proof.
  induction a as [| ch a IH]; intros Ha; cbn [append].
  - pose proof (split_slash_nonnil b).
    destruct (split_slash b); [contradiction | reflexivity].
  - cbn [has_char] in Ha. apply orb_false_iff in Ha. destruct Ha as [Hch Ha].
    cbn [split_slash]. rewrite Ascii.eqb_sym, Hch, (IH Ha).
    destruct (split_slash b); reflexivity.
Qed.

Lemma split_slash_segment (a b : string) :
  has_char "/" a = false ->
  split_slash (a ++ String "/" b) = a :: split_slash b.
Proof.
  intros Ha. rewrite (split_slash_app _ _ Ha). cbn [split_slash].
  change (Ascii.eqb "/" "/") with true. cbv iota.
  replace (a ++ "") with a; [reflexivity |].
  clear Ha. induction a as [| ch a IH]; cbn [append]; congruence.
Qed.

Lemma take_digits_uint (d : Decimal.uint) (suffix : string) :
  no_leading_digit suffix ->
  take_digits (NilEmpty.string_of_uint d ++ suffix) = NilEmpty.string_of_uint d.
Proof.
  intros Hs. induction d; cbn [NilEmpty.string_of_uint append take_digits];
    try (match goal with |- context [is_digit ?ch] =>
           change (is_digit ch) with true end; cbv iota; rewrite IHd; reflexivity).
  destruct suffix as [| ch rest]; [reflexivity |].
  cbn [take_digits]. cbn [no_leading_digit] in Hs. rewrite Hs. reflexivity.
Qed.

Lemma parseInt_from_uint (d : Decimal.uint) (acc : positive) :
  parseInt_from (NilEmpty.string_of_uint d) (Z.pos acc)
  = Z.pos (Pos.of_uint_acc d acc).
Proof.
  revert acc.
  induction d; intros acc; cbn [NilEmpty.string_of_uint parseInt_from Pos.of_uint_acc];
    [reflexivity | ..];
    match goal with |- parseInt_from _ ?v = Z.pos (Pos.of_uint_acc _ ?p) =>
      replace v with (Z.pos p)
        by (rewrite ?Pos2Z.inj_add, ?Pos2Z.inj_mul;
            match goal with |- context [nat_of_ascii ?ch] =>
              let k := eval vm_compute in (Z.of_nat (nat_of_ascii ch)) in
              change (Z.of_nat (nat_of_ascii ch)) with k
            end; lia)
    end; apply IHd.
Qed.

Lemma parseInt_from_zero (d : Decimal.uint) :
  parseInt_from (NilEmpty.string_of_uint d) 0 = Z.of_N (Pos.of_uint d).
Proof.
  induction d; cbn [NilEmpty.string_of_uint parseInt_from Pos.of_uint];
    [reflexivity | exact IHd | ..];
    match goal with |- parseInt_from _ ?v = Z.of_N (N.pos (Pos.of_uint_acc _ ?p)) =>
      change v with (Z.pos p)
    end; apply parseInt_from_uint.
Qed.

Lemma string_of_uint_nonempty (d : Decimal.uint) :
  d <> Decimal.Nil -> NilEmpty.string_of_uint d <> "".
Proof. destruct d; cbn; congruence. Qed.

(** For a number that is not negative, [`${n}`] is a run of digits that
    [parseInt] reads back as [n]. *)
Lemma string_of_Z_digits (n : Z) (suffix : string) :
  0 <= n -> no_leading_digit suffix ->
  take_digits (string_of_Z n ++ suffix) = string_of_Z n
  /\ string_of_Z n <> ""
  /\ parseInt_digits (string_of_Z n) = n.
Proof.
  intros Hn Hs. unfold string_of_Z.
  destruct n as [| p | p]; [| | lia].
  - cbn [Z.to_int NilZero.string_of_int NilZero.string_of_uint].
    split; [exact (take_digits_uint (Decimal.D0 Decimal.Nil) suffix Hs) |].
    split; [discriminate | reflexivity].
  - cbn [Z.to_int NilZero.string_of_int].
    pose proof (DecimalPos.Unsigned.to_uint_nonnil p) as Hnil.
    assert (Hstr : NilZero.string_of_uint (Pos.to_uint p)
                   = NilEmpty.string_of_uint (Pos.to_uint p)).
    { destruct (Pos.to_uint p); [contradiction | reflexivity ..]. }
    rewrite Hstr. split; [exact (take_digits_uint _ suffix Hs) |].
    split; [exact (string_of_uint_nonempty _ Hnil) |].
    change (parseInt_digits (NilEmpty.string_of_uint (Pos.to_uint p)))
      with (parseInt_from (NilEmpty.string_of_uint (Pos.to_uint p)) 0).
    rewrite parseInt_from_zero, DecimalPos.Unsigned.of_to. reflexivity.
Qed.

Lemma append_empty (a : string) : a ++ "" = a.
Proof. induction a as [| ch a IH]; cbn [append]; congruence. Qed.

Lemma digits_no_slash (s : string) : take_digits s = s -> has_char "/" s = false.
Proof.
  induction s as [| ch s IH]; cbn [take_digits has_char]; [reflexivity |].
  destruct (is_digit ch) eqn:Hd; [| discriminate].
  intros H. inversion H as [Hs]. rewrite Hs. rewrite (IH Hs), orb_false_r.
  destruct (Ascii.eqb_spec "/" ch) as [<- | _]; [discriminate Hd | reflexivity].
Qed.

Lemma split_slash_head (s seg : string) (segs : list string) :
  no_leading_digit s -> split_slash s = seg :: segs -> no_leading_digit seg.
Proof.
  destruct s as [| ch s]; cbn [split_slash no_leading_digit].
  - intros _ H. inversion H. exact I.
  - intros Hch. destruct (Ascii.eqb ch "/").
    + intros H. inversion H. exact I.
    + destruct (split_slash s); intros H; inversion H; exact Hch.
Qed.

Lemma match_issue_issue_url (host org repo suffix : string) (n : Z) :
  has_char "/" host = false -> segment org -> segment repo -> 0 <= n ->
  no_leading_digit suffix ->
  match_issue (split_slash (issue_url host org repo n suffix))
  = Some (org, repo, string_of_Z n).
Proof.
  intros Hhost [Horg Horg'] [Hrepo Hrepo'] Hn Hs.
  destruct (string_of_Z_digits n "" Hn I) as [Hall [Hne _]].
  rewrite append_empty in Hall. apply digits_no_slash in Hall.
  unfold issue_url.
  change ("https://" ++ host ++ "/" ++ org ++ "/" ++ repo ++ "/issues/"
          ++ string_of_Z n ++ suffix)
    with ("https:" ++ String "/" ("" ++ String "/" (host ++ String "/"
            (org ++ String "/" (repo ++ String "/" ("issues" ++ String "/"
               (string_of_Z n ++ suffix))))))).
  rewrite !split_slash_segment by (assumption || reflexivity).
  rewrite (split_slash_app _ _ Hall).
  destruct (split_slash suffix) as [| seg post] eqn:Hd;
    [exact (False_ind _ (split_slash_nonnil _ Hd)) |].
  pose proof (split_slash_head _ _ _ Hs Hd) as Hseg.
  destruct (string_of_Z_digits n seg Hn Hseg) as [Htake _].
  cbn [match_issue].
  change (take_digits "issues") with "". change (nonempty "") with false.
  rewrite !andb_false_r. cbn [andb].
  rewrite Htake. rewrite (proj2 (nonempty_true org) Horg),
    (proj2 (nonempty_true repo) Hrepo), (proj2 (nonempty_true _) Hne).
  reflexivity.
Qed.

Lemma no_leading_digit_take (d : string) : no_leading_digit d -> take_digits d = "".
Proof.
  destruct d as [| ch d]; cbn [no_leading_digit take_digits]; [reflexivity |].
  intros ->. reflexivity.
Qed.

(** What a match of the pattern looks like. *)
Lemma match_issue_shape (segs : list string) (a b digits : string) :
  match_issue segs = Some (a, b, digits) ->
  exists pre d post,
    segs = (pre ++ a :: b :: "issues" :: d :: post)%list
    /\ digits = take_digits d /\ digits <> "".
Proof.
  induction segs as [| x segs IH]; cbn [match_issue]; [discriminate |].
  destruct segs as [| y [| z [| d post]]]; try discriminate.
  destruct (nonempty x && nonempty y && String.eqb z "issues"
            && nonempty (take_digits d)) eqn:Hc.
  - intros H. inversion H; subst.
    apply andb_true_iff in Hc. destruct Hc as [Hc Hd].
    apply andb_true_iff in Hc. destruct Hc as [_ Hz].
    apply String.eqb_eq in Hz. subst z.
    exists [], d, post. split; [reflexivity |]. split; [reflexivity |].
    now apply nonempty_true.
  - intros H. destruct (IH H) as [pre [d' [post' [Hsegs Hd]]]].
    exists (x :: pre), d', post'. rewrite Hsegs. split; [reflexivity | exact Hd].
Qed.

(** X6.  [parseGithubIssueURL] reads the address of an issue.  For
    [https://{host}/{org}/{repo}/issues/{n}], with [org] and [repo]
    non-empty and free of slashes, [n] from 0 to 2^53 - 1 and written in
    decimal, and anything after the number that does not start with a
    digit (a slash, a query, a fragment, nothing), it returns [org],
    [repo] and the number [n]; nothing is called or logged. *)
Theorem parseGithubIssueURL_reads_issue_urls
    {W : Type} (inputs : ActionInputs.t) (host org repo suffix : string) (n : Z)
    (s : St W ActionEvent) :
  ActionInputs.githubIssueURL inputs = issue_url host org repo n suffix ->
  has_char "/" host = false -> segment org -> segment repo ->
  0 <= n <= 9007199254740991 -> no_leading_digit suffix ->
  CoderTaskAction.parseGithubIssueURL inputs s = (Ok (IssueRef.mk org repo n), s).
Proof.
  intros Hurl Hhost Horg Hrepo [Hn _] Hs. unfold CoderTaskAction.parseGithubIssueURL.
  rewrite Hurl, (match_issue_issue_url host org repo suffix n Hhost Horg Hrepo Hn Hs).
  destruct (string_of_Z_digits n "" Hn I) as [_ [_ Hparse]]. rewrite Hparse.
  reflexivity.
Qed.

(** Issue 42 of [acme/widgets], as the fixtures give it, and the same
    address with a fragment. *)
Lemma parseGithubIssueURL_reads_issue_urls_witness :
  CoderTaskAction.parseGithubIssueURL (Mock.inputs None true) (Mock.start [] true)
  = (Ok (IssueRef.mk "acme" "widgets" 42), Mock.start [] true).
Proof.
  apply (parseGithubIssueURL_reads_issue_urls (Mock.inputs None true) "github.com"
           "acme" "widgets" "" 42 (Mock.start [] true)).
  - reflexivity.
  - reflexivity.
  - split; [discriminate | reflexivity].
  - split; [discriminate | reflexivity].
  - lia.
  - exact I.
Defined.

(** X7.  What [parseGithubIssueURL] refuses.  An empty address throws
    [Missing issue URL].  An address in which no segment [issues] is
    followed by a segment that starts with a digit (a pull-request
    address, an issue list, [issues/new]) throws [Invalid issue URL]
    with the address in the message.  In both cases nothing is called or
    logged. *)
Theorem parseGithubIssueURL_rejects_other_urls
    {W : Type} (inputs : ActionInputs.t) (s : St W ActionEvent) :
  let url := ActionInputs.githubIssueURL inputs in
  (url = "" ->
   CoderTaskAction.parseGithubIssueURL inputs s
   = (Err (Error "Missing issue URL"), s))
  /\ (url <> "" ->
      (forall pre d post,
         split_slash url = (pre ++ "issues" :: d :: post)%list ->
         no_leading_digit d) ->
      CoderTaskAction.parseGithubIssueURL inputs s
      = (Err (Error ("Invalid issue URL: " ++ url)), s)).
Proof.
  intros url. subst url. unfold CoderTaskAction.parseGithubIssueURL. split.
  - intros ->. reflexivity.
  - intros Hne Hno. rewrite (proj2 (nonempty_true _) Hne). cbn [negb].
    destruct (match_issue (split_slash (ActionInputs.githubIssueURL inputs)))
      as [[[a b] digits] |] eqn:Hm; [| reflexivity].
    exfalso. destruct (match_issue_shape _ _ _ _ Hm) as [pre [d [post [Hsegs [Hd Hne']]]]].
    apply Hne'. rewrite Hd. apply no_leading_digit_take.
    apply (Hno (pre ++ [a; b])%list d post). rewrite Hsegs, <- app_assoc. reflexivity.
Qed.

(** The address of a pull request is refused. *)
Lemma parseGithubIssueURL_rejects_other_urls_witness :
  let inputs :=
    ActionInputs.mk "fix the bug" "test-token" "https://coder.test" "my-template"
      "https://github.com/acme/widgets/pull/7" "github-token" "default" "gh"
      None true (Some 12345) None in
  CoderTaskAction.parseGithubIssueURL inputs (Mock.start [] true)
  = (Err (Error "Invalid issue URL: https://github.com/acme/widgets/pull/7"),
     Mock.start [] true).
Proof.
  cbv zeta.
  apply (proj2 (parseGithubIssueURL_rejects_other_urls
                  (ActionInputs.mk "fix the bug" "test-token" "https://coder.test"
                     "my-template" "https://github.com/acme/widgets/pull/7"
                     "github-token" "default" "gh" None true (Some 12345) None)
                  (Mock.start [] true))).
  - discriminate.
  - intros pre d post H. exfalso.
    assert (Hin : In "issues"
                    (split_slash "https://github.com/acme/widgets/pull/7")).
    { cbn [ActionInputs.githubIssueURL] in H. rewrite H. apply in_elt. }
    vm_compute in Hin.
    repeat (destruct Hin as [Hin | Hin]; [discriminate Hin |]). exact Hin.
Defined.

(** X8.  The task of issue [n] is called [{prefix}-{n}].  When the issue
    address is [https://{host}/{org}/{repo}/issues/{n}], [n] from 0 to
    2^53 - 1, and the first part of a run comes through, the task name it resolved is the task-name
    prefix, a hyphen, and [n] in decimal; the prefix is not empty, and the
    issue it will comment on is number [n] of [org/repo]. *)
Theorem run_names_the_task_after_the_issue
    {W : Type} (coder : CoderClient.t W) (inputs : ActionInputs.t)
    (host org repo suffix : string) (n : Z) (s s1 : St W ActionEvent)
    (r : Resolved.t) :
  ActionInputs.githubIssueURL inputs = issue_url host org repo n suffix ->
  has_char "/" host = false -> segment org -> segment repo ->
  0 <= n <= 9007199254740991 -> no_leading_digit suffix ->
  CoderTaskAction.resolve coder inputs s = (Ok r, s1) ->
  Resolved.taskName r
  = ActionInputs.coderTaskNamePrefix inputs ++ "-" ++ string_of_Z n
  /\ ActionInputs.coderTaskNamePrefix inputs <> ""
  /\ Resolved.ref r = IssueRef.mk org repo n.
Proof.
  intros Hurl Hhost Horg Hrepo [Hn _] Hs.
  pose proof (match_issue_issue_url host org repo suffix n Hhost Horg Hrepo Hn Hs)
    as Hm.
  destruct (string_of_Z_digits n "" Hn I) as [_ [_ Hparse]].
  unfold CoderTaskAction.resolve, CoderTaskAction.parseGithubIssueURL,
    CoderTaskAction.info, TaskNameSchema, z_string_min1, z_string, obind.
  step.
  destruct (CoderClient.getCoderUserByGitHubId coder
              (ActionInputs.githubUserID inputs) (world s)) as [[user | e |] w1];
    try discriminate.
  rewrite Hurl, Hm, Hparse. change (nonempty (issue_url host org repo n suffix)) with true.
  step.
  destruct (nonempty (ActionInputs.coderTaskNamePrefix inputs)) eqn:Hp; step;
    [| discriminate].
  match goal with |- context [String.eqb ?x ""] =>
    destruct (String.eqb x "")
  end; step; try discriminate.
  match goal with |- context [CoderClient.getTemplateByOrganizationAndName ?c ?a ?b ?w] =>
    destruct (CoderClient.getTemplateByOrganizationAndName c a b w)
      as [[template | e |] w2]
  end; step; try discriminate.
  match goal with |- context [CoderClient.getTemplateVersionPresets ?c ?a ?w] =>
    destruct (CoderClient.getTemplateVersionPresets c a w) as [[presets | e |] w3]
  end; step; try discriminate.
  match goal with |- context [CoderTaskAction.resolvePreset ?i ?p ?st] =>
    destruct (CoderTaskAction.resolvePreset i p st) as [[presetID | e |] st']
  end; step; try discriminate.
  intros H. inversion H; subst. cbn.
  split; [reflexivity |]. split; [now apply nonempty_true | reflexivity].
Qed.

(** Issue 42 under the prefix [gh], on the in-memory deployment. *)
Lemma run_names_the_task_after_the_issue_witness :
  exists r,
    fst (CoderTaskAction.resolve (Mock.coder []) (Mock.inputs None true)
           (Mock.start [] true)) = Ok r
    /\ Resolved.taskName r = "gh-42"
    /\ Resolved.ref r = IssueRef.mk "acme" "widgets" 42.
Proof.
  pose (r := Resolved.mk Fixture.mockUser (IssueRef.mk "acme" "widgets" 42)
               "gh-42" Fixture.mockTemplate None).
  pose (s1 := snd (CoderTaskAction.resolve (Mock.coder []) (Mock.inputs None true)
                     (Mock.start [] true))).
  assert (H : CoderTaskAction.resolve (Mock.coder []) (Mock.inputs None true)
                (Mock.start [] true) = (Ok r, s1))
    by (vm_compute; reflexivity).
  assert (Hurl : ActionInputs.githubIssueURL (Mock.inputs None true)
                 = issue_url "github.com" "acme" "widgets" 42 "")
    by (vm_compute; reflexivity).
  assert (Horg : segment "acme") by (split; [discriminate | reflexivity]).
  assert (Hrepo : segment "widgets") by (split; [discriminate | reflexivity]).
  assert (Hn : 0 <= 42 <= 9007199254740991) by lia.
  exists r. split; [rewrite H; reflexivity |].
  destruct (run_names_the_task_after_the_issue (Mock.coder [])
              (Mock.inputs None true) "github.com" "acme" "widgets" "" 42
              (Mock.start [] true) s1 r Hurl eq_refl Horg Hrepo Hn I H)
    as [Hname [_ Href]].
  split; [exact Hname | exact Href].
Defined.

(* ------------------------------------------------------------------ *)
(** ** Which comment is written *)

Lemma find_last {A} (f : A -> bool) (before : list A) (x : A) (after : list A) :
  f x = true -> Forall (fun y => f y = false) after ->
  find f (rev (before ++ x :: after)) = Some x.
Proof.
  intros Hx Hafter. rewrite rev_app_distr. cbn [rev]. rewrite <- app_assoc.
  cbn [app]. apply find_first; [exact Hx |].
  intros q Hq. apply in_rev in Hq.
  exact (proj1 (Forall_forall _ _) Hafter q Hq).
Qed.

Lemma find_none_rev {A} (f : A -> bool) (l : list A) :
  Forall (fun y => f y = false) l -> find f (rev l) = None.
Proof.
  intros H. apply find_nowhere. intros q Hq. apply in_rev in Hq.
  exact (proj1 (Forall_forall _ _) H q Hq).
Qed.

(** X9.  [commentOnIssue] keeps one comment per issue up to date.  When the
    listing succeeds and some comment starts with [Task created:], the
    last such comment is updated in place, under its id, and no comment is
    created; when none does, one comment is created on the issue.  The
    body written is [Task created: {taskUrl}], which itself starts with
    [Task created:], so the next run finds it.  In either case the call
    fulfils, whether or not the write succeeds. *)
Theorem commentOnIssue_updates_latest_or_creates
    {W : Type} (octokit : Octokit.t W) (taskUrl owner repo : string)
    (issueNumber : Z) (s : St W ActionEvent) (comments : list Comment.t) (w1 : W) :
  Octokit.listComments octokit owner repo issueNumber (world s) = (inr comments, w1) ->
  let body := "Task created: " ++ taskUrl in
  let out := CoderTaskAction.commentOnIssue octokit taskUrl owner repo issueNumber s in
  is_task_comment (Comment.mk 0 (Some body)) = true
  /\ fst out = Ok tt
  /\ (forall before latest after,
        comments = (before ++ latest :: after)%list ->
        is_task_comment latest = true ->
        Forall (fun cm => is_task_comment cm = false) after ->
        exists tr,
          trace (snd out) = (trace s ++ tr)%list
          /\ calls tr = [CallListComments owner repo issueNumber;
                         CallUpdateComment owner repo (Comment.id latest) body]
          /\ world (snd out)
             = snd (Octokit.updateComment octokit owner repo (Comment.id latest)
                      body w1))
  /\ (Forall (fun cm => is_task_comment cm = false) comments ->
      exists tr,
        trace (snd out) = (trace s ++ tr)%list
        /\ calls tr = [CallListComments owner repo issueNumber;
                       CallCreateComment owner repo issueNumber body]
        /\ world (snd out)
           = snd (Octokit.createComment octokit owner repo issueNumber body w1)).
Proof.
  intros Hl body out. subst out.
  split; [reflexivity |]. split; [| split].
  - destruct (commentOnIssue_fulfils octokit taskUrl owner repo issueNumber s)
      as [tr [notif [w' [H _]]]]. rewrite H. reflexivity.
  - intros before latest after -> Hlatest Hafter.
    unfold CoderTaskAction.commentOnIssue. step. rewrite Hl. step.
    change (fun comment : Comment.t =>
              match Comment.body comment with
              | Some b => startsWith "Task created:" b
              | None => false
              end) with is_task_comment.
    rewrite (find_last is_task_comment _ _ _ Hlatest Hafter). step.
    fold body.
    destruct (Octokit.updateComment octokit owner repo (Comment.id latest) body w1)
      as [[e | []] w2]; step; rewrite <- !app_assoc; cbn [app];
      (eexists; split; [reflexivity | split; [reflexivity | reflexivity]]).
  - intros Hnone.
    unfold CoderTaskAction.commentOnIssue. step. rewrite Hl. step.
    change (fun comment : Comment.t =>
              match Comment.body comment with
              | Some b => startsWith "Task created:" b
              | None => false
              end) with is_task_comment.
    rewrite (find_none_rev is_task_comment _ Hnone). step.
    fold body.
    destruct (Octokit.createComment octokit owner repo issueNumber body w1)
      as [[e | []] w2]; step; rewrite <- !app_assoc; cbn [app];
      (eexists; split; [reflexivity | split; [reflexivity | reflexivity]]).
Qed.

(** An issue with two task comments and a remark in between: the later
    task comment, number 3, is the one updated. *)
Lemma commentOnIssue_updates_latest_or_creates_witness :
  let w :=
    Mock.mk []
      [Comment.mk 1 (Some "Task created: https://coder.test/tasks/u/old");
       Comment.mk 2 (Some "Thanks!");
       Comment.mk 3 (Some "Task created: https://coder.test/tasks/u/older");
       Comment.mk 4 None] true in
  exists tr,
    trace (snd (CoderTaskAction.commentOnIssue Mock.octokit
                  "https://coder.test/tasks/u/t" "acme" "widgets" 42 (mkSt w [])))
    = tr
    /\ calls tr =
         [CallListComments "acme" "widgets" 42;
          CallUpdateComment "acme" "widgets" 3
            "Task created: https://coder.test/tasks/u/t"].
Proof.
  cbv zeta.
  assert (Hafter : Forall (fun cm => is_task_comment cm = false) [Comment.mk 4 None])
    by (constructor; [reflexivity | constructor]).
  destruct (proj1 (proj2 (proj2
              (commentOnIssue_updates_latest_or_creates Mock.octokit
                 "https://coder.test/tasks/u/t" "acme" "widgets" 42
                 (mkSt (Mock.mk []
                          [Comment.mk 1
                             (Some "Task created: https://coder.test/tasks/u/old");
                           Comment.mk 2 (Some "Thanks!");
                           Comment.mk 3
                             (Some "Task created: https://coder.test/tasks/u/older");
                           Comment.mk 4 None] true) [])
                 _ _ eq_refl)))
              [Comment.mk 1 (Some "Task created: https://coder.test/tasks/u/old");
               Comment.mk 2 (Some "Thanks!")]
              (Comment.mk 3 (Some "Task created: https://coder.test/tasks/u/older"))
              [Comment.mk 4 None] eq_refl eq_refl Hafter)
    as [tr [Ht [Hc _]]].
  exists tr. split; [exact Ht | exact Hc].
Defined.

(* ------------------------------------------------------------------ *)
(** ** Missing keys and [null] *)

(** X10.  The schemas tell a missing key from [null].  A task must carry the key
    [current_state], whose value may be [null]: without the key the task is
    refused, with [null] it is read as a task without a state, and in no
    other case is the state absent.  The [github_com_user_id] of a user
    and the [description] of a template may be missing, and are then
    absent in the result; a [null] there is refused. *)
Theorem schemas_tell_missing_from_null {zod : Zod} (o : list (string * Json)) :
  (forall task,
     ExperimentalCoderSDKTaskSchema (JObj o) = Some task ->
     get_field "current_state" o <> None
     /\ (Task.current_state task = None <-> get_field "current_state" o = Some JNull))
  /\ (forall user,
        CoderSDKUserSchema (JObj o) = Some user ->
        get_field "github_com_user_id" o <> Some JNull
        /\ (User.github_com_user_id user = None
            <-> get_field "github_com_user_id" o = None))
  /\ (forall template,
        CoderSDKTemplateSchema (JObj o) = Some template ->
        get_field "description" o <> Some JNull
        /\ (Template.description template = None
            <-> get_field "description" o = None)).
Proof.
  split; [| split].
  - intros task. unfold ExperimentalCoderSDKTaskSchema, required, nullable.
    cbn [z_object obind]. intros H. obind_inv.
    match goal with H : match get_field "current_state" o with _ => _ end = Some _ |- _ =>
      destruct (get_field "current_state" o) as [[| | | | |] |];
        try discriminate H; cbn [Task.current_state];
        try (inversion H; subst; split; [discriminate | split; reflexivity]);
        (obind_inv; split; [discriminate | split; discriminate])
    end.
  - intros user. unfold CoderSDKUserSchema, required, optional.
    cbn [z_object obind]. intros H. obind_inv.
    match goal with H : match get_field "github_com_user_id" o with _ => _ end = Some _ |- _ =>
      destruct (get_field "github_com_user_id" o) as [[| | | | |] |];
        try discriminate H; cbn [User.github_com_user_id];
        inversion H; subst; split; try discriminate; try congruence;
        split; (discriminate || reflexivity)
    end.
  - intros template. unfold CoderSDKTemplateSchema, required, optional.
    cbn [z_object obind]. intros H. obind_inv.
    match goal with H : match get_field "description" o with _ => _ end = Some _ |- _ =>
      destruct (get_field "description" o) as [[| | | | |] |];
        try discriminate H; cbn [Template.description];
        inversion H; subst; split; try discriminate; try congruence;
        split; (discriminate || reflexivity)
    end.
Qed.

(** A task of the fixtures whose state is [null]. *)
Lemma schemas_tell_missing_from_null_witness :
  Task.current_state (Fixture.mockTask "gh-42" pending None) = None
  <-> get_field "current_state"
        [("id", JStr Fixture.mockTaskId); ("name", JStr "gh-42");
         ("owner_id", JStr "550e8400-e29b-41d4-a716-446655440000");
         ("template_id", JStr "770e8400-e29b-41d4-a716-446655440000");
         ("created_at", JStr "2025-01-01T00:00:00Z");
         ("updated_at", JStr "2025-01-01T00:00:00Z");
         ("status", JStr "pending"); ("current_state", JNull)]
      = Some JNull.
Proof.
  exact (proj2 (proj1 (schemas_tell_missing_from_null (zod := Fixture.zod)
                         [("id", JStr Fixture.mockTaskId); ("name", JStr "gh-42");
                          ("owner_id", JStr "550e8400-e29b-41d4-a716-446655440000");
                          ("template_id",
                           JStr "770e8400-e29b-41d4-a716-446655440000");
                          ("created_at", JStr "2025-01-01T00:00:00Z");
                          ("updated_at", JStr "2025-01-01T00:00:00Z");
                          ("status", JStr "pending"); ("current_state", JNull)])
                  (Fixture.mockTask "gh-42" pending None) eq_refl)).
Defined.

(* ------------------------------------------------------------------ *)
(** ** The create request *)

Lemma z_string_min1_JStr (v : string) :
  z_string_min1 (JStr v) = if nonempty v then Some v else None.
Proof.
  unfold z_string_min1, nonempty. cbn [z_string obind].
  destruct (String.eqb v ""); reflexivity.
Qed.

(** X11.  What [createTask] posts passes the schema of create requests exactly
    when the name, the template version and the input are not empty and
    the preset id, if there is one, is not empty either; the schema then
    gives the request back unchanged.  A request without a preset is
    posted without the key [template_version_preset_id]. *)
Theorem create_request_round_trip {zod : Zod} (req : CreateTaskRequest.t) :
  ExperimentalCoderSDKCreateTaskRequestSchema (json_of_CreateTaskRequest req)
  = (if request_filled req then Some req else None)
  /\ (match json_of_CreateTaskRequest req with
      | JObj o =>
          get_field "template_version_preset_id" o
          = option_map JStr (CreateTaskRequest.template_version_preset_id req)
      | _ => False
      end).
Proof.
  destruct req as [name version preset input].
  unfold ExperimentalCoderSDKCreateTaskRequestSchema, json_of_CreateTaskRequest,
    request_filled, required, optional.
  cbn [CreateTaskRequest.name CreateTaskRequest.template_version_id
       CreateTaskRequest.template_version_preset_id CreateTaskRequest.input
       z_object obind].
  destruct preset as [i |]; cbn [app get_field option_map];
    repeat match goal with
           | |- context [String.eqb ?a ?b] =>
               let v := eval vm_compute in (String.eqb a b) in
               change (String.eqb a b) with v
           end; cbv iota; cbn [obind]; rewrite !z_string_min1_JStr;
    (split; [| reflexivity]).
  - destruct (nonempty name), (nonempty version), (nonempty i), (nonempty input);
      reflexivity.
  - destruct (nonempty name), (nonempty version), (nonempty input); reflexivity.
Qed.

(* ------------------------------------------------------------------ *)
(** ** What validated inputs satisfy *)

(** X12.  Inputs that pass [ActionInputsSchema] name the user in exactly one
    way: a GitHub user id that is at least 1 and no Coder username, or a
    non-empty Coder username and no GitHub user id.  The prompt, the
    token and the template name are not empty, the two addresses are
    URLs, the organisation is the given non-empty one or [default], the
    task-name prefix the given non-empty one or [gh], and commenting is on
    unless it was switched off; every other field is handed through. *)
Theorem ActionInputsSchema_guarantees {zod : Zod} (raw : RawInputs.t)
    (inputs : ActionInputs.t) :
  ActionInputsSchema raw = Some inputs ->
  ((exists n, ActionInputs.githubUserID inputs = Some n /\ 1 <= n
              /\ ActionInputs.coderUsername inputs = None)
   \/ (exists u, ActionInputs.coderUsername inputs = Some u /\ u <> ""
                 /\ ActionInputs.githubUserID inputs = None))
  /\ ActionInputs.coderTaskPrompt inputs <> ""
  /\ ActionInputs.coderToken inputs <> ""
  /\ ActionInputs.coderTemplateName inputs <> ""
  /\ is_url (ActionInputs.coderURL inputs) = true
  /\ is_url (ActionInputs.githubIssueURL inputs) = true
  /\ ActionInputs.coderOrganization inputs
     = match RawInputs.coderOrganization raw with Some o => o | None => "default" end
  /\ ActionInputs.coderOrganization inputs <> ""
  /\ ActionInputs.coderTaskNamePrefix inputs
     = match RawInputs.coderTaskNamePrefix raw with Some p => p | None => "gh" end
  /\ ActionInputs.coderTaskNamePrefix inputs <> ""
  /\ ActionInputs.commentOnIssue inputs
     = match RawInputs.commentOnIssue raw with Some b => b | None => true end
  /\ inputs
     = build_inputs raw (ActionInputs.coderOrganization inputs)
         (ActionInputs.coderTaskNamePrefix inputs).
Proof.
  intros H.
  assert (Hbase : exists org prefix,
            BaseInputsSchema raw = Some (org, prefix)
            /\ inputs = build_inputs raw org prefix
            /\ ((exists n, RawInputs.githubUserID raw = Some n /\ 1 <= n
                           /\ RawInputs.coderUsername raw = None)
                \/ (exists u, RawInputs.coderUsername raw = Some u /\ u <> ""
                              /\ RawInputs.githubUserID raw = None))).
  { unfold ActionInputsSchema, WithGithubUserIDSchema, WithCoderUsernameSchema in H.
    destruct (BaseInputsSchema raw) as [[org prefix] |]; [| discriminate H].
    exists org, prefix. split; [reflexivity |].
    destruct (RawInputs.githubUserID raw) as [n |],
             (RawInputs.coderUsername raw) as [u |]; try discriminate H.
    - destruct (Z.leb_spec 1 n); [| discriminate H]. inversion H.
      split; [reflexivity |]. left. exists n. auto.
    - destruct (nonempty u) eqn:Hu; [| discriminate H]. inversion H.
      split; [reflexivity |]. right. exists u. apply nonempty_true in Hu. auto. }
  destruct Hbase as [org [prefix [Hb [-> Hid]]]].
  unfold BaseInputsSchema in Hb.
  destruct (nonempty (RawInputs.coderTaskPrompt raw)) eqn:H1; [| discriminate Hb].
  destruct (nonempty (RawInputs.coderToken raw)) eqn:H2; [| discriminate Hb].
  destruct (is_url (RawInputs.coderURL raw)) eqn:H3; [| discriminate Hb].
  destruct (nonempty (RawInputs.coderTemplateName raw)) eqn:H4; [| discriminate Hb].
  destruct (is_url (RawInputs.githubIssueURL raw)) eqn:H5; [| discriminate Hb].
  cbn [andb] in Hb.
  destruct (min1_default "default" (RawInputs.coderOrganization raw)) as [org' |] eqn:Ho;
    [| discriminate Hb].
  destruct (min1_default "gh" (RawInputs.coderTaskNamePrefix raw)) as [prefix' |] eqn:Hp;
    [| discriminate Hb].
  cbn [obind] in Hb. inversion Hb; subst org' prefix'. clear Hb.
  apply nonempty_true in H1, H2, H4.
  unfold build_inputs.
  cbn [ActionInputs.githubUserID ActionInputs.coderUsername
       ActionInputs.coderTaskPrompt ActionInputs.coderToken
       ActionInputs.coderTemplateName ActionInputs.coderURL
       ActionInputs.githubIssueURL ActionInputs.coderOrganization
       ActionInputs.coderTaskNamePrefix ActionInputs.commentOnIssue].
  split; [exact Hid |].
  repeat (split; [assumption |]).
  assert (Horg : org = match RawInputs.coderOrganization raw with
                       | Some o => o | None => "default" end /\ org <> "").
  { destruct (RawInputs.coderOrganization raw) as [x |]; cbn [min1_default] in Ho.
    - destruct (nonempty x) eqn:Hx; [| discriminate Ho]. inversion Ho; subst.
      split; [reflexivity | now apply nonempty_true].
    - inversion Ho. split; [reflexivity | discriminate]. }
  assert (Hprefix : prefix = match RawInputs.coderTaskNamePrefix raw with
                             | Some p => p | None => "gh" end /\ prefix <> "").
  { destruct (RawInputs.coderTaskNamePrefix raw) as [x |]; cbn [min1_default] in Hp.
    - destruct (nonempty x) eqn:Hx; [| discriminate Hp]. inversion Hp; subst.
      split; [reflexivity | now apply nonempty_true].
    - inversion Hp. split; [reflexivity | discriminate]. }
  destruct Horg as [Horg Horg'], Hprefix as [Hprefix Hprefix'].
  repeat split; assumption || reflexivity.
Qed.

(** The inputs of the fixtures that name the user by Coder username. *)
Lemma ActionInputsSchema_guarantees_witness :
  ActionInputs.coderTaskNamePrefix Mock.inputs_username <> ""
  /\ ActionInputs.coderTaskPrompt Mock.inputs_username <> "".
Proof.
  pose proof (ActionInputsSchema_guarantees (zod := Fixture.zod) Fixture.rawUsername
                Mock.inputs_username eq_refl) as H.
  split.
  - exact (proj1 (proj2 (proj2 (proj2 (proj2 (proj2 (proj2 (proj2 (proj2
             (proj2 H)))))))))).
  - exact (proj1 (proj2 H)).
Defined.

(* ------------------------------------------------------------------ *)
(** ** The order of the calls *)

Lemma steps_app (q : Stage) (a b : list ActionEvent) :
  steps q (a ++ b) = match steps q a with Some q' => steps q' b | None => None end.
Proof.
  revert q. induction a as [| e a IH]; intros q; cbn [app steps]; [reflexivity |].
  destruct (next q e); [apply IH | reflexivity].
Qed.

Section Moves.
Context {W : Type}.

Lemma moves_ret {A} (q : Stage) (R : Stage -> Prop) (a : A) :
  R q -> moves (W := W) q R (ret a).
Proof. intros H s. exists [], q. cbn. rewrite app_nil_r. auto. Qed.

Lemma moves_throw {A} (q : Stage) (R : Stage -> Prop) (e : JsError) :
  moves (W := W) (A := A) q R (throw e).
Proof.
  intros s. exists [], q. cbn. rewrite app_nil_r.
  split; [reflexivity | split; [reflexivity | discriminate]].
Qed.

Lemma moves_emit (q q1 : Stage) (e : ActionEvent) :
  next q e = Some q1 -> moves (W := W) q (eq q1) (emit e).
Proof. intros H s. exists [e], q1. cbn. rewrite H. auto. Qed.

Lemma moves_invoke {A} (q q1 : Stage) (e : ActionEvent) (f : W -> Result A * W) :
  next q e = Some q1 -> moves q (eq q1) (invoke e f).
Proof.
  intros H s. exists [e], q1. unfold invoke. destruct (f (world s)).
  cbn. rewrite H. auto.
Qed.

Lemma moves_invoke_settled {A} (q q1 : Stage) (e : ActionEvent)
    (f : W -> (JsError + A) * W) :
  next q e = Some q1 -> moves q (eq q1) (invoke_settled e f).
Proof.
  intros H s. exists [e], q1. unfold invoke_settled. destruct (f (world s)).
  cbn. rewrite H. auto.
Qed.

Lemma moves_bind {A B} (q : Stage) (P R : Stage -> Prop) (m : M W ActionEvent A)
    (k : A -> M W ActionEvent B) :
  moves q P m -> (forall a q1, P q1 -> moves q1 R (k a)) -> moves q R (bind m k).
Proof.
  intros Hm Hk s. unfold bind. destruct (Hm s) as [tr [q1 [Ht [Hs Hp]]]].
  destruct (m s) as [[a | e |] s1]; cbn [fst snd] in *.
  - destruct (Hk a q1 (Hp a eq_refl) s1) as [tr' [q2 [Ht' [Hs' Hr]]]].
    exists (tr ++ tr')%list, q2. rewrite Ht', Ht, app_assoc, steps_app, Hs. auto.
  - exists tr, q1. split; [exact Ht | split; [exact Hs | discriminate]].
  - exists tr, q1. split; [exact Ht | split; [exact Hs | discriminate]].
Qed.

Lemma moves_bind_ret {A B} (q : Stage) (R : Stage -> Prop) (a : A)
    (k : A -> M W ActionEvent B) :
  moves q R (k a) -> moves q R (bind (ret a) k).
Proof. intros H. exact H. Qed.

Lemma moves_bind_throw {A B} (q : Stage) (R : Stage -> Prop) (e : JsError)
    (k : A -> M W ActionEvent B) :
  moves q R (bind (throw e) k).
Proof. exact (moves_throw q R e). Qed.

Lemma moves_bind_assoc {A B C} (q : Stage) (R : Stage -> Prop)
    (m : M W ActionEvent A) (k1 : A -> M W ActionEvent B)
    (k : B -> M W ActionEvent C) :
  moves q R (bind m (fun a => bind (k1 a) k)) -> moves q R (bind (bind m k1) k).
Proof.
  intros H s. specialize (H s). unfold bind in *.
  destruct (m s) as [[a | e |] s1]; exact H.
Qed.

Lemma moves_weaken {A} (q : Stage) (P R : Stage -> Prop) (m : M W ActionEvent A) :
  moves q P m -> (forall q1, P q1 -> R q1) -> moves q R m.
Proof.
  intros Hm Hw s. destruct (Hm s) as [tr [q1 [Ht [Hs Hp]]]].
  exists tr, q1. split; [exact Ht | split; [exact Hs |]]. intros a Ha. eauto.
Qed.

End Moves.

Ltac moves_step :=
  cbv beta zeta;
  lazymatch goal with
  | |- moves _ _ (bind (bind _ _) _) => apply moves_bind_assoc
  | |- moves _ _ (bind (ret _) _) => apply moves_bind_ret
  | |- moves _ _ (bind (throw _) _) => apply moves_bind_throw
  | |- moves _ _ (bind (emit _) _) =>
      eapply moves_bind; [apply moves_emit; reflexivity | intros ? ? <-]
  | |- moves _ _ (bind (invoke _ _) _) =>
      eapply moves_bind; [apply moves_invoke; reflexivity | intros ? ? <-]
  | |- moves _ _ (bind (invoke_settled _ _) _) =>
      eapply moves_bind; [apply moves_invoke_settled; reflexivity | intros ? ? <-]
  | |- moves _ _ (bind (if ?b then _ else _) _) => destruct b
  | |- moves _ _ (bind (match ?x with _ => _ end) _) => destruct x
  | |- moves _ _ (ret _) => apply moves_ret; solve [auto]
  | |- moves _ _ (throw _) => apply moves_throw
  | |- moves _ _ (emit _) =>
      eapply moves_weaken; [apply moves_emit; reflexivity | intros ? <-; solve [auto]]
  | |- moves _ _ (invoke _ _) =>
      eapply moves_weaken; [apply moves_invoke; reflexivity | intros ? <-; solve [auto]]
  | |- moves _ _ (invoke_settled _ _) =>
      eapply moves_weaken;
        [apply moves_invoke_settled; reflexivity | intros ? <-; solve [auto]]
  | |- moves _ _ (if ?b then _ else _) => destruct b
  | |- moves _ _ (match ?x with _ => _ end) => destruct x
  end.

Ltac moves_tac := repeat moves_step.

Lemma resolve_moves {W : Type} (coder : CoderClient.t W) (inputs : ActionInputs.t) :
  moves Started (eq PresetsKnown) (CoderTaskAction.resolve coder inputs).
Proof.
  unfold CoderTaskAction.resolve, CoderTaskAction.parseGithubIssueURL,
    CoderTaskAction.resolvePreset, CoderTaskAction.selectPreset,
    CoderTaskAction.requirePreset, CoderTaskAction.info, zparse.
  moves_tac.
Qed.

Lemma commentOnIssue_moves {W : Type} (octokit : Octokit.t W)
    (taskUrl owner repo : string) (issueNumber : Z) :
  moves Created (fun q => q = Listed \/ q = Commented)
    (CoderTaskAction.commentOnIssue octokit taskUrl owner repo issueNumber).
Proof.
  intros s. unfold CoderTaskAction.commentOnIssue. step.
  destruct (Octokit.listComments octokit owner repo issueNumber (world s))
    as [[e | comments] w1]; step.
  - eexists. exists Listed. rewrite <- !app_assoc. cbn [app].
    split; [reflexivity | split; [reflexivity | auto]].
  - destruct (find _ (rev comments)) as [existing |]; step.
    + destruct (Octokit.updateComment octokit owner repo (Comment.id existing)
                  ("Task created: " ++ taskUrl) w1) as [[e | []] w2]; step;
        (eexists; exists Commented; rewrite <- !app_assoc; cbn [app];
         split; [reflexivity | split; [reflexivity | auto]]).
    + destruct (Octokit.createComment octokit owner repo issueNumber
                  ("Task created: " ++ taskUrl) w1) as [[e | []] w2]; step;
        (eexists; exists Commented; rewrite <- !app_assoc; cbn [app];
         split; [reflexivity | split; [reflexivity | auto]]).
Qed.

Ltac moves_run :=
  repeat first
    [ lazymatch goal with
      | |- moves _ _ (bind (CoderTaskAction.commentOnIssue _ _ _ _ _) _) =>
          eapply moves_bind; [apply commentOnIssue_moves | intros ? ? [-> | ->]]
      end
    | moves_step ].

Lemma ensureTaskRunning_moves {W : Type} (coder : CoderClient.t W)
    (octokit : Octokit.t W) (inputs : ActionInputs.t) (username taskName : string)
    (template : Template.t) (presetID : option string) (ref : IssueRef.t) :
  moves PresetsKnown (fun q => sent q = true \/ created q = true)
    (CoderTaskAction.ensureTaskRunning coder octokit inputs username taskName
       template presetID ref).
Proof.
  unfold CoderTaskAction.ensureTaskRunning, CoderTaskAction.useExistingTask,
    CoderTaskAction.createNewTask, CoderTaskAction.info.
  moves_run.
Qed.

Lemma run_moves {W : Type} (coder : CoderClient.t W) (octokit : Octokit.t W)
    (inputs : ActionInputs.t) :
  moves Started (fun q => sent q = true \/ created q = true)
    (CoderTaskAction.run coder octokit inputs).
Proof.
  unfold CoderTaskAction.run.
  eapply moves_bind; [apply resolve_moves | intros r q <-].
  apply ensureTaskRunning_moves.
Qed.

Lemma steps_created (tr : list ActionEvent) (q q' : Stage) :
  steps q tr = Some q' -> created q = true -> created q' = true.
Proof.
  revert q. induction tr as [| e tr IH]; intros q; cbn [steps].
  - intros H. inversion H. auto.
  - destruct (next q e) as [q1 |] eqn:Hn; [| discriminate].
    intros H Hq. apply (IH q1 H).
    destruct q, e; cbn in Hn; inversion Hn; subst; try discriminate; reflexivity.
Qed.

Lemma steps_sent (tr : list ActionEvent) (q q' : Stage) :
  steps q tr = Some q' -> sent q = true -> sent q' = true.
Proof.
  revert q. induction tr as [| e tr IH]; intros q; cbn [steps].
  - intros H. inversion H. auto.
  - destruct (next q e) as [q1 |] eqn:Hn; [| discriminate].
    intros H Hq. apply (IH q1 H).
    destruct q, e; cbn in Hn; inversion Hn; subst; try discriminate; reflexivity.
Qed.

(** The stage reached tells how often a task was created and a prompt
    sent. *)
Lemma steps_count (tr : list ActionEvent) (q q' : Stage) :
  steps q tr = Some q' ->
  length (filter is_create tr)
  = (if created q' && negb (created q) then 1 else 0)%nat
  /\ length (filter is_send tr) = (if sent q' && negb (sent q) then 1 else 0)%nat.
Proof.
  revert q. induction tr as [| e tr IH]; intros q; cbn [steps].
  - intros H. inversion H. destruct q'; split; reflexivity.
  - destruct (next q e) as [q1 |] eqn:Hn; [| discriminate].
    intros H. destruct (IH q1 H) as [Hc Hs].
    pose proof (steps_created tr q1 q' H) as Hmc.
    pose proof (steps_sent tr q1 q' H) as Hms.
    cbn [filter].
    destruct q, e; cbn in Hn; inversion Hn; subst q1;
      cbn [is_create is_send length created sent negb andb] in *;
      rewrite ?Hc, ?Hs, ?andb_true_r, ?andb_false_r;
      try rewrite (Hmc eq_refl); try rewrite (Hms eq_refl);
      split; reflexivity.
Qed.

Lemma steps_write_after_lookup (pre : list ActionEvent) (e : ActionEvent)
    (post : list ActionEvent) (q q' : Stage) :
  steps q (pre ++ e :: post) = Some q' -> is_write e = true ->
  before_lookup q = true -> existsb is_lookup pre = true.
Proof.
  revert q. induction pre as [| x pre IH]; intros q; cbn [app steps existsb].
  - destruct q, e; cbn; discriminate.
  - destruct (next q x) as [q1 |] eqn:Hn; [| discriminate].
    intros H He Hq.
    destruct (is_lookup x) eqn:Hx; [reflexivity |]. cbn [orb].
    apply (IH q1 H He).
    destruct q, x; cbn in Hn, Hx, Hq; inversion Hn; subst; try discriminate;
      reflexivity.
Qed.

(** X13.  The calls of a run come in one order, whatever the services answer
    and wherever the run stops: the user, the template, its presets, the
    task lookup; then either the wait, if any, and the send, or the
    create call, the listing of the comments and one update or create of
    a comment.  So a run creates at most one task and sends at most one
    prompt, never both; nothing is written before the task has been looked
    up; and a run that fulfils has sent the prompt or created the task. *)
Theorem run_calls_in_order
    {W : Type} (coder : CoderClient.t W) (octokit : Octokit.t W)
    (inputs : ActionInputs.t) (s : St W ActionEvent) :
  exists tr q,
    trace (snd (CoderTaskAction.run coder octokit inputs s)) = (trace s ++ tr)%list
    /\ steps Started tr = Some q
    /\ (length (filter is_create tr) <= 1)%nat
    /\ (length (filter is_send tr) <= 1)%nat
    /\ (filter is_create tr = [] \/ filter is_send tr = [])
    /\ (forall pre e post,
          tr = (pre ++ e :: post)%list -> is_write e = true ->
          existsb is_lookup pre = true)
    /\ (forall out,
          fst (CoderTaskAction.run coder octokit inputs s) = Ok out ->
          (length (filter is_create tr) + length (filter is_send tr) = 1)%nat).
Proof.
  destruct (run_moves coder octokit inputs s) as [tr [q [Ht [Hs Hok]]]].
  destruct (steps_count tr Started q Hs) as [Hc Hn].
  cbn [created sent negb] in Hc, Hn. rewrite andb_true_r in Hc, Hn.
  exists tr, q. split; [exact Ht |]. split; [exact Hs |].
  split; [rewrite Hc; destruct (created q); auto |].
  split; [rewrite Hn; destruct (sent q); auto |].
  split.
  { destruct (filter is_create tr); [left; reflexivity |].
    destruct (filter is_send tr); [right; reflexivity |].
    destruct q; discriminate. }
  split.
  { intros pre e post -> He.
    exact (steps_write_after_lookup pre e post Started q Hs He eq_refl). }
  intros out Hout. rewrite Hc, Hn.
  destruct (Hok out Hout) as [H | H]; destruct q; try discriminate H; reflexivity.
Qed.

(** A run on the in-memory deployment that finds no task: it creates one,
    sends nothing, and comments after the lookup. *)
Lemma run_calls_in_order_witness :
  exists tr,
    trace (snd (CoderTaskAction.run (Mock.coder []) Mock.octokit
                  (Mock.inputs None true) (Mock.start [] true))) = tr
    /\ length (filter is_create tr) = 1%nat
    /\ filter is_send tr = [].
Proof.
  assert (Hrun : fst (CoderTaskAction.run (Mock.coder []) Mock.octokit
                        (Mock.inputs None true) (Mock.start [] true))
                 = Ok (ActionOutputs.mk "testuser" "gh-42"
                         ("https://coder.test/tasks/testuser/" ++ Fixture.mockTaskId)
                         true))
    by (vm_compute; reflexivity).
  destruct (run_calls_in_order (Mock.coder []) Mock.octokit (Mock.inputs None true)
              (Mock.start [] true))
    as [tr [q [Ht [_ [Hc [Hs [Hx [_ Hok]]]]]]]].
  exists tr. split; [exact Ht |].
  specialize (Hok _ Hrun).
  destruct Hx as [Hx | Hx].
  - exfalso. rewrite Hx in Hok. cbn [length Nat.add] in Hok.
    assert (Hin : In (CallCreateTask "testuser"
                        (CreateTaskRequest.mk "gh-42"
                           (Template.active_version_id Fixture.mockTemplate) None
                           "fix the bug"))
                    (filter is_create tr)).
    { apply filter_In. split; [| reflexivity]. cbn [trace Mock.start app] in Ht.
      rewrite <- Ht. vm_compute. tauto. }
    rewrite Hx in Hin. exact Hin.
  - rewrite Hx in Hok. cbn [length] in Hok. rewrite Nat.add_0_r in Hok.
    split; [exact Hok | exact Hx].
Defined.

(* ------------------------------------------------------------------ *)
(** ** What [main] reports *)

Lemma no_reports_app (a b : list ActionEvent) :
  no_reports a -> no_reports b -> no_reports (a ++ b).
Proof.
  unfold no_reports, reports. intros Ha Hb. rewrite filter_app, Ha, Hb. reflexivity.
Qed.

Lemma run_reports_nothing {W : Type} (coder : CoderClient.t W)
    (octokit : Octokit.t W) (inputs : ActionInputs.t) :
  traced no_reports (CoderTaskAction.run coder octokit inputs).
Proof.
  unfold CoderTaskAction.run, CoderTaskAction.ensureTaskRunning,
    CoderTaskAction.useExistingTask, CoderTaskAction.createNewTask,
    CoderTaskAction.commentOnIssue, CoderTaskAction.resolve,
    CoderTaskAction.resolvePreset, CoderTaskAction.selectPreset,
    CoderTaskAction.requirePreset, CoderTaskAction.parseGithubIssueURL,
    CoderTaskAction.info, zparse.
  traced_tac (eq_refl : no_reports []) no_reports_app.
Qed.

(** X14.  [main] reports the outcome once, and never rejects.  When the inputs
    pass the schema and the run fulfils, the four outputs are set from
    what the run returned, in the order [coder-username], [task-name],
    [task-url], [task-created], and neither [setFailed] nor
    [process.exit] is called.  When the inputs are refused or the run
    rejects, no output is set, [setFailed] is called once and the process
    exits with code 1, which is the last thing that happens.  Inputs that
    are refused lead to no call on either service. *)
Theorem main_reports_the_outcome_once
    {W : Type} {zod : Zod} (newCoderClient : string -> string -> CoderClient.t W)
    (getOctokit : string -> Octokit.t W) (raw : RawInputs.t)
    (s : St W ActionEvent) :
  let out := Index.main newCoderClient getOctokit raw s in
  let run_of inputs :=
    CoderTaskAction.run
      (newCoderClient (ActionInputs.coderURL inputs) (ActionInputs.coderToken inputs))
      (getOctokit (ActionInputs.githubToken inputs)) inputs
      (main_before_run inputs s) in
  exists tr,
    trace (snd out) = (trace s ++ tr)%list
    /\ ((exists inputs outputs,
           ActionInputsSchema raw = Some inputs
           /\ fst (run_of inputs) = Ok outputs
           /\ fst out = Ok tt /\ reports tr = output_lines outputs)
        \/ (exists msg pre,
              (ActionInputsSchema raw = None /\ calls tr = []
               \/ exists inputs e,
                    ActionInputsSchema raw = Some inputs
                    /\ fst (run_of inputs) = Err e)
              /\ fst out = Ok tt
              /\ reports tr = [CoreSetFailed msg; ProcessExit 1]
              /\ tr = (pre ++ [ProcessExit 1])%list)
        \/ (exists inputs,
              ActionInputsSchema raw = Some inputs
              /\ fst (run_of inputs) = Unsettled
              /\ fst out = Unsettled /\ reports tr = [])).
Proof.
  intros out run_of. subst out run_of. unfold Index.main, Index.debug.
  destruct (ActionInputsSchema raw) as [inputs |] eqn:Hparse.
  - step. rewrite <- !app_assoc. cbn [app].
    match goal with |- context [CoderTaskAction.run ?c ?o ?i ?st] =>
      change st with (main_before_run inputs s);
      destruct (run_reports_nothing c o i (main_before_run inputs s))
        as [tr1 [Ht1 Hr1]];
      destruct (CoderTaskAction.run c o i (main_before_run inputs s))
        as [[outputs | e |] s1] eqn:Hrun
    end; cbn [snd fst] in Ht1; step.
    + rewrite Ht1. cbn [main_before_run trace]. rewrite <- !app_assoc. cbn [app].
      eexists. split; [reflexivity |].
      left. exists inputs, outputs.
      split; [reflexivity |]. split; [rewrite Hrun; reflexivity |].
      split; [reflexivity |].
      unfold no_reports in Hr1; unfold reports in *; cbn [filter is_report]. rewrite filter_app, Hr1.
      reflexivity.
    + destruct (instanceof_Error e); step; rewrite Ht1; cbn [main_before_run trace];
        rewrite <- !app_assoc; cbn [app];
        (eexists; split; [reflexivity |]);
        right; left; eexists; eexists;
        (split; [right; exists inputs, e;
                 split; [reflexivity | rewrite Hrun; reflexivity] |]);
        (split; [reflexivity |]);
        (split; [unfold no_reports in Hr1; unfold reports in *; cbn [filter is_report];
                 rewrite filter_app, Hr1; reflexivity |]).
      * instantiate (1 := ([CoreDebug "Inputs validated successfully";
                            CoreDebug ("Coder URL: " ++ ActionInputs.coderURL inputs);
                            CoreDebug ("Template: "
                                       ++ ActionInputs.coderTemplateName inputs);
                            CoreDebug ("Organization: "
                                       ++ ActionInputs.coderOrganization inputs);
                            CoreDebug "Clients initialized"]
                           ++ tr1
                           ++ [CoreSetFailed (message_of e);
                               ConsoleError ("Action failed: " ++ string_of_error e);
                               ConsoleError "Stack trace:"])%list).
        rewrite <- !app_assoc. reflexivity.
      * instantiate (1 := ([CoreDebug "Inputs validated successfully";
                            CoreDebug ("Coder URL: " ++ ActionInputs.coderURL inputs);
                            CoreDebug ("Template: "
                                       ++ ActionInputs.coderTemplateName inputs);
                            CoreDebug ("Organization: "
                                       ++ ActionInputs.coderOrganization inputs);
                            CoreDebug "Clients initialized"]
                           ++ tr1
                           ++ [CoreSetFailed "Unknown error occurred";
                               ConsoleError ("Unknown error: " ++ string_of_error e)])%list).
        rewrite <- !app_assoc. reflexivity.
    + rewrite Ht1. cbn [main_before_run trace]. rewrite <- !app_assoc. cbn [app].
      eexists. split; [reflexivity |].
      right; right. exists inputs.
      split; [reflexivity |]. split; [rewrite Hrun; reflexivity |].
      split; [reflexivity |].
      unfold no_reports in Hr1; unfold reports in *; cbn [filter is_report]. rewrite ?filter_app, Hr1.
      reflexivity.
  - step. change (instanceof_Error (ZodError "ActionInputsSchema")) with true.
    step. rewrite <- ?app_assoc. cbn [app].
    eexists. split; [reflexivity |].
    right; left.
    exists "ActionInputsSchema",
      [CoreSetFailed "ActionInputsSchema";
       ConsoleError "Action failed: ZodError: ActionInputsSchema";
       ConsoleError "Stack trace:"].
    split; [left; split; reflexivity |].
    split; [reflexivity | split; reflexivity].
Qed.
